(* ===== verification/_CoqProject ===== *)
-Q . S2P
Prelude.v
VarMap.v
FileSystem.v
Utf8.v
JsonString.v
Json.v
Wire.v
SdkError.v
Interpolate.v
Handler.v
Strconv.v
Client.v
System.v
Concurrency.v
Sessions.v
