(* ===== verification/Prelude.v ===== *)
(** * A verification development of [worker tmpl] of CDS

    The program is [src/engine/worker/cmd_tmpl.go] (144 lines) of the CDS
    worker.  Two processes take part in one run of [worker tmpl src dst]:
    - the client, [tmplCmd] (lines 54-99), a short-lived process started
      inside a job's step: it reads the daemon's port from the variable
      [CDS_EXPORT_PORT], marshals [tmplPath{src, dst}] (lines 49-52) to
      JSON and sends [POST http://127.0.0.1:<port>/tmpl] with a five
      minute timeout; a status of 300 or more ends it with a diagnostic;
    - the daemon's handler, [tmplHandler] (lines 101-144): it reads and
      decodes the body, reads the source file, builds [tmpvars] from the
      job's build variables then its parameters (lines 124-130), calls
      [interpolate.Do], and writes the result to the destination with
      mode [0644]; every failure is answered with [writeError].

    ** Files, in dependency order
    - [Prelude]: [result] (Go's [(value, error)]), the go_scope with
      Go's [&^], folds of map inserts ([insert_all], [last_binding]),
      lemmas on strings, bytes and bit operations, the [go] hint
      databases and the tactics [zlia], [norm_pow2], [bits2arith].
    - [VarMap] (Module [VarMap]): [tmpvars], the two loops of lines
      124-130, and the reference resolution [resolve].
    - [FileSystem]: [ioutil.ReadFile] and [ioutil.WriteFile] over a map
      of paths to files and directories, with modes, umask, [O_TRUNC]
      and a device that can fill up ([ENOSPC] short writes);
      [WriteFile] is also split into its two system calls, the
      truncating open [open_trunc] and the write at offset 0
      [write_data] ([WriteFile_split]).
    - [Utf8], [JsonString], [Json]: the parts of Go's [unicode/utf8] and
      [encoding/json] that carry [tmplPath]: [DecodeRune]/[EncodeRune],
      the string encoder (HTML-safe escapes, U+FFFD for invalid UTF-8),
      the scanner, [unquoteBytes] with its fast path, [checkValid], field
      matching with [foldFunc], [Marshal]/[Unmarshal] of a struct of
      strings.
    - [Wire] (Module [Wire]): [tmplPath], [marshal_tmplPath] (line 72),
      [unmarshal_tmplPath] (lines 110-115).
    - [SdkError]: [sdk.Error], [sdk.NewError], [writeError],
      [sdk.DecodeError] (outside [src/]; from the specification).
    - [Interpolate]: the class [Interpolator], the contract of
      [interpolate.Do] (outside [src/]), and [spec_engine], an engine
      that meets it, used for the concrete runs.
    - [Handler] (Module [Handler], Section [WithEngine] over any
      [Interpolator]): [tmplHandler] in a state monad [M] over a [world]
      made of the file system and a trace of reads, writes and log lines.
    - [Strconv]: Go's [strconv.Atoi] for a 64-bit [int] (fast path and
      [ParseInt]/[ParseUint] with [uint64] wrap-around) and [%d].
    - [Client] (Module [Client]): [tmplCmd] over any [Transport S], the
      class of [http.Client.Do], with [os.Getenv], the port check of
      [url.Parse] and [sdk.Exit] as an [Err] outcome; [cmdTmpl] (lines
      20-47), the [cobra.Command] record whose [Run] is [tmplCmd].
    - [System]: [loopback], the transport of a daemon listening on a
      port for a job, and [run_tmpl], one run of the command against it.
    - [Concurrency] (Module [Concurrency]): the daemon serving several
      requests at once.  A request is a [thread] whose [phase] is the
      point of [tmplHandler] it has reached; [tstep] performs its next
      effect (decode, [ReadFile] with the interpolation, [log.Error],
      [WriteFile]'s open, [WriteFile]'s write) on the shared file
      system, and [sstep] lets any unfinished request take its step, so
      every interleaving of the effects is a run.  [run_schedule] runs
      an explicit schedule, for the concrete runs.
    - [Sessions] (Module [Sessions]): several [worker tmpl] processes
      against that daemon.  [tmplCmd_split] cuts [tmplCmd] around
      [client.Do]: [request_of] is the request it sends and [outcome]
      how it ends on a given answer of [client.Do].  A [net] holds the
      daemon, the process each goroutine serves and the processes
      ([pstate]: before [client.Do], blocked in it, or exited); [nstep]
      takes one labelled step: a goroutine's effect, a send (dial of the
      port and route, as [System.loopback_Do], then a new goroutine), a
      reply, or the expiry of [client.Timeout], after which the
      goroutine goes on without its client.

    ** What is proved
    - End to end ([System]): the success run (one request, the source
      read then the destination written with the interpolated text), the
      diagnostics of each failure (an unreadable source leaves the file
      system unchanged; a write failure reaches the operator only as
      [internal server error]), idempotence when the source is not the
      destination and the umask keeps the owner's write bit, and that a
      run changes no file but the destination; for every engine meeting
      the contract, a source without braces is copied and a lone
      reference becomes the job's value of the name.  Two concrete runs
      show why idempotence needs its hypotheses: with source =
      destination a second run writes different bytes, and with a umask
      of [0o222] a second run cannot open the file the first created.
    - The handler: each branch of the pipeline, its effects in order, the
      mode of the destination after a 200 answer (an existing file keeps
      its mode, a new one gets [0o644] minus the umask), the partial
      destination left by a full device, the frame of one path.
    - The variable mapping: [tmpvars] against [resolve] (parameters
      override build variables, last entry wins), and its domain.
    - The wire: the handler decodes what the client encodes, up to the
      U+FFFD repair of invalid UTF-8: a [tmplPath] comes back unchanged
      exactly when both paths are valid UTF-8 (the repair lengthens every
      string it changes, [JsonString.coerce_length]), resting on the JSON
      string round trip, the equivalence of [unquoteBytes]'s fast path
      with its loop, and the UTF-8 round trips.  The handler accepts any
      ASCII case of the two keys (against the reference [Wire.lower]),
      and a concrete body shows it also folds the long s onto [s].
    - The client: each exit before the request, the request it sends,
      its diagnostics, at most one request per run, and that its body is
      always a JSON object with the two string members; [Atoi] equals a
      reference parser and reads back [%d]; the example of [cmdTmpl]'s
      help gives the line the help promises.
    - Concurrency: every interleaving is finite (the step relation is
      well founded, by a rank of the phases) and takes at most four steps
      per request; from any state some interleaving answers every
      request; one request alone refines [tmplHandler] (the machine
      reaches the big-step result, and no other end); the file system
      stays well formed under any interleaving; requests whose
      destinations are distinct and never a request's source are
      isolated (each one answered 200 leaves the text it computes alone,
      by an invariant [iso] kept by every step).  What the daemon does
      not isolate, for any requests and file system: two requests with
      one destination whose opens both precede their writes end with the
      shorter result followed by the tail of the longer one
      ([FileSystem.write_data_shorter]), a text neither computed; and a
      request whose source is another's destination, reading between
      that one's truncating open and its write, copies the empty text
      ([FileSystem.ReadFile_open_trunc]).
    - Processes ([Sessions]): one process alone refines [run_tmpl]
      (it exits as [run_tmpl] returns, with the same file system);
      every run of processes and daemon is finite, timeouts included
      (a measure of six per unstarted process, one per blocked process,
      plus the goroutines' ranks); without further timeouts every
      process exits, whatever happened before; processes with
      independent paths are isolated: one that exits normally finds at
      its destination the text the handler computes alone, by an
      invariant [net_iso] that ties each goroutine to its process
      through the connection list; a concrete run shows that a process
      that timed out still has its file written afterwards.

    ** Fuel and bounds
    - [Json.check_valid] runs the parser with fuel [length data + 1]; each
      unit is spent on a nesting step or a member, both of which consume
      input, so the fuel is never the reason for a failure on the bodies
      the client sends ([Json.check_valid_marshal]).
    - [JsonString.enc_body] and [JsonString.unq] run on fuel [length s];
      any fuel of at least the length gives the same result
      ([JsonString.unq_fuel]), so the fuel never cuts a run short.
    - [Strconv.FormatInt] uses 20 digit steps, enough for [2^63].
    - [Concurrency] and [Sessions] need no fuel: [sstep] and
      [net_step] are relations whose termination is proved, and
      [run_schedule] and [run_labels] follow finite schedules.
    - Integers are [Z] with their Go width written out where it matters:
      [Atoi]'s [int64] range and [uint64] wrap-around, UTF-8 runes as
      32-bit values, file modes as 9 permission bits.

    ** Not modelled
    - cobra's dispatch of [cmdTmpl]: argument parsing and the call of
      [Run] belong to the library.
    - The daemon's HTTP server beyond dialing, the route [POST /tmpl]
      and one goroutine per request: its lifecycle, listener and request
      parsing; reading the request body (its failure is the [Err] body
      of the handler); the format of [log.Error]; the clock: a timeout
      may expire at any point while the process waits, which covers
      every duration of the handler's effects.
    - In [Concurrency], [ReadFile] reads the source in one step and
      [Write] writes its data in one step; reads and writes split into
      several system calls would only add interleavings.
    - Outside [src/] and left as the specification states them: the
      [sdk] package beyond the kinds, statuses and JSON body of its
      errors ([sdk.ProcessError]'s table of known errors and the
      localisation of messages), and [interpolate.Do] beyond the
      contract [Interpolator] (its template grammar).
    - [json.Marshal]'s error path (lines 73-75), which a struct of two
      strings never takes; [FoldBytes]'s non-ASCII case folding beyond
      the Kelvin sign and long s. *)

From stdpp Require Export base gmap strings list.
From Stdlib Require Export ZArith Ascii Lia.

Declare Scope go_scope.
Delimit Scope go_scope with go.

(** Go's AND NOT: [a &^ b] clears in [a] the bits set in [b]. *)
Notation "a &^ b" := (Z.land a (Z.lnot b)) (at level 40, left associativity) : go_scope.

(** ** Go's [(value, error)] convention

    A Go function that returns [(v, err)] and whose callers test
    [err != nil] is modelled as returning [result E A]. *)
Inductive result (E A : Type) : Type :=
  | Ok (a : A)
  | Err (e : E).
Arguments Ok {E A} a.
Arguments Err {E A} e.

#[export] Instance result_ret E : MRet (result E) := λ A a, Ok a.
#[export] Instance result_bind E : MBind (result E) :=
  λ A B f r, match r with Ok a => f a | Err e => Err e end.
#[export] Instance result_fmap E : FMap (result E) :=
  λ A B f r, match r with Ok a => Ok (f a) | Err e => Err e end.

Definition is_ok {E A} (r : result E A) : bool :=
  match r with Ok _ => true | Err _ => false end.

(** The value of a result, forgetting which error it is. *)
Definition ok_opt {E A} (r : result E A) : option A :=
  match r with Ok a => Some a | Err _ => None end.

(** ** Association lists written into a map, in order

    [for _, v := range xs { m[key(v)] = val(v) }] is a left fold of
    inserts; the value a key ends up with is that of its last binding. *)
Fixpoint last_binding {V} (k : string) (l : list (string * V)) : option V :=
  match l with
  | [] => None
  | (n, v) :: l' =>
      match last_binding k l' with
      | Some w => Some w
      | None => if decide (n = k) then Some v else None
      end
  end.

Definition insert_all {V} (m : gmap string V) (l : list (string * V)) : gmap string V :=
  foldl (λ acc kv, <[kv.1 := kv.2]> acc) m l.

Create HintDb go.
Create Rewrite HintDb go_rw.

Section InsertAll.
Context {V : Type}.
Implicit Types (m : gmap string V) (l : list (string * V)).

Lemma insert_all_app m l1 l2 :
  insert_all m (l1 ++ l2) = insert_all (insert_all m l1) l2.
Proof. unfold insert_all. by rewrite foldl_app. Qed.

Lemma last_binding_app k l1 l2 :
  last_binding k (l1 ++ l2) =
    match last_binding k l2 with Some v => Some v | None => last_binding k l1 end.
Proof.
  induction l1 as [|[n v] l1 IH]; simpl.
  - by destruct (last_binding k l2).
  - rewrite IH. by destruct (last_binding k l2).
Qed.

Lemma lookup_insert_all m l k :
  insert_all m l !! k =
    match last_binding k l with Some v => Some v | None => m !! k end.
Proof.
  revert m. induction l as [|[n v] l IH]; intros m; simpl; [done|].
  unfold insert_all in *. simpl. rewrite IH.
  destruct (last_binding k l); [done|].
  case_decide; subst; [by rewrite lookup_insert_eq | by rewrite lookup_insert_ne].
Qed.

Lemma last_binding_Some k l v :
  last_binding k l = Some v → (k, v) ∈ l.
Proof.
  induction l as [|[n w] l IH]; simpl; [done|].
  destruct (last_binding k l) eqn:E.
  - intros [= ->]. right. by apply IH.
  - case_decide; intros; simplify_eq. left.
Qed.

Lemma last_binding_None k l :
  last_binding k l = None ↔ k ∉ l.*1.
Proof.
  induction l as [|[n w] l IH]; simpl; [set_solver|].
  rewrite elem_of_cons.
  destruct (last_binding k l); [naive_solver|].
  case_decide; naive_solver.
Qed.

Lemma dom_insert_all m l :
  dom (insert_all m l) = list_to_set l.*1 ∪ dom m.
Proof.
  revert m. induction l as [|[n v] l IH]; intros m; simpl; [set_solver|].
  unfold insert_all in *; simpl. rewrite IH, dom_insert_L. set_solver.
Qed.
End InsertAll.

(** ** Byte strings *)

Lemma substring_0_length (s : string) : String.substring 0 (String.length s) s = s.
Proof. induction s as [|c s IH]; simpl; [done|]. by rewrite IH. Qed.

Lemma length_substring_0 (n : nat) (s : string) :
  String.length (String.substring 0 n s) = Nat.min n (String.length s).
Proof.
  revert n. induction s as [|c s IH]; intros [|n]; simpl; try done. by rewrite IH.
Qed.

(** ** Bit masks *)

Lemma land_bound_l (a c n : Z) :
  (0 ≤ n)%Z → (0 ≤ a < 2 ^ n)%Z → (0 ≤ Z.land a c < 2 ^ n)%Z.
Proof.
  intros Hn Ha.
  assert (E : Z.land a c = ((Z.land a c) mod 2 ^ n)%Z).
  { rewrite <- Z.land_ones by lia.
    rewrite <- Z.land_assoc, (Z.land_comm c), Z.land_assoc, Z.land_ones, Z.mod_small by lia.
    done. }
  rewrite E. apply Z.mod_pos_bound. lia.
Qed.

Lemma land_low_zero (c b k : Z) :
  (0 ≤ k)%Z → (c mod 2 ^ k = 0)%Z → (0 ≤ b < 2 ^ k)%Z → Z.land c b = 0%Z.
Proof.
  intros Hk Hc Hb. apply Z.bits_inj'. intros i Hi. rewrite Z.land_spec, Z.bits_0.
  destruct (Z.lt_ge_cases i k).
  - assert (Ec : c = Z.shiftl (c / 2 ^ k) k).
    { rewrite Z.shiftl_mul_pow2 by lia. rewrite (Z.div_mod c (2 ^ k)) at 1 by lia.
      rewrite Hc. ring. }
    rewrite Ec, Z.shiftl_spec_low by lia. done.
  - rewrite <- (Z.mod_small b (2 ^ k)) by lia. rewrite Z.mod_pow2_bits_high by lia.
    apply andb_false_r.
Qed.

(** An OR of a multiple of [2^k] with a value below [2^k] is their sum. *)
Lemma lor_add_low (c b k : Z) :
  (0 ≤ k)%Z → (c mod 2 ^ k = 0)%Z → (0 ≤ b < 2 ^ k)%Z → Z.lor c b = (c + b)%Z.
Proof.
  intros Hk Hc Hb. pose proof (Z.add_lor_land c b) as E.
  rewrite (land_low_zero c b k) in E by done. lia.
Qed.

Lemma land_ones_lit (x m k : Z) :
  (0 ≤ k)%Z → m = (2 ^ k - 1)%Z → Z.land x m = (x mod 2 ^ k)%Z.
Proof. intros Hk ->. rewrite <- Z.land_ones by done. f_equal. by rewrite Z.ones_equiv. Qed.

(** Turn the shifts, masks and ORs of byte-level code into [+], [*],
    [/] and [mod] by constants, for [lia]. *)
(** [lia] after naming the quotients and remainders of [/] and [mod]. *)
Ltac zlia := Z.to_euclidean_division_equations; lia.

Ltac norm_pow2 :=
  repeat match goal with
  | |- context [(2 ^ ?k)%Z] =>
      let v := eval vm_compute in (2 ^ k)%Z in change (2 ^ k)%Z with v
  end.

Ltac bits2arith :=
  repeat first
    [ progress norm_pow2
    | rewrite Z.shiftl_mul_pow2 by lia
    | rewrite Z.shiftr_div_pow2 by lia
    | match goal with
      | |- context [Z.land ?x ?m] =>
          let m' := eval compute in m in
          first [ rewrite (land_ones_lit x m 8) by (lia || reflexivity)
                | rewrite (land_ones_lit x m 6) by (lia || reflexivity)
                | rewrite (land_ones_lit x m 5) by (lia || reflexivity)
                | rewrite (land_ones_lit x m 4) by (lia || reflexivity)
                | rewrite (land_ones_lit x m 3) by (lia || reflexivity) ]
      | |- context [Z.lor ?c ?b] =>
          first [ rewrite (lor_add_low c b 6) by (norm_pow2; zlia)
                | rewrite (lor_add_low c b 12) by (norm_pow2; zlia)
                | rewrite (lor_add_low c b 18) by (norm_pow2; zlia)
                | rewrite (lor_add_low c b 4) by (norm_pow2; zlia)
                | rewrite (lor_add_low c b 3) by (norm_pow2; zlia) ]
      end ].

(** A boolean property of the integers of a small range, by evaluation. *)
Lemma Z_range_check (P : Z → bool) (lo len : Z) :
  forallb P (seqZ lo len) = true → ∀ n, (lo ≤ n < lo + len)%Z → P n = true.
Proof.
  intros H n Hn. rewrite List.forallb_forall in H. apply H.
  apply list_elem_of_In, elem_of_seqZ. lia.
Qed.

(** ** Bytes

    A Go [string] or [[]byte] is a [string] here: a list of [ascii],
    each an 8-bit byte.  [byte_val] and [byte_of] convert to and from
    the byte's value. *)
Definition byte_val (c : ascii) : Z := Z.of_N (N_of_ascii c).
Definition byte_of (z : Z) : ascii := ascii_of_N (Z.to_N z).

Lemma byte_val_bound c : (0 ≤ byte_val c < 256)%Z.
Proof.
  unfold byte_val. pose proof (N_ascii_bounded c). lia.
Qed.

Lemma byte_of_val c : byte_of (byte_val c) = c.
Proof. unfold byte_of, byte_val. by rewrite N2Z.id, ascii_N_embedding. Qed.

Lemma byte_val_of z : (0 ≤ z < 256)%Z → byte_val (byte_of z) = z.
Proof.
  intros Hz. unfold byte_of, byte_val. rewrite N_ascii_embedding; [lia|].
  apply N2Z.inj_lt. rewrite Z2N.id; lia.
Qed.

Lemma byte_val_inj c d : byte_val c = byte_val d → c = d.
Proof. intros H. by rewrite <- (byte_of_val c), H, byte_of_val. Qed.

(** stdpp makes [String.append] [simpl never]; its two equations. *)
Lemma sapp_nil_l (s : string) : ("" ++ s)%string = s.
Proof. reflexivity. Qed.
Lemma sapp_cons c (s t : string) : (String c s ++ t)%string = String c (s ++ t).
Proof. reflexivity. Qed.
Lemma sapp_nil_r (s : string) : (s ++ "")%string = s.
Proof. induction s as [|c s IH]; [done|]. by rewrite sapp_cons, IH. Qed.
Lemma sapp_assoc (s t u : string) : (s ++ (t ++ u) = (s ++ t) ++ u)%string.
Proof. induction s as [|c s IH]; [done|]. by rewrite !sapp_cons, IH. Qed.
Lemma length_sapp (s t : string) :
  String.length (s ++ t)%string = String.length s + String.length t.
Proof. induction s as [|c s IH]; [done|]. rewrite sapp_cons. simpl. by rewrite IH. Qed.

(** [s[:n]] and [s[n:]] on byte strings. *)
Fixpoint str_take (n : nat) (s : string) : string :=
  match n, s with
  | O, _ | _, EmptyString => EmptyString
  | S n', String c s' => String c (str_take n' s')
  end.

Fixpoint str_drop (n : nat) (s : string) : string :=
  match n, s with
  | O, _ => s
  | _, EmptyString => EmptyString
  | S n', String _ s' => str_drop n' s'
  end.

Lemma str_take_drop n s : (str_take n s ++ str_drop n s)%string = s.
Proof.
  revert s. induction n as [|n IH]; intros [|c s]; simpl; try done.
  by rewrite sapp_cons, IH.
Qed.

Lemma length_str_drop n s : String.length (str_drop n s) = String.length s - n.
Proof. revert s. induction n as [|n IH]; intros [|c s]; simpl; rewrite ?IH; lia. Qed.





Lemma str_drop_app n s t :
  String.length s = n → str_drop n (s ++ t)%string = t.
Proof.
  revert n. induction s as [|c s IH]; intros [|n] H; simpl in *; try lia; [done|].
  apply IH. lia.
Qed.

Lemma str_take_app n s t :
  String.length s = n → str_take n (s ++ t)%string = s.
Proof.
  revert n. induction s as [|c s IH]; intros [|n] H; simpl in *; try lia; [done|].
  rewrite IH; [done|lia].
Qed.

Lemma str_take_add a b s :
  str_take (a + b) s = (str_take a s ++ str_take b (str_drop a s))%string.
Proof.
  revert s. induction a as [|a IH]; intros [|c s]; simpl; try done.
  - by destruct b.
  - by rewrite IH, sapp_cons.
Qed.

Lemma str_drop_add a b s : str_drop (a + b) s = str_drop b (str_drop a s).
Proof. revert s. induction a as [|a IH]; intros [|c s]; simpl; try done. by destruct b. Qed.

Lemma str_take_all s : str_take (String.length s) s = s.
Proof. induction s as [|c s IH]; simpl; by rewrite ?IH. Qed.

Lemma str_drop_all s : str_drop (String.length s) s = ""%string.
Proof. induction s as [|c s IH]; simpl; by rewrite ?IH. Qed.

#[export] Hint Rewrite sapp_nil_l sapp_cons sapp_nil_r : go_rw.
#[export] Hint Rewrite @lookup_insert_all @last_binding_app @insert_all_app : go_rw.
