(* ===== verification/VarMap.v ===== *)
(** * The variable mapping of [tmplHandler]

    Lines 124-130 of [src/engine/worker/cmd_tmpl.go]: the handler builds
    [tmpvars] by writing the current job's build variables, then its
    parameters, into an empty [map[string]string]. *)
From S2P Require Import Prelude.

Module VarMap.

(** [sdk.Variable] and [sdk.Parameter] ([Variable] is a Rocq keyword): only [Name] and [Value] are read. *)
Record sdkVariable := { v_Name : string; v_Value : string }.
Record sdkParameter := { p_Name : string; p_Value : string }.

(** The part of [currentJob] that the handler reads. *)
Record currentJob := {
  buildVariables : list sdkVariable;
  params : list sdkParameter
}.

Definition var_pairs (vs : list sdkVariable) : list (string * string) :=
  map (λ v, (v_Name v, v_Value v)) vs.
Definition param_pairs (ps : list sdkParameter) : list (string * string) :=
  map (λ p, (p_Name p, p_Value p)) ps.

(** The two [for ... range] loops, in the order of the source. *)
Definition tmpvars (job : currentJob) : gmap string string :=
  let m0 := foldl (λ m v, <[v_Name v := v_Value v]> m) ∅ (buildVariables job) in
  foldl (λ m p, <[p_Name p := p_Value p]> m) m0 (params job).

(** ** The loops are inserts of the name/value pairs, build variables first *)

Lemma tmpvars_insert_all job :
  tmpvars job = insert_all (insert_all ∅ (var_pairs (buildVariables job)))
                           (param_pairs (params job)).
Proof.
  unfold tmpvars, insert_all, var_pairs, param_pairs. by rewrite !foldl_fmap.
Qed.

(** ** Resolution precedence *)

(** The reference resolution of a name: the last parameter of that name,
    else the last build variable of that name. *)
Definition resolve (job : currentJob) (k : string) : option string :=
  match last_binding k (param_pairs (params job)) with
  | Some v => Some v
  | None => last_binding k (var_pairs (buildVariables job))
  end.

(** C2: the value [tmpvars] gives a name is that of the last parameter
    with that name, else that of the last build variable with that name,
    else none: parameters override build variables, and among entries of
    one kind the later one wins. *)
Theorem tmpvars_lookup job k : tmpvars job !! k = resolve job k.
Proof.
  rewrite tmpvars_insert_all, !lookup_insert_all, lookup_empty. unfold resolve.
  by destruct (last_binding k (param_pairs (params job))),
              (last_binding k (var_pairs (buildVariables job))).
Qed.

(** The job of the example of [cmdTmpl]'s help: [cds.version] is both a
    build variable and a parameter. *)
Definition example_job : currentJob := {|
  buildVariables := [{| v_Name := "cds.version"; v_Value := "1" |};
                     {| v_Name := "cds.workspace"; v_Value := "/w" |}];
  params := [{| p_Name := "cds.version"; p_Value := "2" |}] |}.

(** Build variables never decide the value of a name that some
    parameter carries: replacing all build variables leaves that lookup
    unchanged. *)
Theorem tmpvars_build_irrelevant bvs bvs' ps k :
  k ∈ (param_pairs ps).*1 →
  tmpvars {| buildVariables := bvs; params := ps |} !! k =
  tmpvars {| buildVariables := bvs'; params := ps |} !! k.
Proof.
  intros Hk. rewrite !tmpvars_insert_all, !lookup_insert_all. simpl.
  destruct (last_binding k (param_pairs ps)) eqn:E; [done|].
  by apply last_binding_None in E.
Qed.

Lemma tmpvars_build_irrelevant_witness :
  "cds.version" ∈ (param_pairs (params example_job)).*1 ∧
  tmpvars example_job !! "cds.version" =
  tmpvars {| buildVariables := []; params := params example_job |} !! "cds.version".
Proof.
  split; [apply (bool_decide_unpack _); reflexivity|].
  apply (tmpvars_build_irrelevant (buildVariables example_job) [] (params example_job)).
  apply (bool_decide_unpack _); reflexivity.
Defined.

(** The names [tmpvars] binds are exactly the names of the build
    variables and of the parameters. *)
Theorem tmpvars_dom job :
  dom (tmpvars job) =
    list_to_set (map v_Name (buildVariables job)) ∪ list_to_set (map p_Name (params job)).
Proof.
  rewrite tmpvars_insert_all, !dom_insert_all, dom_empty_L.
  unfold var_pairs, param_pairs. rewrite <- !list_fmap_compose. set_solver.
Qed.

End VarMap.
