(* ===== verification/FileSystem.v ===== *)
(** * The local file system seen by [tmplHandler]

    The handler touches the file system twice: [ioutil.ReadFile(a.Path)]
    (line 117 of [src/engine/worker/cmd_tmpl.go]) and
    [ioutil.WriteFile(a.Destination, []byte(res), os.FileMode(0644))]
    (line 140).  This file models the file system as a map from
    normalized paths to nodes, and those two calls as Go's [ioutil]
    implements them on top of [open(2)] and [write(2)]: an open that can
    fail with [ENOENT], [ENOTDIR], [EACCES] or [EISDIR], [O_TRUNC] that
    empties an existing file and keeps its mode, [O_CREAT] whose mode is
    [perm &^ umask], and a write that can be short when the disk is full. *)
From S2P Require Import Prelude.

Module FileSystem.

Inductive errno := ENOENT | ENOTDIR | EACCES | EISDIR | ENOSPC.

(** [*os.PathError]: the operation, the path, the errno. *)
Record PathError := { pe_Op : string; pe_Path : string; pe_Err : errno }.

(** A node: a regular file with its bytes and permission bits, or a
    directory. *)
Inductive node :=
  | File (data : string) (mode : Z)
  | Dir.

Record fs := {
  nodes : gmap string node;
  umask : Z;
  free : nat  (** bytes left on the device *)
}.

Definition slash : ascii := "/"%char.

(** The directory part of a path: everything before its last ['/'];
    [""] (the working directory) when there is none. *)
Fixpoint dir_prefix (p : string) : option string :=
  match p with
  | EmptyString => None
  | String c rest =>
      match dir_prefix rest with
      | Some d => Some (String c d)
      | None => if decide (c = slash) then Some "" else None
      end
  end.

Definition parent (p : string) : string :=
  match dir_prefix p with
  | None => ""
  | Some "" => "/"
  | Some d => d
  end.

(** Owner permission bits: the worker owns the files it handles. *)
Definition owner_can_read (mode : Z) : bool := Z.testbit mode 8.
Definition owner_can_write (mode : Z) : bool := Z.testbit mode 7.

Definition perr (op p : string) (e : errno) : PathError :=
  {| pe_Op := op; pe_Path := p; pe_Err := e |}.

(** Can a new entry be created at [p]: its parent is the working
    directory, the root, or a directory of the map. *)
Definition parent_check (f : fs) (p : string) : option errno :=
  let d := parent p in
  if decide (d = "" ∨ d = "/") then None else
  match nodes f !! d with
  | Some Dir => None
  | Some (File _ _) => Some ENOTDIR
  | None => Some ENOENT
  end.

(** [ioutil.ReadFile]: [os.Open] then read to the end. Opening a
    directory succeeds and the read fails with [EISDIR]. *)
Definition ReadFile (f : fs) (p : string) : result PathError string :=
  if decide (p = "") then Err (perr "open" p ENOENT) else
  match nodes f !! p with
  | None =>
      match parent_check f p with
      | Some e => Err (perr "open" p e)
      | None => Err (perr "open" p ENOENT)
      end
  | Some Dir => Err (perr "read" p EISDIR)
  | Some (File data mode) =>
      if owner_can_read mode then Ok data else Err (perr "open" p EACCES)
  end.

(** [os.OpenFile(p, O_WRONLY|O_CREATE|O_TRUNC, perm)]: the file left
    empty, with its mode. *)
Definition open_trunc (f : fs) (p : string) (perm : Z) : result PathError (fs * Z) :=
  if decide (p = "") then Err (perr "open" p ENOENT) else
  match nodes f !! p with
  | Some Dir => Err (perr "open" p EISDIR)
  | Some (File old mode) =>
      if owner_can_write mode
      then Ok ({| nodes := <[p := File "" mode]> (nodes f); umask := umask f;
                  free := free f + String.length old |}, mode)
      else Err (perr "open" p EACCES)
  | None =>
      match parent_check f p with
      | Some e => Err (perr "open" p e)
      | None =>
          let mode := (perm &^ umask f)%go in
          Ok ({| nodes := <[p := File "" mode]> (nodes f); umask := umask f;
                 free := free f |}, mode)
      end
  end.

(** [ioutil.WriteFile]: open, one [Write] that stores as many bytes as
    the device has room for and reports [ENOSPC] when it is short. *)
Definition WriteFile (f : fs) (p : string) (data : string) (perm : Z)
    : result PathError unit * fs :=
  match open_trunc f p perm with
  | Err e => (Err e, f)
  | Ok (f1, mode) =>
      let n := Nat.min (String.length data) (free f1) in
      let f2 := {| nodes := <[p := File (String.substring 0 n data) mode]> (nodes f1);
                   umask := umask f1; free := free f1 - n |} in
      if decide (n < String.length data) then (Err (perr "write" p ENOSPC), f2)
      else (Ok tt, f2)
  end.

(** ** Well-formedness: permission bits are nine-bit values *)

Definition perm_bits (m : Z) : Prop := (0 ≤ m < 512)%Z.

Definition fs_wf (f : fs) : Prop :=
  perm_bits (umask f) ∧
  ∀ p data mode, nodes f !! p = Some (File data mode) → perm_bits mode.

(** The second half of [ioutil.WriteFile]: [f.Write(data)] on a file
    opened at offset 0, when other requests may run between the open and
    the write.  The write goes over whatever the file holds at that time,
    from its first byte, and stores as many bytes as the file's old size
    plus the free space allow; only the growth of the file takes space. *)
Definition write_data (f : fs) (p data : string) (mode : Z) : result PathError unit * fs :=
  let old := match nodes f !! p with Some (File d _) => d | _ => "" end in
  let n := Nat.min (String.length data) (String.length old + free f) in
  let content := (String.substring 0 n data ++ str_drop n old)%string in
  let f2 := {| nodes := <[p := File content mode]> (nodes f); umask := umask f;
               free := free f + String.length old - String.length content |} in
  if decide (n < String.length data) then (Err (perr "write" p ENOSPC), f2) else (Ok tt, f2).

(** A checkable form of [fs_wf]. *)
Definition node_perm_ok (n : node) : bool :=
  match n with File _ m => bool_decide (perm_bits m) | Dir => true end.

Lemma fs_wf_check f :
  bool_decide (perm_bits (umask f)) &&
  bool_decide (map_Forall (λ _ n, node_perm_ok n = true) (nodes f)) = true → fs_wf f.
Proof.
  intros [H1 H2]%andb_true_iff. apply bool_decide_eq_true in H1, H2.
  split; [done|]. intros p d m Hp. specialize (H2 p _ Hp). simpl in H2.
  by apply bool_decide_eq_true in H2.
Qed.

Lemma land_lnot_perm_bits perm u : perm_bits perm → perm_bits (perm &^ u)%go.
Proof.
  unfold perm_bits. intros H. by apply (land_bound_l _ _ 9).
Qed.

Ltac fs_cases :=
  repeat match goal with
  | |- context [decide ?P] => destruct (decide P)
  | |- context [match nodes ?f !! ?p with _ => _ end] =>
      let E := fresh "E" in destruct (nodes f !! p) as [[]|] eqn:E
  | |- context [match parent_check ?f ?p with _ => _ end] =>
      let E := fresh "E" in destruct (parent_check f p) eqn:E
  | |- context [if ?b then _ else _] =>
      let E := fresh "E" in destruct b eqn:E
  end; simpl in *.

(** The outcome of [open_trunc]: on success the node at [p] is an
    empty file whose mode is the old mode, or [perm &^ umask] for a new
    file, and nothing else changes. *)
Lemma open_trunc_Ok f p perm f1 mode :
  open_trunc f p perm = Ok (f1, mode) →
  nodes f1 = <[p := File "" mode]> (nodes f) ∧ umask f1 = umask f ∧
  match nodes f !! p with
  | Some (File old m) => mode = m ∧ owner_can_write m = true ∧ free f1 = free f + String.length old
  | Some Dir => False
  | None => mode = (perm &^ umask f)%go ∧ free f1 = free f
  end.
Proof. unfold open_trunc. fs_cases; intros; simplify_eq; naive_solver. Qed.

Lemma WriteFile_cases f p data perm :
  (∃ e, open_trunc f p perm = Err e ∧ WriteFile f p data perm = (Err e, f)) ∨
  (∃ f1 mode, open_trunc f p perm = Ok (f1, mode) ∧
     let n := Nat.min (String.length data) (free f1) in
     (WriteFile f p data perm).2 =
       {| nodes := <[p := File (String.substring 0 n data) mode]> (nodes f1);
          umask := umask f1; free := free f1 - n |} ∧
     (WriteFile f p data perm).1 =
       if decide (n < String.length data) then Err (perr "write" p ENOSPC) else Ok tt).
Proof.
  unfold WriteFile. destruct (open_trunc f p perm) as [[f1 mode]|e]; [right|left; eauto].
  exists f1, mode. split; [done|]. by case_decide.
Qed.

(** Writing [p] leaves every other path as it was, whatever the outcome. *)
Theorem WriteFile_frame f p data perm q :
  q ≠ p → nodes (WriteFile f p data perm).2 !! q = nodes f !! q.
Proof.
  intros Hq. destruct (WriteFile_cases f p data perm) as [(e & _ & ->)|(f1 & mode & Ho & -> & _)];
    [done|].
  apply open_trunc_Ok in Ho as (-> & _). simpl. by rewrite !lookup_insert_ne.
Qed.

(** A successful write stores exactly [data] at [p]. *)
Theorem WriteFile_Ok f p data perm :
  (WriteFile f p data perm).1 = Ok tt →
  ∃ mode, nodes (WriteFile f p data perm).2 !! p = Some (File data mode).
Proof.
  destruct (WriteFile_cases f p data perm) as [(e & _ & ->)|(f1 & mode & Ho & -> & ->)];
    [done|].
  case_decide; [done|]. intros _. exists mode. simpl. rewrite lookup_insert_eq.
  by rewrite Nat.min_l, substring_0_length by lia.
Qed.

(** ... and with the mode it had, or [perm &^ umask] for a new file:
    the truncating open never changes the mode of an existing file. *)
Lemma WriteFile_Ok_mode f p data perm :
  (WriteFile f p data perm).1 = Ok tt →
  nodes (WriteFile f p data perm).2 !! p =
    Some (File data (match nodes f !! p with Some (File _ m) => m | _ => (perm &^ umask f)%go end)).
Proof.
  destruct (WriteFile_cases f p data perm) as [(e & _ & ->)|(f1 & mode & Ho & -> & ->)]; [done|].
  case_decide; [done|]. intros _. apply open_trunc_Ok in Ho as (_ & _ & Hm). simpl.
  rewrite lookup_insert_eq, Nat.min_l, substring_0_length by lia.
  destruct (nodes f !! p) as [[old m|]|]; [destruct Hm as [-> _]|done|destruct Hm as [-> _]]; done.
Qed.

(** A write that runs out of space still truncates the file and leaves
    the bytes that fitted: the destination holds a strict prefix. *)
Theorem WriteFile_ENOSPC_partial f p data perm f1 mode :
  open_trunc f p perm = Ok (f1, mode) →
  free f1 < String.length data →
  WriteFile f p data perm =
    (Err (perr "write" p ENOSPC),
     {| nodes := <[p := File (String.substring 0 (free f1) data) mode]> (nodes f1);
        umask := umask f1; free := 0 |}).
Proof.
  intros Ho Hlt. unfold WriteFile. rewrite Ho.
  rewrite Nat.min_r by lia. case_decide; [|lia]. by rewrite Nat.sub_diag.
Qed.

(** The mode of a file that [WriteFile] creates has no bit that [perm]
    lacks. *)
Theorem WriteFile_created_mode f p data perm mode' data' :
  nodes f !! p = None →
  nodes (WriteFile f p data perm).2 !! p = Some (File data' mode') →
  ∀ i, Z.testbit mode' i = true → Z.testbit perm i = true.
Proof.
  intros Hnone. destruct (WriteFile_cases f p data perm)
    as [(e & _ & ->)|(f1 & mode & Ho & -> & _)]; [simpl; by rewrite Hnone|].
  apply open_trunc_Ok in Ho as (-> & _ & Hm). rewrite Hnone in Hm. destruct Hm as [-> _].
  cbn [nodes]. rewrite lookup_insert_eq. intros [= _ <-] i.
  rewrite Z.land_spec. by intros [? _]%andb_prop.
Qed.

(** [WriteFile] with a nine-bit [perm] preserves well-formedness. *)
Theorem WriteFile_wf f p data perm :
  perm_bits perm → fs_wf f → fs_wf (WriteFile f p data perm).2.
Proof.
  intros Hp [Hu Hf]. destruct (WriteFile_cases f p data perm)
    as [(e & _ & ->)|(f1 & mode & Ho & -> & _)]; [done|].
  apply open_trunc_Ok in Ho as (Hn & Hu1 & Hm). split; [simpl; by rewrite Hu1|].
  intros q d m. simpl. rewrite Hn. destruct (decide (q = p)) as [->|Hne].
  - rewrite lookup_insert_eq. intros [= _ <-].
    destruct (nodes f !! p) as [[]|] eqn:E; [|done|].
    + destruct Hm as [-> _]. eauto.
    + destruct Hm as [-> _]. by apply land_lnot_perm_bits.
  - rewrite !lookup_insert_ne by done. eauto.
Qed.

(** A successful read of [q] is not affected by a write of another path. *)
Lemma ReadFile_WriteFile_other f p q data perm d :
  q ≠ p → ReadFile f q = Ok d → ReadFile (WriteFile f p data perm).2 q = Ok d.
Proof.
  intros Hq Hr. unfold ReadFile in *. rewrite WriteFile_frame by done.
  destruct (decide (q = "")); [congruence|].
  destruct (nodes f !! q) as [[]|]; [done|done|]. by destruct (parent_check f q).
Qed.

Lemma WriteFile_umask f p data perm : umask (WriteFile f p data perm).2 = umask f.
Proof.
  destruct (WriteFile_cases f p data perm) as [(e & _ & ->)|(f1 & mode & Ho & -> & _)]; [done|].
  apply open_trunc_Ok in Ho as (_ & Hu & _). done.
Qed.

(** Writing the same bytes again is a no-op, as long as the umask lets
    the owner write the files it creates. *)
Theorem WriteFile_idem f p data perm f1 :
  Z.testbit (umask f) 7 = false → Z.testbit perm 7 = true →
  WriteFile f p data perm = (Ok tt, f1) → WriteFile f1 p data perm = (Ok tt, f1).
Proof.
  intros Hu Hp HW.
  assert (Hmode : ∃ mode, nodes f1 !! p = Some (File data mode) ∧ owner_can_write mode = true).
  { destruct (WriteFile_cases f p data perm) as [(e & _ & HW')|(f0 & mode & Ho & Hf1 & _)];
      [by rewrite HW' in HW|].
    rewrite HW in Hf1. cbn in Hf1. subst f1. exists mode. cbn [nodes].
    rewrite lookup_insert_eq. pose proof (open_trunc_Ok _ _ _ _ _ Ho) as (_ & _ & Hm).
    assert (Hlen : Nat.min (String.length data) (free f0) = String.length data).
    { unfold WriteFile in HW. rewrite Ho in HW. case_decide; [discriminate|lia]. }
    rewrite Hlen, substring_0_length. split; [done|].
    destruct (nodes f !! p) as [[]|]; [naive_solver|done|].
    destruct Hm as [-> _]. unfold owner_can_write. by rewrite Z.land_spec, Z.lnot_spec, Hu, Hp by lia. }
  destruct Hmode as (mode & Hn & Hw).
  assert (Hfree : (String.length data ≤ free f1 + String.length data)%nat) by lia.
  unfold WriteFile, open_trunc. rewrite Hn.
  destruct (decide (p = "")) as [->|].
  { exfalso. unfold WriteFile, open_trunc in HW. rewrite decide_True in HW by done. discriminate. }
  rewrite Hw. cbn [nodes free umask].
  rewrite Nat.min_l by lia. rewrite decide_False by lia. rewrite substring_0_length.
  rewrite insert_insert_eq, insert_id by done. f_equal. destruct f1; cbn. f_equal. lia.
Qed.

(** ** [ioutil.WriteFile] in two steps *)

Lemma str_drop_nil n : str_drop n "" = "".
Proof. by destruct n. Qed.

(** [WriteFile] is the truncating open followed by [write_data]. *)
Lemma WriteFile_split f p data perm :
  WriteFile f p data perm =
    match open_trunc f p perm with
    | Err e => (Err e, f)
    | Ok (f1, mode) => write_data f1 p data mode
    end.
Proof.
  unfold WriteFile. destruct (open_trunc f p perm) as [[f1 mode]|e] eqn:E; [|done].
  apply open_trunc_Ok in E as (Hn & Hu & _). unfold write_data.
  rewrite Hn, lookup_insert_eq, <- Hn. cbn [String.length].
  rewrite Nat.add_0_l, str_drop_nil, sapp_nil_r, length_substring_0.
  replace (Nat.min (Nat.min (String.length data) (free f1)) (String.length data))
    with (Nat.min (String.length data) (free f1)) by lia.
  by replace (free f1 + 0 - Nat.min (String.length data) (free f1))
    with (free f1 - Nat.min (String.length data) (free f1)) by lia.
Qed.

(** [write_data] changes the node of its path only. *)
Lemma write_data_frame f p data mode q :
  q ≠ p → nodes (write_data f p data mode).2 !! q = nodes f !! q.
Proof. intros Hq. unfold write_data. case_decide; cbn; by rewrite lookup_insert_ne. Qed.

Lemma open_trunc_frame f p perm f1 mode q :
  open_trunc f p perm = Ok (f1, mode) → q ≠ p → nodes f1 !! q = nodes f !! q.
Proof. intros (Hn & _)%open_trunc_Ok Hq. by rewrite Hn, lookup_insert_ne. Qed.

(** On a file left empty by the open, a write that fits stores the data. *)
Lemma write_data_empty f p data mode :
  nodes f !! p = Some (File "" mode) →
  ((write_data f p data mode).1 = Ok tt ↔ (String.length data ≤ free f)%nat) ∧
  ((write_data f p data mode).1 = Ok tt →
   nodes (write_data f p data mode).2 !! p = Some (File data mode)).
Proof.
  intros Hp. unfold write_data. rewrite Hp. cbn [String.length].
  rewrite Nat.add_0_l, str_drop_nil, sapp_nil_r.
  case_decide as Hn; cbn.
  { split; [split; [discriminate|intros; lia]|discriminate]. }
  split; [split; [intros _; lia|done]|]. intros _. rewrite lookup_insert_eq.
  replace (Nat.min (String.length data) (free f)) with (String.length data) by lia.
  by rewrite substring_0_length.
Qed.

(** A write over a longer file replaces its head and keeps the rest:
    [f.Write] at offset 0 of a file that was not truncated since. *)
Lemma write_data_shorter f p data mode old m :
  nodes f !! p = Some (File old m) → (String.length data ≤ String.length old)%nat →
  (write_data f p data mode).1 = Ok tt ∧
  nodes (write_data f p data mode).2 !! p =
    Some (File (data ++ str_drop (String.length data) old) mode).
Proof.
  intros Hp Hl. unfold write_data. rewrite Hp.
  rewrite Nat.min_l by lia. rewrite decide_False by lia. cbn.
  by rewrite lookup_insert_eq, substring_0_length.
Qed.

(** Between the open and the write, the file reads empty. *)
Lemma ReadFile_open_trunc f p perm f1 mode :
  open_trunc f p perm = Ok (f1, mode) → owner_can_read mode = true → ReadFile f1 p = Ok "".
Proof.
  intros Ho Hr. assert (p ≠ "") as Hp.
  { intros ->. unfold open_trunc in Ho. by rewrite decide_True in Ho. }
  apply open_trunc_Ok in Ho as (Hn & _). unfold ReadFile.
  by rewrite decide_False, Hn, lookup_insert_eq, Hr.
Qed.

(** The open keeps the file system well formed, and the mode it returns
    is a mode of permission bits. *)
Lemma open_trunc_wf f p perm f1 mode :
  perm_bits perm → fs_wf f → open_trunc f p perm = Ok (f1, mode) → fs_wf f1 ∧ perm_bits mode.
Proof.
  intros Hp [Hu Hf] Ho. apply open_trunc_Ok in Ho as (Hn & Hu1 & Hm).
  assert (perm_bits mode) as Hmode.
  { destruct (nodes f !! p) as [[]|] eqn:E; [|done|].
    - destruct Hm as [-> _]. eauto.
    - destruct Hm as [-> _]. by apply land_lnot_perm_bits. }
  split; [|done]. split; [unfold perm_bits in *; by rewrite Hu1|].
  intros q d m. rewrite Hn. destruct (decide (q = p)) as [->|Hne].
  - rewrite lookup_insert_eq. by intros [= _ <-].
  - rewrite lookup_insert_ne by done. eauto.
Qed.

Lemma write_data_wf f p data mode :
  perm_bits mode → fs_wf f → fs_wf (write_data f p data mode).2.
Proof.
  intros Hm [Hu Hf]. unfold write_data. case_decide; (split; [done|]); cbn;
    intros q d m; (destruct (decide (q = p)) as [->|Hne];
      [rewrite lookup_insert_eq; by intros [= _ <-]|rewrite lookup_insert_ne by done; eauto]).
Qed.
End FileSystem.
