(* ===== verification/Utf8.v ===== *)
(** * UTF-8 as Go's [unicode/utf8] package implements it

    [encoding/json], which carries the request of [worker tmpl]
    (lines 72 and 111 of [src/engine/worker/cmd_tmpl.go]), checks the
    UTF-8 of every string it encodes or decodes and replaces each byte
    that does not start a valid sequence by U+FFFD.  This file models
    [utf8.DecodeRune] (with Go's [first] table and accept ranges) and
    [utf8.EncodeRune] on 32-bit runes, with their bit operations. *)
From S2P Require Import Prelude.

Module Utf8.
Local Open Scope Z_scope.

Definition RuneError : Z := 65533.      (** U+FFFD *)
Definition RuneSelf : Z := 128.
Definition MaxRune : Z := 1114111.      (** U+10FFFF *)
Definition surrogateMin : Z := 55296.   (** 0xD800 *)
Definition surrogateMax : Z := 57343.   (** 0xDFFF *)

Definition t2 : Z := 192.
Definition t3 : Z := 224.
Definition t4 : Z := 240.
Definition tx : Z := 128.
Definition maskx : Z := 63.
Definition mask2 : Z := 31.
Definition mask3 : Z := 15.
Definition mask4 : Z := 7.
Definition rune1Max : Z := 127.
Definition rune2Max : Z := 2047.
Definition rune3Max : Z := 65535.
Definition locb : Z := 128.
Definition hicb : Z := 191.

(** Go's 256-entry [first] table, as the classification it encodes: an
    ASCII byte, a byte that cannot start a sequence, or the lead byte
    of a sequence of [sz] bytes whose second byte lies in [lo, hi]. *)
Inductive class := ASCII | XX | Lead (sz : nat) (lo hi : Z).

Definition first (p0 : Z) : class :=
  if p0 <? 128 then ASCII
  else if p0 <? 194 then XX
  else if p0 <? 224 then Lead 2 locb hicb
  else if p0 =? 224 then Lead 3 160 hicb
  else if p0 <? 237 then Lead 3 locb hicb
  else if p0 =? 237 then Lead 3 locb 159
  else if p0 <? 240 then Lead 3 locb hicb
  else if p0 =? 240 then Lead 4 144 hicb
  else if p0 <? 244 then Lead 4 locb hicb
  else if p0 =? 244 then Lead 4 locb 143
  else XX.

Definition in_range (lo hi b : Z) : bool := (lo <=? b) && (b <=? hi).

(** [utf8.DecodeRune]: the first rune of [p] and its width; [(RuneError, 1)]
    when [p] does not start with a valid sequence. *)
Definition DecodeRune (p : string) : Z * nat :=
  match p with
  | EmptyString => (RuneError, 0%nat)
  | String c0 rest =>
      let p0 := byte_val c0 in
      match first p0 with
      | ASCII => (p0, 1%nat)
      | XX => (RuneError, 1%nat)
      | Lead sz lo hi =>
          if (String.length p <? sz)%nat then (RuneError, 1%nat) else
          match rest with
          | EmptyString => (RuneError, 1%nat)
          | String c1 rest1 =>
              let b1 := byte_val c1 in
              if negb (in_range lo hi b1) then (RuneError, 1%nat) else
              if (sz =? 2)%nat then
                (Z.lor (Z.shiftl (Z.land p0 mask2) 6) (Z.land b1 maskx), 2%nat) else
              match rest1 with
              | EmptyString => (RuneError, 1%nat)
              | String c2 rest2 =>
                  let b2 := byte_val c2 in
                  if negb (in_range locb hicb b2) then (RuneError, 1%nat) else
                  if (sz =? 3)%nat then
                    (Z.lor (Z.lor (Z.shiftl (Z.land p0 mask3) 12)
                                  (Z.shiftl (Z.land b1 maskx) 6))
                           (Z.land b2 maskx), 3%nat) else
                  match rest2 with
                  | EmptyString => (RuneError, 1%nat)
                  | String c3 _ =>
                      let b3 := byte_val c3 in
                      if negb (in_range locb hicb b3) then (RuneError, 1%nat) else
                      (Z.lor (Z.lor (Z.lor (Z.shiftl (Z.land p0 mask4) 18)
                                           (Z.shiftl (Z.land b1 maskx) 12))
                                    (Z.shiftl (Z.land b2 maskx) 6))
                             (Z.land b3 maskx), 4%nat)
                  end
              end
          end
      end
  end.

(** Go's [byte(x)]: the low eight bits. *)
Definition gobyte (x : Z) : Z := Z.land x 255.

Definition bytes (l : list Z) : string :=
  foldr (λ b s, String (byte_of b) s) EmptyString l.

(** [utf8.EncodeRune]: the switch on [uint32(r)]; runes above [MaxRune]
    and surrogates fall through to the three-byte encoding of
    [RuneError]. *)
Definition EncodeRune (r : Z) : string :=
  let i := r mod 2 ^ 32 in
  if i <=? rune1Max then bytes [gobyte r]
  else if i <=? rune2Max then
    bytes [Z.lor t2 (gobyte (Z.shiftr r 6)); Z.lor tx (Z.land (gobyte r) maskx)]
  else
    let r := if (MaxRune <? i) || in_range surrogateMin surrogateMax i then RuneError else r in
    if (MaxRune <? i) || in_range surrogateMin surrogateMax i || (i <=? rune3Max) then
      bytes [Z.lor t3 (gobyte (Z.shiftr r 12)); Z.lor tx (Z.land (gobyte (Z.shiftr r 6)) maskx);
             Z.lor tx (Z.land (gobyte r) maskx)]
    else
      bytes [Z.lor t4 (gobyte (Z.shiftr r 18)); Z.lor tx (Z.land (gobyte (Z.shiftr r 12)) maskx);
             Z.lor tx (Z.land (gobyte (Z.shiftr r 6)) maskx); Z.lor tx (Z.land (gobyte r) maskx)].

(** A Unicode scalar value: what [EncodeRune] encodes as itself. *)
Definition scalar (r : Z) : Prop := 0 ≤ r ≤ MaxRune ∧ ¬ (surrogateMin ≤ r ≤ surrogateMax).


(** [utf8.ValidString]: every rune decodes without error.  Each step
    consumes at least one byte, so [String.length s] steps are enough. *)
Fixpoint valid_steps (fuel : nat) (s : string) : bool :=
  match fuel, s with
  | _, EmptyString => true
  | O, _ => false
  | S fuel', _ =>
      let '(r, n) := DecodeRune s in
      if (r =? RuneError) && (n =? 1)%nat then false else valid_steps fuel' (str_drop n s)
  end.

Definition ValidString (s : string) : bool := valid_steps (String.length s) s.

(** ** Deciding the comparisons of the byte-level code *)

Ltac unfold_consts :=
  cbv [RuneError RuneSelf MaxRune surrogateMin surrogateMax t2 t3 t4 tx maskx mask2 mask3
       mask4 rune1Max rune2Max rune3Max locb hicb in_range] in *.

Ltac zdecide :=
  unfold_consts;
  repeat (match goal with
          | |- context [(?a <? ?b)%Z] => destruct (Z.ltb_spec a b)
          | |- context [(?a <=? ?b)%Z] => destruct (Z.leb_spec a b)
          | |- context [(?a =? ?b)%Z] => destruct (Z.eqb_spec a b)
          end; simpl; try (exfalso; lia)).

Ltac bytes_congr :=
  repeat match goal with
  | |- String _ _ = String _ _ => f_equal
  | |- byte_of _ = byte_of _ => f_equal
  end.

Ltac byte_eq :=
  first [ reflexivity
        | apply byte_val_inj; rewrite ?byte_val_of by zlia; zlia ].

Lemma gobyte_small x : 0 ≤ x < 256 → gobyte x = x.
Proof. intros. unfold gobyte. rewrite (land_ones_lit x 255 8) by (lia || reflexivity). by apply Z.mod_small. Qed.

(** ** [EncodeRune] in closed form, per width *)

Lemma EncodeRune_1 r : 0 ≤ r ≤ rune1Max → EncodeRune r = bytes [r].
Proof.
  unfold EncodeRune, rune1Max. intros Hr. rewrite Z.mod_small by lia.
  zdecide. by rewrite gobyte_small by lia.
Qed.

Lemma EncodeRune_2 r :
  rune1Max < r ≤ rune2Max → EncodeRune r = bytes [192 + r / 64; 128 + r mod 64].
Proof.
  unfold EncodeRune, rune1Max, rune2Max. intros Hr. rewrite Z.mod_small by lia.
  zdecide. unfold gobyte. bits2arith. bytes_congr; zlia.
Qed.


Lemma EncodeRune_3 r :
  rune2Max < r ≤ rune3Max → ¬ (surrogateMin ≤ r ≤ surrogateMax) →
  EncodeRune r = bytes [224 + r / 4096; 128 + (r / 64) mod 64; 128 + r mod 64].
Proof.
  unfold EncodeRune. intros Hr Hs. unfold_consts. rewrite Z.mod_small by lia.
  zdecide; unfold gobyte; bits2arith; bytes_congr; zlia.
Qed.

Lemma EncodeRune_4 r :
  rune3Max < r ≤ MaxRune →
  EncodeRune r = bytes [240 + r / 262144; 128 + (r / 4096) mod 64;
                        128 + (r / 64) mod 64; 128 + r mod 64].
Proof.
  unfold EncodeRune. intros Hr. unfold_consts. rewrite Z.mod_small by lia.
  zdecide; unfold gobyte; bits2arith; bytes_congr; zlia.
Qed.

(** An int32 rune that is not a scalar value encodes as U+FFFD. *)
Lemma EncodeRune_invalid r :
  - 2 ^ 31 ≤ r < 2 ^ 31 → ¬ scalar r → EncodeRune r = bytes [239; 191; 189].
Proof.
  unfold EncodeRune, scalar. intros Hr Hs. unfold_consts.
  assert (Hi : r mod 2 ^ 32 = if r <? 0 then r + 2 ^ 32 else r).
  { zdecide; zlia. }
  rewrite Hi. clear Hi. zdecide; unfold gobyte; bits2arith; try reflexivity; exfalso; lia.
Qed.

Ltac bound_bytes :=
  repeat match goal with
  | c : ascii |- _ =>
      lazymatch goal with
      | _ : (0 ≤ byte_val c < 256)%Z |- _ => fail
      | _ => pose proof (byte_val_bound c)
      end
  end.

Ltac encode_closed :=
  first [ rewrite EncodeRune_1 by (unfold_consts; zlia)
        | rewrite EncodeRune_2 by (unfold_consts; zlia)
        | rewrite EncodeRune_3 by (unfold_consts; zlia)
        | rewrite EncodeRune_4 by (unfold_consts; zlia) ].

(** What [DecodeRune] reads without error is a scalar value whose
    encoding is exactly the bytes it read: valid UTF-8 is a fixed point
    of decode-then-encode. *)
Theorem DecodeRune_valid s r n :
  DecodeRune s = (r, n) → (r, n) ≠ (RuneError, 1%nat) → n ≠ 0%nat →
  scalar r ∧ EncodeRune r = str_take n s ∧ String.length (EncodeRune r) = n.
Proof.
  intros H Hne Hn. destruct s as [|c0 s]; [simpl in H; congruence|].
  destruct s as [|c1 [|c2 [|c3 s]]]; bound_bytes; revert H Hne;
    unfold DecodeRune, first; zdecide; intros HD HN; injection HD as <- <-;
    try congruence; simpl str_take; bits2arith;
    (split; [unfold scalar; unfold_consts; zlia|]); encode_closed;
    cbn [bytes foldr]; (split; [bytes_congr; symmetry; byte_eq | reflexivity]).
Qed.

(** [DecodeRune] reads back every scalar value that [EncodeRune] wrote,
    whatever follows it. *)
Theorem DecodeRune_EncodeRune r rest :
  scalar r →
  DecodeRune (EncodeRune r ++ rest) = (r, String.length (EncodeRune r)).
Proof.
  unfold scalar. intros Hr.
  assert (r ≤ rune1Max ∨ rune1Max < r ≤ rune2Max ∨ rune2Max < r ≤ rune3Max ∨
          rune3Max < r ≤ MaxRune) as [?|[?|[?|?]]] by (unfold_consts; lia);
    encode_closed; cbn [bytes foldr]; rewrite ?sapp_cons, ?sapp_nil_l;
    unfold DecodeRune; rewrite ?byte_val_of by (unfold_consts; zlia);
    unfold first; unfold_consts; zdecide; f_equal; bits2arith; zlia.
Qed.

(** Every byte of a multi-byte sequence is [>= 0x80]: no byte of an
    encoded non-ASCII rune is a quote, a backslash or a control byte. *)
Fixpoint all_high (s : string) : bool :=
  match s with
  | EmptyString => true
  | String c rest => (128 <=? byte_val c) && all_high rest
  end.

Lemma EncodeRune_high r :
  RuneSelf ≤ r → scalar r →
  ∃ c t, EncodeRune r = String c t ∧ all_high (String c t) = true.
Proof.
  unfold scalar. intros Hs Hr.
  assert (rune1Max < r ≤ rune2Max ∨ rune2Max < r ≤ rune3Max ∨ rune3Max < r ≤ MaxRune)
    as [?|[?|?]] by (unfold_consts; lia);
    encode_closed; cbn [bytes foldr]; eexists _, _; (split; [reflexivity|]);
    cbn [all_high]; rewrite ?byte_val_of by (unfold_consts; zlia);
    repeat rewrite (proj2 (Z.leb_le _ _)) by zlia; reflexivity.
Qed.

End Utf8.
