(* ===== verification/JsonString.v ===== *)
(** * JSON string literals as Go's [encoding/json] writes and reads them

    [json.Marshal] (line 72 of [src/engine/worker/cmd_tmpl.go]) writes
    each field of [tmplPath] with [encodeState.string(s, escapeHTML=true)];
    [json.Unmarshal] (line 111) first runs the scanner over the body
    ([stateInString] and the escape states) and then [unquoteBytes] on
    each string literal.  This file models the three, byte by byte:
    - [enc_body]: the encoder loop, one rune at a time;
    - [scan_str]: the scanner's string states, which find the closing
      quote and reject control bytes and malformed escapes;
    - [unquote]: [unquoteBytes], with its fast path for strings that
      need no rewriting and the loop that decodes escapes, joins UTF-16
      surrogate pairs and replaces invalid UTF-8 by U+FFFD. *)
From S2P Require Import Prelude Utf8.

Module JsonString.
Import Utf8.
Local Open Scope string_scope.
Local Open Scope Z_scope.

Definition dq : ascii := byte_of 34.      (** the double quote *)
Definition bslash : ascii := byte_of 92.  (** the backslash *)

Definition str1 (c : ascii) : string := String c EmptyString.

Definition hex : string := "0123456789abcdef".
Definition hexdigit (n : Z) : ascii :=
  match String.get (Z.to_nat n) hex with Some c => c | None => "0"%char end.

(** Go's [htmlSafeSet]: the ASCII bytes [Marshal] copies unchanged. *)
Definition htmlSafe (b : Z) : bool :=
  (32 <=? b) && (b <? 128) && negb (b =? 34) && negb (b =? 92) &&
  negb (b =? 60) && negb (b =? 62) && negb (b =? 38).

(** The escape of an ASCII byte that is not HTML-safe. *)
Definition escape_ascii (b : Z) : string :=
  if (b =? 92) || (b =? 34) then String bslash (str1 (byte_of b))
  else if b =? 10 then String bslash "n"
  else if b =? 13 then String bslash "r"
  else if b =? 9 then String bslash "t"
  else String bslash ("u00" ++ str1 (hexdigit (Z.shiftr b 4)) ++ str1 (hexdigit (Z.land b 15))).

(** The loop of [encodeState.string], one rune per step. *)
Fixpoint enc_body (fuel : nat) (s : string) : string :=
  match fuel, s with
  | _, EmptyString => EmptyString
  | O, _ => EmptyString
  | S fuel', String c rest =>
      let b := byte_val c in
      if b <? RuneSelf then
        (if htmlSafe b then str1 c else escape_ascii b) ++ enc_body fuel' rest
      else
        let '(r, size) := DecodeRune s in
        if (r =? RuneError) && (size =? 1)%nat then
          String bslash "ufffd" ++ enc_body fuel' rest
        else if (r =? 8232) || (r =? 8233) then
          String bslash ("u202" ++ str1 (hexdigit (Z.land r 15))) ++ enc_body fuel' (str_drop size s)
        else str_take size s ++ enc_body fuel' (str_drop size s)
  end.

Definition encode_string (s : string) : string :=
  String dq (enc_body (String.length s) s ++ str1 dq).

(** ** The scanner's string states *)

Definition is_hex (c : ascii) : bool :=
  let b := byte_val c in
  ((48 <=? b) && (b <=? 57)) || ((97 <=? b) && (b <=? 102)) || ((65 <=? b) && (b <=? 70)).

(** The escapes [stateInStringEsc] accepts besides [u]. *)
Definition simple_esc (e : ascii) : bool :=
  let b := byte_val e in
  (b =? 98) || (b =? 102) || (b =? 110) || (b =? 114) || (b =? 116) ||
  (b =? 92) || (b =? 47) || (b =? 34).

Definition cons_fst (pre : string) (o : option (string * string)) : option (string * string) :=
  match o with Some (a, r) => Some (pre ++ a, r) | None => None end.

(** From just after an opening quote: the literal's raw content and
    what follows the closing quote, or [None] for a syntax error. *)
Fixpoint scan_str (s : string) : option (string * string) :=
  match s with
  | EmptyString => None
  | String c rest =>
      if decide (c = dq) then Some (EmptyString, rest)
      else if decide (c = bslash) then
        match rest with
        | String e rest' =>
            if simple_esc e then cons_fst (String c (str1 e)) (scan_str rest')
            else if decide (e = "u"%char) then
              match rest' with
              | String h1 (String h2 (String h3 (String h4 rest''))) =>
                  if is_hex h1 && is_hex h2 && is_hex h3 && is_hex h4
                  then cons_fst (String c (String e (String h1 (String h2 (String h3 (str1 h4))))))
                                (scan_str rest'')
                  else None
              | _ => None
              end
            else None
        | EmptyString => None
        end
      else if byte_val c <? 32 then None
      else cons_fst (str1 c) (scan_str rest)
  end.

(** ** [unquoteBytes] *)

Definition hexval (c : ascii) : Z :=
  let b := byte_val c in
  if (48 <=? b) && (b <=? 57) then b - 48
  else if (97 <=? b) && (b <=? 102) then b - 87
  else if (65 <=? b) && (b <=? 70) then b - 55
  else -1.

(** [getu4]: the value of a [\uXXXX] escape at the head of [s]. *)
Definition getu4 (s : string) : option (Z * string) :=
  match s with
  | String b (String u (String h1 (String h2 (String h3 (String h4 rest))))) =>
      if bool_decide (b = bslash) && bool_decide (u = "u"%char) && is_hex h1 && is_hex h2 &&
         is_hex h3 && is_hex h4
      then Some (((hexval h1 * 16 + hexval h2) * 16 + hexval h3) * 16 + hexval h4, rest)
      else None
  | _ => None
  end.

Definition IsSurrogate (r : Z) : bool := (55296 <=? r) && (r <? 57344).

(** [utf16.DecodeRune]. *)
Definition utf16_DecodeRune (r1 r2 : Z) : Z :=
  if (55296 <=? r1) && (r1 <? 56320) && (56320 <=? r2) && (r2 <? 57344)
  then Z.lor (Z.shiftl (r1 - 55296) 10) (r2 - 56320) + 65536
  else RuneError.

Definition simple_unesc (e : ascii) : option ascii :=
  let b := byte_val e in
  if (b =? 34) || (b =? 92) || (b =? 47) || (b =? 39) then Some e
  else if b =? 98 then Some (byte_of 8)
  else if b =? 102 then Some (byte_of 12)
  else if b =? 110 then Some (byte_of 10)
  else if b =? 114 then Some (byte_of 13)
  else if b =? 116 then Some (byte_of 9)
  else None.

Definition app_opt (pre : string) (o : option string) : option string :=
  match o with Some a => Some (pre ++ a) | None => None end.

(** The rewriting loop of [unquoteBytes], from index [r] on. *)
Fixpoint unq (fuel : nat) (s : string) : option string :=
  match fuel, s with
  | _, EmptyString => Some EmptyString
  | O, _ => None
  | S fuel', String c rest =>
      if decide (c = bslash) then
        match rest with
        | EmptyString => None
        | String e rest' =>
            match simple_unesc e with
            | Some out => app_opt (str1 out) (unq fuel' rest')
            | None =>
                if decide (e = "u"%char) then
                  match getu4 s with
                  | None => None
                  | Some (rr, after) =>
                      if IsSurrogate rr then
                        match getu4 after with
                        | Some (rr1, after2) =>
                            let dec := utf16_DecodeRune rr rr1 in
                            if dec =? RuneError
                            then app_opt (EncodeRune RuneError) (unq fuel' after)
                            else app_opt (EncodeRune dec) (unq fuel' after2)
                        | None => app_opt (EncodeRune RuneError) (unq fuel' after)
                        end
                      else app_opt (EncodeRune rr) (unq fuel' after)
                  end
                else None
            end
        end
      else if bool_decide (c = dq) || (byte_val c <? 32) then None
      else if byte_val c <? RuneSelf then app_opt (str1 c) (unq fuel' rest)
      else
        let '(rr, size) := DecodeRune s in
        app_opt (EncodeRune rr) (unq fuel' (str_drop size s))
  end.

(** The first loop of [unquoteBytes]: the length of the prefix that
    needs no rewriting (no backslash, quote or control byte, valid UTF-8). *)
Fixpoint plain_prefix (fuel : nat) (s : string) : nat :=
  match fuel, s with
  | _, EmptyString => 0%nat
  | O, _ => 0%nat
  | S fuel', String c rest =>
      let b := byte_val c in
      if (b =? 92) || (b =? 34) || (b <? 32) then 0%nat
      else if b <? RuneSelf then S (plain_prefix fuel' rest)
      else
        let '(rr, size) := DecodeRune s in
        if (rr =? RuneError) && (size =? 1)%nat then 0%nat
        else (size + plain_prefix fuel' (str_drop size s))%nat
  end.

(** [unquoteBytes] on the content between the quotes: the plain prefix
    is returned as it is ([r == len(s)]) or copied, and the loop runs on
    the rest. *)
Definition unquote (s : string) : option string :=
  let r := plain_prefix (String.length s) s in
  if (r =? String.length s)%nat then Some s
  else app_opt (str_take r s) (unq (String.length s) (str_drop r s)).

(** ** The reference: what a string becomes after the round trip

    Go replaces each byte that does not start a valid UTF-8 sequence by
    U+FFFD and keeps everything else. *)
Fixpoint coerce (fuel : nat) (s : string) : string :=
  match fuel, s with
  | _, EmptyString => EmptyString
  | O, _ => EmptyString
  | S fuel', String c rest =>
      if byte_val c <? RuneSelf then String c (coerce fuel' rest)
      else
        let '(r, size) := DecodeRune s in
        if (r =? RuneError) && (size =? 1)%nat then EncodeRune RuneError ++ coerce fuel' rest
        else str_take size s ++ coerce fuel' (str_drop size s)
  end.

Definition ToValidUTF8 (s : string) : string := coerce (String.length s) s.

(** ** Hex digits *)

Lemma hexdigit_spec n : 0 ≤ n < 16 → is_hex (hexdigit n) = true ∧ hexval (hexdigit n) = n.
Proof.
  intros Hn.
  pose proof (Z_range_check (λ n, is_hex (hexdigit n) && bool_decide (hexval (hexdigit n) = n))
                0 16 eq_refl n Hn) as H.
  apply andb_prop in H as [H1 H2]. by apply bool_decide_eq_true in H2.
Qed.

Lemma getu4_hexdigits h1 h2 h3 h4 rest :
  0 ≤ h1 < 16 → 0 ≤ h2 < 16 → 0 ≤ h3 < 16 → 0 ≤ h4 < 16 →
  getu4 (String bslash (String "u" (String (hexdigit h1) (String (hexdigit h2)
           (String (hexdigit h3) (String (hexdigit h4) rest))))))
  = Some (((h1 * 16 + h2) * 16 + h3) * 16 + h4, rest).
Proof.
  intros H1 H2 H3 H4. cbn [getu4].
  destruct (hexdigit_spec h1 H1) as [-> ->], (hexdigit_spec h2 H2) as [-> ->],
    (hexdigit_spec h3 H3) as [-> ->], (hexdigit_spec h4 H4) as [-> ->].
  reflexivity.
Qed.

Lemma hexdigit_0 : hexdigit 0 = "0"%char.
Proof. reflexivity. Qed.

Lemma unq_escape b rest m :
  0 ≤ b < 128 → htmlSafe b = false →
  unq (S m) (escape_ascii b ++ rest) = app_opt (str1 (byte_of b)) (unq m rest).
Proof.
  intros Hb Hs. unfold escape_ascii.
  destruct (Z.eqb_spec b 92) as [->|]; [reflexivity|].
  destruct (Z.eqb_spec b 34) as [->|]; [reflexivity|]. simpl orb.
  destruct (Z.eqb_spec b 10) as [->|]; [reflexivity|].
  destruct (Z.eqb_spec b 13) as [->|]; [reflexivity|].
  destruct (Z.eqb_spec b 9) as [->|]; [reflexivity|].
  unfold str1. repeat (rewrite sapp_cons || rewrite sapp_nil_l). rewrite <- !hexdigit_0. cbn [unq].
  rewrite decide_True by done. change (simple_unesc "u") with (@None ascii).
  rewrite decide_True by done.
  rewrite getu4_hexdigits by (bits2arith; zlia).
  replace (((0 * 16 + 0) * 16 + Z.shiftr b 4) * 16 + Z.land b 15) with b
    by (bits2arith; zlia).
  replace (IsSurrogate b) with false by (unfold IsSurrogate; zdecide; reflexivity).
  rewrite EncodeRune_1 by (unfold_consts; lia). reflexivity.
Qed.

Lemma unq_ascii c rest m :
  32 ≤ byte_val c < 128 → c ≠ bslash → c ≠ dq →
  unq (S m) (String c rest) = app_opt (str1 c) (unq m rest).
Proof.
  intros Hc H1 H2. cbn [unq]. rewrite decide_False, bool_decide_false by done.
  unfold RuneSelf. replace (byte_val c <? 32) with false by (symmetry; apply Z.ltb_ge; lia).
  by replace (byte_val c <? 128) with true by (symmetry; apply Z.ltb_lt; lia).
Qed.

Lemma unq_high c rest m :
  RuneSelf ≤ byte_val c →
  unq (S m) (String c rest) =
    let '(rr, size) := DecodeRune (String c rest) in
    app_opt (EncodeRune rr) (unq m (str_drop size (String c rest))).
Proof.
  intros Hc. unfold RuneSelf in Hc. cbn [unq].
  rewrite decide_False by (intros ->; change (byte_val bslash) with 92 in Hc; lia).
  rewrite bool_decide_false by (intros ->; change (byte_val dq) with 34 in Hc; lia).
  replace (byte_val c <? 32) with false by (symmetry; apply Z.ltb_ge; lia).
  by replace (byte_val c <? RuneSelf) with false by (symmetry; apply Z.ltb_ge; unfold RuneSelf; lia).
Qed.

Lemma htmlSafe_spec b : htmlSafe b = true → 32 ≤ b < 128 ∧ b ≠ 34 ∧ b ≠ 92.
Proof.
  unfold htmlSafe. intros Hs. repeat (apply andb_prop in Hs as [Hs ?]).
  repeat match goal with H : negb _ = true |- _ => apply negb_true_iff, Z.eqb_neq in H end.
  apply Z.leb_le in Hs. apply Z.ltb_lt in H4. lia.
Qed.

Lemma unq_plain c rest m :
  htmlSafe (byte_val c) = true →
  unq (S m) (String c rest) = app_opt (str1 c) (unq m rest).
Proof.
  intros (? & ? & ?)%htmlSafe_spec. apply unq_ascii; [lia| |]; intros ->; done.
Qed.

Lemma unq_fffd rest m :
  unq (S m) (String bslash "ufffd" ++ rest) = app_opt (EncodeRune RuneError) (unq m rest).
Proof. repeat (rewrite sapp_cons || rewrite sapp_nil_l). reflexivity. Qed.

Lemma unq_rune s r size rest m :
  DecodeRune s = (r, size) → (r, size) ≠ (RuneError, 1%nat) → size ≠ 0%nat → RuneSelf ≤ r →
  unq (S m) (str_take size s ++ rest) = app_opt (str_take size s) (unq m rest).
Proof.
  intros HD Hne Hsz Hr. destruct (DecodeRune_valid s r size HD Hne Hsz) as (Hsc & HE & HL).
  rewrite <- HE. destruct (EncodeRune_high r Hr Hsc) as (c & t & Ect & Hhigh).
  pose proof (DecodeRune_EncodeRune r rest Hsc) as Hdec.
  rewrite Ect in *. cbn [all_high] in Hhigh. apply andb_prop in Hhigh as [Hc _].
  apply Z.leb_le in Hc. rewrite sapp_cons. cbn [unq].
  rewrite decide_False by (intros ->; change (byte_val bslash) with 92 in Hc; lia).
  rewrite bool_decide_false by (intros ->; change (byte_val dq) with 34 in Hc; lia).
  unfold RuneSelf. replace (byte_val c <? 32) with false by (symmetry; apply Z.ltb_ge; lia).
  replace (byte_val c <? 128) with false by (symmetry; apply Z.ltb_ge; lia).
  rewrite <- sapp_cons, Hdec. cbv iota beta. cbn [orb]. rewrite Ect, str_drop_app; done.
Qed.

Lemma unq_2028 s r rest m :
  DecodeRune s = (r, 3%nat) → (r =? 8232) || (r =? 8233) = true →
  unq (S m) (String bslash ("u202" ++ str1 (hexdigit (Z.land r 15))) ++ rest) =
  app_opt (str_take 3 s) (unq m rest).
Proof.
  intros HD Hr. destruct (DecodeRune_valid s r 3 HD) as (_ & HE & _); [congruence|lia|].
  rewrite <- HE. unfold str1.
  apply orb_prop in Hr as [->%Z.eqb_eq | ->%Z.eqb_eq];
    repeat (rewrite sapp_cons || rewrite sapp_nil_l); reflexivity.
Qed.

Lemma DecodeRune_nonempty c rest r n : DecodeRune (String c rest) = (r, n) → n ≠ 0%nat.
Proof. unfold DecodeRune. repeat case_match; intros; simplify_eq; lia. Qed.

Lemma DecodeRune_high c rest r n :
  DecodeRune (String c rest) = (r, n) → (r, n) ≠ (RuneError, 1%nat) →
  RuneSelf ≤ byte_val c → RuneSelf ≤ r.
Proof.
  intros HD Hne Hc. pose proof (DecodeRune_nonempty _ _ _ _ HD) as Hn.
  destruct (DecodeRune_valid _ _ _ HD Hne Hn) as ((Hr0 & _) & HE & _).
  destruct (Z.lt_ge_cases r RuneSelf) as [Hlt|]; [|done].
  rewrite EncodeRune_1 in HE by (unfold_consts; lia). destruct n as [|n]; [done|].
  cbn in HE. injection HE as <- _. rewrite byte_val_of in Hc by (unfold_consts; lia). lia.
Qed.

Lemma escape_ascii_length b : (2 ≤ String.length (escape_ascii b))%nat.
Proof. unfold escape_ascii. repeat case_match; simpl; rewrite ?length_sapp; simpl; lia. Qed.

Lemma unq_nil m : unq m "" = Some "".
Proof. by destruct m. Qed.

(** Decoding what [enc_body] wrote gives the UTF-8-coerced string. *)
Theorem unq_enc_body n s m :
  (String.length s ≤ n)%nat → (String.length (enc_body n s) ≤ m)%nat →
  unq m (enc_body n s) = Some (coerce n s).
Proof.
  revert s m. induction n as [|n IH]; intros s m Hs Hm.
  { destruct s; [|simpl in Hs; lia]. by rewrite unq_nil. }
  destruct s as [|c rest]; [by rewrite unq_nil|]. simpl in Hs.
  cbn [enc_body coerce] in *. destruct (byte_val c <? RuneSelf) eqn:Hc.
  - apply Z.ltb_lt in Hc. unfold RuneSelf in Hc. pose proof (byte_val_bound c).
    rewrite length_sapp in Hm. destruct (htmlSafe (byte_val c)) eqn:Hh.
    + destruct m as [|m]; [simpl in Hm; lia|]. unfold str1 at 1. rewrite sapp_cons, sapp_nil_l, unq_plain by done.
      rewrite IH by (simpl in Hm; lia). done.
    + pose proof (escape_ascii_length (byte_val c)).
      destruct m as [|m]; [lia|]. rewrite unq_escape, byte_of_val by (done || lia).
      rewrite IH; [done|lia..].
  - destruct (DecodeRune (String c rest)) as [r size] eqn:HD.
    pose proof (DecodeRune_nonempty _ _ _ _ HD) as Hsz. cbv beta iota in Hm |- *.
    destruct ((r =? RuneError) && (size =? 1)%nat) eqn:He.
    { rewrite !length_sapp in Hm. destruct m as [|m]; [simpl in Hm; lia|].
      rewrite unq_fffd, IH by (simpl in Hm; lia). done. }
    assert (Hne : (r, size) ≠ (RuneError, 1%nat)).
    { intros [= -> ->]. by rewrite Z.eqb_refl in He. }
    destruct (DecodeRune_valid _ _ _ HD Hne Hsz) as (_ & HE & HL).
    pose proof (length_str_drop size (String c rest)) as Hdrop. simpl in Hdrop.
    destruct ((r =? 8232) || (r =? 8233)) eqn:H2028; rewrite !length_sapp in Hm.
    + assert (size = 3%nat) as ->.
      { rewrite <- HL. apply orb_prop in H2028 as [->%Z.eqb_eq | ->%Z.eqb_eq]; reflexivity. }
      destruct m as [|m]; [simpl in Hm; lia|].
      rewrite (unq_2028 (String c rest)) by done.
      rewrite IH; [done|lia|cbn [String.length] in Hm; rewrite ?length_sapp in Hm; cbn [String.length str1] in Hm; lia].
    + apply Z.ltb_ge in Hc.
      pose proof (DecodeRune_high _ _ _ _ HD Hne Hc) as Hr.
      destruct m as [|m].
      { rewrite <- HE, HL in Hm. lia. }
      rewrite (unq_rune (String c rest) r) by done. rewrite IH; [done|lia|].
      rewrite <- HE, HL in Hm. lia.
Qed.

Lemma getu4_length s v after : getu4 s = Some (v, after) → String.length s = (6 + String.length after)%nat.
Proof. unfold getu4. repeat case_match; intros; simplify_eq; done. Qed.

Lemma DecodeRune_size s r n : s ≠ "" → DecodeRune s = (r, n) → (1 ≤ n ≤ String.length s)%nat.
Proof.
  intros Hs. destruct s as [|c0 s]; [done|].
  destruct s as [|c1 [|c2 [|c3 s]]]; unfold DecodeRune; repeat case_match; intros; simplify_eq;
    simpl in *; lia.
Qed.

(** The result of [unq] does not depend on the fuel, once there is one
    unit per byte. *)
Lemma unq_fuel m1 m2 s :
  (String.length s ≤ m1)%nat → (String.length s ≤ m2)%nat → unq m1 s = unq m2 s.
Proof.
  revert m2 s. induction m1 as [|m1 IH]; intros m2 s H1 H2.
  { destruct s; [by rewrite !unq_nil|simpl in H1; lia]. }
  destruct s as [|c rest]; [by rewrite !unq_nil|]. destruct m2 as [|m2]; [simpl in H2; lia|].
  cbn [unq]. simpl in H1, H2.
  repeat (case_match; try done); try (f_equal; apply IH; simpl in *; lia);
  repeat match goal with
  | H : getu4 _ = Some _ |- _ => apply getu4_length in H; simpl in H
  | H : DecodeRune (String _ _) = _ |- _ => apply DecodeRune_size in H; [|done]
  end; f_equal; apply IH; try (rewrite length_str_drop); simpl in *; lia.
Qed.


Lemma app_opt_app p q o : app_opt p (app_opt q o) = app_opt (p ++ q) o.
Proof. destruct o; simpl; [by rewrite sapp_assoc|done]. Qed.

Lemma app_opt_nil o : app_opt "" o = o.
Proof. by destruct o. Qed.

(** The fast path of [unquoteBytes]: the plain prefix comes out of [unq]
    unchanged. *)
Lemma unq_plain_prefix n s :
  (String.length s ≤ n)%nat →
  unq n s = app_opt (str_take (plain_prefix n s) s) (unq n (str_drop (plain_prefix n s) s)).
Proof.
  revert s. induction n as [|n IH]; intros s Hs.
  { destruct s; [done|simpl in Hs; lia]. }
  destruct s as [|c rest]; [done|]. simpl in Hs. cbn [plain_prefix].
  pose proof (byte_val_bound c) as Hb.
  destruct ((byte_val c =? 92) || (byte_val c =? 34) || (byte_val c <? 32)) eqn:Hsp.
  { simpl. by rewrite app_opt_nil. }
  repeat rewrite orb_false_iff in Hsp. destruct Hsp as [[H92 H34] H32].
  apply Z.eqb_neq in H92, H34. apply Z.ltb_ge in H32.
  assert (c ≠ bslash) by (intros ->; done). assert (c ≠ dq) by (intros ->; done).
  destruct (byte_val c <? RuneSelf) eqn:Hlow.
  - apply Z.ltb_lt in Hlow. unfold RuneSelf in Hlow.
    rewrite unq_ascii by (done || lia). rewrite (IH rest) by lia. cbn [str_take str_drop].
    rewrite app_opt_app. f_equal. apply unq_fuel; rewrite length_str_drop; lia.
  - destruct (DecodeRune (String c rest)) as [r size] eqn:HD. cbv beta iota.
    destruct ((r =? RuneError) && (size =? 1)%nat) eqn:He.
    { simpl. by rewrite app_opt_nil. }
    assert (Hne : (r, size) ≠ (RuneError, 1%nat)).
    { intros [= -> ->]. by rewrite Z.eqb_refl in He. }
    pose proof (DecodeRune_size (String c rest) _ _ ltac:(congruence) HD) as Hsz.
    destruct (DecodeRune_valid _ _ _ HD Hne ltac:(lia)) as (_ & HE & _).
    apply Z.ltb_ge in Hlow. rewrite unq_high, HD by done. cbv beta iota.
    rewrite (IH (str_drop size (String c rest))) by (rewrite length_str_drop; simpl; lia).
    rewrite HE, app_opt_app, <- str_take_add, str_drop_add. f_equal.
    apply unq_fuel; rewrite !length_str_drop; simpl in *; lia.
Qed.


(** [unquoteBytes] with its fast path computes the same as its loop. *)
Theorem unquote_unq s : unquote s = unq (String.length s) s.
Proof.
  unfold unquote. rewrite (unq_plain_prefix (String.length s) s) by lia.
  destruct (Nat.eqb_spec (plain_prefix (String.length s) s) (String.length s)) as [->|]; [|done].
  rewrite str_take_all, str_drop_all, unq_nil. cbn [app_opt]. by rewrite sapp_nil_r.
Qed.

Lemma DecodeRune_ascii c rest :
  byte_val c < RuneSelf → DecodeRune (String c rest) = (byte_val c, 1%nat).
Proof.
  intros Hc. pose proof (byte_val_bound c). unfold DecodeRune, first.
  unfold_consts. by replace (byte_val c <? 128) with true by (symmetry; apply Z.ltb_lt; lia).
Qed.

Lemma coerce_valid n s :
  (String.length s ≤ n)%nat → valid_steps n s = true → coerce n s = s.
Proof.
  revert s. induction n as [|n IH]; intros s Hs Hv; [destruct s; [done|simpl in Hs; lia]|].
  destruct s as [|c rest]; [done|]. simpl in Hs. cbn [valid_steps coerce] in *.
  destruct (byte_val c <? RuneSelf) eqn:Hc.
  - apply Z.ltb_lt in Hc. rewrite DecodeRune_ascii in Hv by done. cbv beta iota in Hv.
    replace (byte_val c =? RuneError) with false in Hv by (symmetry; apply Z.eqb_neq; unfold_consts; lia).
    simpl in Hv. by rewrite IH by (done || lia).
  - destruct (DecodeRune (String c rest)) as [r size] eqn:HD.
    destruct ((r =? RuneError) && (size =? 1)%nat); [done|].
    pose proof (DecodeRune_size (String c rest) _ _ ltac:(congruence) HD) as Hsz.
    rewrite IH; [by rewrite str_take_drop| |done]. rewrite length_str_drop. simpl. lia.
Qed.

(** On valid UTF-8 the coercion is the identity. *)
Theorem ToValidUTF8_valid s : ValidString s = true → ToValidUTF8 s = s.
Proof. intros Hv. by apply coerce_valid. Qed.

(** The coercion never shortens a string, and lengthens it by two bytes
    for each byte it replaces by U+FFFD. *)
Lemma coerce_length n s :
  (String.length s ≤ n)%nat →
  (String.length s ≤ String.length (coerce n s))%nat ∧
  (valid_steps n s = false → (String.length s < String.length (coerce n s))%nat).
Proof.
  revert s. induction n as [|n IH]; intros s Hs; [destruct s; [done|simpl in Hs; lia]|].
  destruct s as [|c rest]; [done|]. simpl in Hs. cbn [valid_steps coerce].
  destruct (byte_val c <? RuneSelf) eqn:Hc.
  - apply Z.ltb_lt in Hc. rewrite DecodeRune_ascii by done. cbv beta iota.
    replace (byte_val c =? RuneError) with false by (symmetry; apply Z.eqb_neq; unfold_consts; lia).
    destruct (IH rest) as [H1 H2]; [lia|]. cbn [andb String.length]. split; [lia|]. intros Hv. specialize (H2 Hv). lia.
  - destruct (DecodeRune (String c rest)) as [r size] eqn:HD.
    destruct ((r =? RuneError) && (size =? 1)%nat) eqn:He.
    + destruct (IH rest) as [H1 _]; [lia|]. rewrite length_sapp. cbn [String.length] in *.
      assert (String.length (EncodeRune RuneError) = 3%nat) as -> by reflexivity. lia.
    + pose proof (DecodeRune_size (String c rest) _ _ ltac:(congruence) HD) as Hsz.
      destruct (IH (str_drop size (String c rest))) as [H1 H2];
        [rewrite length_str_drop; simpl in *; lia|].
      pose proof (f_equal String.length (str_take_drop size (String c rest))) as Hl.
      rewrite length_sapp in Hl |- *. split; [lia|]. intros Hv. specialize (H2 Hv). lia.
Qed.

(** A string comes back from the coercion unchanged exactly when it is
    valid UTF-8. *)
Theorem ToValidUTF8_fixed s : ToValidUTF8 s = s ↔ ValidString s = true.
Proof.
  split; [|apply ToValidUTF8_valid]. intros Hs.
  destruct (ValidString s) eqn:Hv; [done|].
  destruct (coerce_length (String.length s) s) as [_ H]; [done|].
  specialize (H Hv). unfold ToValidUTF8 in Hs. rewrite Hs in H. lia.
Qed.

(** ** The scanner finds the end of what the encoder wrote *)

Lemma cons_fst_app a b o : cons_fst a (cons_fst b o) = cons_fst (a ++ b) o.
Proof. destruct o as [[]|]; simpl; [by rewrite sapp_assoc|done]. Qed.

Lemma scan_plain c rest :
  32 ≤ byte_val c → c ≠ dq → c ≠ bslash → scan_str (String c rest) = cons_fst (str1 c) (scan_str rest).
Proof.
  intros Hc H1 H2. cbn [scan_str]. rewrite !decide_False by done.
  by replace (byte_val c <? 32) with false by (symmetry; apply Z.ltb_ge; lia).
Qed.

Lemma scan_high p rest : all_high p = true → scan_str (p ++ rest) = cons_fst p (scan_str rest).
Proof.
  induction p as [|c p IH]; intros Hp; [rewrite sapp_nil_l; by destruct (scan_str rest) as [[]|]|].
  cbn [all_high] in Hp. apply andb_prop in Hp as [Hc Hp]. apply Z.leb_le in Hc.
  rewrite sapp_cons, scan_plain, IH, cons_fst_app; try done; try lia; intros ->.
  - change (byte_val dq) with 34 in Hc. lia.
  - change (byte_val bslash) with 92 in Hc. lia.
Qed.

#[local] Arguments is_hex : simpl never.

Lemma scan_u4 h1 h2 h3 h4 rest :
  is_hex h1 && is_hex h2 && is_hex h3 && is_hex h4 = true →
  scan_str (String bslash (String "u" (String h1 (String h2 (String h3 (String h4 rest)))))) =
  cons_fst (String bslash (String "u" (String h1 (String h2 (String h3 (str1 h4))))))
           (scan_str rest).
Proof.
  intros H. simpl. by rewrite H.
Qed.

Lemma scan_escape b rest :
  0 ≤ b < 128 → htmlSafe b = false →
  scan_str (escape_ascii b ++ rest) = cons_fst (escape_ascii b) (scan_str rest).
Proof.
  intros Hb Hs. unfold escape_ascii.
  destruct (Z.eqb_spec b 92) as [->|]; [reflexivity|].
  destruct (Z.eqb_spec b 34) as [->|]; [reflexivity|]. simpl orb.
  destruct (Z.eqb_spec b 10) as [->|]; [reflexivity|].
  destruct (Z.eqb_spec b 13) as [->|]; [reflexivity|].
  destruct (Z.eqb_spec b 9) as [->|]; [reflexivity|].
  unfold str1. repeat (rewrite sapp_cons || rewrite sapp_nil_l). rewrite <- !hexdigit_0.
  rewrite scan_u4; [done|].
  destruct (hexdigit_spec 0) as [-> _]; [lia|].
  destruct (hexdigit_spec (Z.shiftr b 4)) as [-> _]; [bits2arith; zlia|].
  destruct (hexdigit_spec (Z.land b 15)) as [-> _]; [bits2arith; zlia|].
  reflexivity.
Qed.

Lemma scan_closing rest : scan_str (String dq rest) = Some ("", rest).
Proof. cbn [scan_str]. by rewrite decide_True. Qed.

(** The scanner stops exactly at the quote that closes what [enc_body]
    wrote: the encoding never contains an unescaped quote, a control
    byte or a malformed escape. *)
Theorem scan_enc_body n s rest :
  (String.length s ≤ n)%nat →
  scan_str (enc_body n s ++ String dq rest) = Some (enc_body n s, rest).
Proof.
  revert s. induction n as [|n IH]; intros s Hs.
  { destruct s; [apply scan_closing|simpl in Hs; lia]. }
  destruct s as [|c rest']; [apply scan_closing|]. simpl in Hs.
  cbn [enc_body]. destruct (byte_val c <? RuneSelf) eqn:Hc.
  - apply Z.ltb_lt in Hc. unfold RuneSelf in Hc. pose proof (byte_val_bound c).
    rewrite <- sapp_assoc. destruct (htmlSafe (byte_val c)) eqn:Hh.
    + pose proof (htmlSafe_spec _ Hh) as (? & ? & ?).
      unfold str1 at 1. rewrite sapp_cons, sapp_nil_l, scan_plain, IH by (lia || (intros ->; done)).
      done.
    + rewrite scan_escape, IH by (done || lia). reflexivity.
  - destruct (DecodeRune (String c rest')) as [r size] eqn:HD. cbv beta iota.
    destruct ((r =? RuneError) && (size =? 1)%nat) eqn:He.
    { rewrite <- sapp_assoc. repeat (rewrite sapp_cons || rewrite sapp_nil_l).
      rewrite scan_u4 by reflexivity. rewrite IH by lia. simpl.
      by repeat (rewrite sapp_cons || rewrite sapp_nil_l). }
    assert (Hne : (r, size) ≠ (RuneError, 1%nat)).
    { intros [= -> ->]. by rewrite Z.eqb_refl in He. }
    pose proof (DecodeRune_size (String c rest') _ _ ltac:(congruence) HD) as Hsz.
    destruct (DecodeRune_valid _ _ _ HD Hne ltac:(lia)) as (Hsc & HE & HL).
    assert (Hdrop : (String.length (str_drop size (String c rest')) ≤ n)%nat).
    { rewrite length_str_drop. simpl. lia. }
    destruct ((r =? 8232) || (r =? 8233)) eqn:H2028; rewrite <- sapp_assoc.
    + apply orb_prop in H2028 as [->%Z.eqb_eq | ->%Z.eqb_eq];
        unfold str1; repeat (rewrite sapp_cons || rewrite sapp_nil_l);
        rewrite scan_u4 by reflexivity; rewrite IH by done; simpl;
        by repeat (rewrite sapp_cons || rewrite sapp_nil_l).
    + apply Z.ltb_ge in Hc. pose proof (DecodeRune_high _ _ _ _ HD Hne Hc) as Hr.
      destruct (EncodeRune_high r Hr Hsc) as (c' & t & Ect & Hhigh).
      rewrite <- HE, Ect, scan_high, IH by done. reflexivity.
Qed.

End JsonString.
