(* ===== verification/Json.v ===== *)
(** * JSON values, the scanner, and decoding into a struct of strings

    [json.Unmarshal(data, &a)] (line 111 of
    [src/engine/worker/cmd_tmpl.go]) first checks that [data] is one
    JSON value surrounded by white space ([checkValid]), then decodes
    it into the struct.  [parse_value] is the scanner's grammar as a
    recursive-descent parser (fuel: one unit per nesting step or member,
    so [length data + 1] is enough); string literals are kept raw and
    unquoted when stored, as Go does.  [find_field] is Go's field
    matching: an exact match of the JSON tag, else the first field
    whose tag matches under [foldFunc]'s case folding. *)
From S2P Require Import Prelude Utf8 JsonString.

Module Json.
Import Utf8 JsonString.
Local Open Scope string_scope.
Local Open Scope Z_scope.

Inductive value :=
  | VNull
  | VBool (b : bool)
  | VNum (lit : string)
  | VStr (raw : string)       (** the literal's content, still escaped *)
  | VArr (l : list value)
  | VObj (l : list (string * value)).

Inductive json_error :=
  | SyntaxError
  | UnmarshalTypeError (kind : string)  (** the JSON kind that did not fit *)
  | PhaseError.

Definition chr (n : Z) : ascii := byte_of n.

Definition is_ws (c : ascii) : bool :=
  let b := byte_val c in (b =? 32) || (b =? 9) || (b =? 10) || (b =? 13).

Fixpoint skip_ws (s : string) : string :=
  match s with
  | String c r => if is_ws c then skip_ws r else s
  | EmptyString => EmptyString
  end.

Fixpoint strip_prefix (p s : string) : option string :=
  match p, s with
  | EmptyString, _ => Some s
  | String a p', String b s' => if decide (a = b) then strip_prefix p' s' else None
  | _, _ => None
  end.

Definition is_digit (c : ascii) : bool := let b := byte_val c in (48 <=? b) && (b <=? 57).

Fixpoint digits (s : string) : string * string :=
  match s with
  | String c r => if is_digit c then let '(d, r') := digits r in (String c d, r') else ("", s)
  | EmptyString => ("", "")
  end.

(** One or more digits. *)
Definition digits1 (s : string) : option (string * string) :=
  match digits s with ("", _) => None | dr => Some dr end.

(** The scanner's number states: [-]? (0 | [1-9][0-9]* ) (.[0-9]+)? ([eE][+-]?[0-9]+)? *)
Definition parse_number (s : string) : option (string * string) :=
  let '(sign, s1) := match s with
                     | String c r => if decide (c = chr 45) then (str1 c, r) else ("", s)
                     | _ => ("", s)
                     end in
  match s1 with
  | String c r =>
      let int := if decide (c = chr 48) then Some (str1 c, r)
                 else if is_digit c then let '(d, r') := digits r in Some (String c d, r')
                 else None in
      match int with
      | None => None
      | Some (ip, r1) =>
          let frac := match r1 with
                      | String d r2 => if decide (d = chr 46)
                                       then option_map (λ '(fd, r3), (String d fd, r3)) (digits1 r2)
                                       else Some ("", r1)
                      | _ => Some ("", r1)
                      end in
          match frac with
          | None => None
          | Some (fp, r2) =>
              let exp := match r2 with
                         | String e r3 =>
                             if bool_decide (e = chr 101) || bool_decide (e = chr 69) then
                               let '(sg, r4) := match r3 with
                                                | String g r5 => if bool_decide (g = chr 43) || bool_decide (g = chr 45)
                                                                 then (str1 g, r5) else ("", r3)
                                                | _ => ("", r3)
                                                end in
                               option_map (λ '(ed, r6), (String e (sg ++ ed), r6)) (digits1 r4)
                             else Some ("", r2)
                         | _ => Some ("", r2)
                         end in
              option_map (λ '(ep, r3), (sign ++ ip ++ fp ++ ep, r3)) exp
          end
      end
  | _ => None
  end.

(** A value, an object after its ['{'], the members after a ['{'] or a
    [','], an array after its ['['], the elements after a ['['] or a [','].
    [acc] holds what was read so far, in order. *)
Fixpoint parse_value (fuel : nat) (s : string) : option (value * string) :=
  match fuel with
  | O => None
  | S f =>
      match skip_ws s with
      | String c r =>
          if decide (c = chr 123) then parse_object f r
          else if decide (c = chr 91) then parse_array f r
          else if decide (c = dq) then
            match scan_str r with Some (raw, r') => Some (VStr raw, r') | None => None end
          else match strip_prefix "null" (String c r) with
          | Some r' => Some (VNull, r')
          | None => match strip_prefix "true" (String c r) with
          | Some r' => Some (VBool true, r')
          | None => match strip_prefix "false" (String c r) with
          | Some r' => Some (VBool false, r')
          | None => option_map (λ '(lit, r'), (VNum lit, r')) (parse_number (String c r))
          end end end
      | EmptyString => None
      end
  end
with parse_object (fuel : nat) (s : string) : option (value * string) :=
  match fuel with
  | O => None
  | S f =>
      match skip_ws s with
      | String c r => if decide (c = chr 125) then Some (VObj [], r) else parse_members f s []
      | EmptyString => None
      end
  end
with parse_members (fuel : nat) (s : string) (acc : list (string * value))
    : option (value * string) :=
  match fuel with
  | O => None
  | S f =>
      match skip_ws s with
      | String c r =>
          if decide (c = dq) then
            match scan_str r with
            | Some (k, r1) =>
                match skip_ws r1 with
                | String col r2 =>
                    if decide (col = chr 58) then
                      match parse_value f r2 with
                      | Some (v, r3) =>
                          match skip_ws r3 with
                          | String d r4 =>
                              if decide (d = chr 44) then parse_members f r4 (acc ++ [(k, v)])
                              else if decide (d = chr 125) then Some (VObj (acc ++ [(k, v)]), r4)
                              else None
                          | EmptyString => None
                          end
                      | None => None
                      end
                    else None
                | EmptyString => None
                end
            | None => None
            end
          else None
      | EmptyString => None
      end
  end
with parse_array (fuel : nat) (s : string) : option (value * string) :=
  match fuel with
  | O => None
  | S f =>
      match skip_ws s with
      | String c r => if decide (c = chr 93) then Some (VArr [], r) else parse_elems f s []
      | EmptyString => None
      end
  end
with parse_elems (fuel : nat) (s : string) (acc : list value) : option (value * string) :=
  match fuel with
  | O => None
  | S f =>
      match parse_value f s with
      | Some (v, r1) =>
          match skip_ws r1 with
          | String d r2 =>
              if decide (d = chr 44) then parse_elems f r2 (acc ++ [v])
              else if decide (d = chr 93) then Some (VArr (acc ++ [v]), r2)
              else None
          | EmptyString => None
          end
      | None => None
      end
  end.

(** [checkValid]: one value and nothing but white space after it. *)
Definition check_valid (data : string) : option value :=
  match parse_value (S (String.length data)) data with
  | Some (v, rest) => if decide (skip_ws rest = "") then Some v else None
  | None => None
  end.

(** ** Matching a JSON key to a struct field ([fold.go]) *)

Definition caseMask : Z := 223.   (** [^byte(0x20)] *)
Definition smallLongEss : Z := 383.   (** U+017F *)
Definition kelvin : Z := 8490.        (** U+212A *)

Definition is_letter (b : Z) : bool := let u := Z.land b caseMask in (65 <=? u) && (u <=? 90).

(** [equalFoldRight]: [s] is an ASCII tag containing [k] or [s]; [t] may
    spell them with the Kelvin sign or the long s. *)
Fixpoint equalFoldRight (s t : string) : bool :=
  match s with
  | EmptyString => match t with EmptyString => true | _ => false end
  | String sb s' =>
      match t with
      | EmptyString => false
      | String tb t' =>
          if byte_val tb <? RuneSelf then
            if decide (sb = tb) then equalFoldRight s' t'
            else if is_letter (byte_val sb) then
              if Z.land (byte_val sb) caseMask =? Z.land (byte_val tb) caseMask
              then equalFoldRight s' t' else false
            else false
          else
            let '(tr, size) := DecodeRune t in
            let ok := if (byte_val sb =? 115) || (byte_val sb =? 83) then tr =? smallLongEss
                      else if (byte_val sb =? 107) || (byte_val sb =? 75) then tr =? kelvin
                      else false in
            if ok then equalFoldRight s' (str_drop size t) else false
      end
  end.

(** [asciiEqualFold]: same length; equal bytes, or letters equal up to case. *)
Fixpoint asciiEqualFold (s t : string) : bool :=
  match s, t with
  | EmptyString, EmptyString => true
  | String sb s', String tb t' =>
      (if decide (sb = tb) then true
       else is_letter (byte_val sb) && (Z.land (byte_val sb) caseMask =? Z.land (byte_val tb) caseMask))
      && asciiEqualFold s' t'
  | _, _ => false
  end.

(** [simpleLetterEqualFold]: same length, bytes equal under [caseMask]. *)
Fixpoint simpleLetterEqualFold (s t : string) : bool :=
  match s, t with
  | EmptyString, EmptyString => true
  | String sb s', String tb t' =>
      (Z.land (byte_val sb) caseMask =? Z.land (byte_val tb) caseMask) && simpleLetterEqualFold s' t'
  | _, _ => false
  end.

Inductive fold_kind := FoldBytes | FoldRight | FoldAscii | FoldSimple.

(** [foldFunc]: which comparison a tag gets.  [FoldBytes]
    ([bytes.EqualFold], for tags with non-ASCII bytes) is not modelled:
    it compares exactly here; no tag of this program is non-ASCII. *)
Definition foldFunc (tag : string) : fold_kind :=
  let bs := map byte_val (String.list_ascii_of_string tag) in
  if existsb (λ b, 128 <=? b) bs then FoldBytes
  else if existsb (λ b, let u := Z.land b caseMask in (u =? 75) || (u =? 83)) bs then FoldRight
  else if existsb (λ b, negb (is_letter b)) bs then FoldAscii
  else FoldSimple.

Definition equalFold (tag key : string) : bool :=
  match foldFunc tag with
  | FoldBytes => bool_decide (tag = key)
  | FoldRight => equalFoldRight tag key
  | FoldAscii => asciiEqualFold tag key
  | FoldSimple => simpleLetterEqualFold tag key
  end.

(** The loop over [cachedTypeFields]: the first exact match wins;
    otherwise the first field whose fold matches. *)
Fixpoint find_field_from (i : nat) (tags : list string) (key : string) (found : option nat)
    : option nat :=
  match tags with
  | [] => found
  | t :: ts =>
      if decide (t = key) then Some i
      else find_field_from (S i) ts key
             (match found with None => if equalFold t key then Some i else None | _ => found end)
  end.

Definition find_field (tags : list string) (key : string) : option nat :=
  find_field_from 0 tags key None.

(** ** Decoding into a struct whose fields are all [string]

    [vals] are the field values, in the order of [tags].  A [null] leaves
    a field as it is; a value of another kind records an
    [UnmarshalTypeError] (the first one is kept) and decoding goes on;
    keys that match no field are skipped. *)
Fixpoint decode_fields (tags : list string) (vals : list string)
    (kvs : list (string * value)) (err : option json_error) : result json_error (list string) :=
  match kvs with
  | [] => match err with Some e => Err e | None => Ok vals end
  | (rawk, v) :: kvs' =>
      match unquote rawk with
      | None => Err PhaseError
      | Some key =>
          match find_field tags key with
          | None => decode_fields tags vals kvs' err
          | Some i =>
              let save k := decode_fields tags vals kvs'
                              (match err with None => Some (UnmarshalTypeError k) | _ => err end) in
              match v with
              | VStr raw =>
                  match unquote raw with
                  | None => Err PhaseError
                  | Some sv => decode_fields tags (<[i := sv]> vals) kvs' err
                  end
              | VNull => decode_fields tags vals kvs' err
              | VBool _ => save "bool"
              | VNum _ => save "number"
              | VArr _ => save "array"
              | VObj _ => save "object"
              end
          end
      end
  end.

(** [json.Unmarshal(data, &v)] for a struct of strings whose fields
    start as [init]. *)
Definition unmarshal_struct (tags : list string) (init : list string) (data : string)
    : result json_error (list string) :=
  match check_valid data with
  | None => Err SyntaxError
  | Some VNull => Ok init
  | Some (VObj kvs) => decode_fields tags init kvs None
  | Some (VStr _) => Err (UnmarshalTypeError "string")
  | Some (VNum _) => Err (UnmarshalTypeError "number")
  | Some (VBool _) => Err (UnmarshalTypeError "bool")
  | Some (VArr _) => Err (UnmarshalTypeError "array")
  end.

(** [json.Marshal] of a struct of strings: [{"tag":value,...}] in field
    order, with no white space. *)
Fixpoint marshal_fields (tags vals : list string) : string :=
  match tags, vals with
  | t :: ts, v :: vs =>
      encode_string t ++ str1 (chr 58) ++ encode_string v ++
      match ts with [] => "" | _ => str1 (chr 44) ++ marshal_fields ts vs end
  | _, _ => ""
  end.

Definition marshal_struct (tags vals : list string) : string :=
  str1 (chr 123) ++ marshal_fields tags vals ++ str1 (chr 125).

(** ** The round trip through the wire *)

Ltac snorm := unfold encode_string, str1;
  repeat (rewrite <- sapp_assoc || rewrite sapp_cons || rewrite sapp_nil_l).

Definition encb (s : string) : string := enc_body (String.length s) s.

Lemma unquote_encb v : unquote (encb v) = Some (ToValidUTF8 v).
Proof. unfold encb. rewrite unquote_unq. apply unq_enc_body; lia. Qed.

Lemma skip_ws_nonws c r : is_ws c = false → skip_ws (String c r) = String c r.
Proof. intros H. simpl. by rewrite H. Qed.

Lemma parse_value_enc f v rest :
  parse_value (S f) (encode_string v ++ rest) = Some (VStr (encb v), rest).
Proof.
  snorm. cbn [parse_value]. rewrite skip_ws_nonws by reflexivity.
  rewrite !decide_False by (intros Heq; vm_compute in Heq; congruence).
  rewrite decide_True by done. unfold encb. by rewrite scan_enc_body.
Qed.

Definition enc_members (tags vals : list string) : list (string * value) :=
  zip (map encb tags) (map (λ v, VStr (encb v)) vals).

Lemma parse_value_quoted f v rest :
  parse_value (S f) (String dq (enc_body (String.length v) v ++ String dq rest)) =
  Some (VStr (encb v), rest).
Proof.
  cbn [parse_value]. rewrite skip_ws_nonws by reflexivity.
  rewrite !decide_False by (intros Heq; vm_compute in Heq; congruence).
  rewrite decide_True by done. unfold encb. by rewrite scan_enc_body.
Qed.

Lemma parse_members_S f s acc :
  parse_members (S f) s acc =
  match skip_ws s with
  | String c r =>
      if decide (c = dq) then
        match scan_str r with
        | Some (k, r1) =>
            match skip_ws r1 with
            | String col r2 =>
                if decide (col = chr 58) then
                  match parse_value f r2 with
                  | Some (v, r3) =>
                      match skip_ws r3 with
                      | String d r4 =>
                          if decide (d = chr 44) then parse_members f r4 (acc ++ [(k, v)])
                          else if decide (d = chr 125) then Some (VObj (acc ++ [(k, v)]), r4)
                          else None
                      | EmptyString => None
                      end
                  | None => None
                  end
                else None
            | EmptyString => None
            end
        | None => None
        end
      else None
  | EmptyString => None
  end.
Proof. reflexivity. Qed.

Lemma parse_members_marshal tags vals acc f rest :
  length tags = length vals → tags ≠ [] → (length tags ≤ f)%nat →
  parse_members (S f) (marshal_fields tags vals ++ String (chr 125) rest) acc =
  Some (VObj (acc ++ enc_members tags vals), rest).
Proof.
  revert vals acc f. induction tags as [|t ts IH]; intros [|v vs] acc f Hl Hne Hf;
    simpl in Hl; try done; try lia.
  destruct f as [|f]; [simpl in Hf; lia|].
  cbn [marshal_fields]. rewrite parse_members_S. snorm.
  rewrite skip_ws_nonws by reflexivity. rewrite decide_True by done.
  rewrite scan_enc_body by lia.
  rewrite skip_ws_nonws by reflexivity. rewrite decide_True by done.
  rewrite parse_value_quoted.
  destruct ts as [|t' ts'].
  - destruct vs; [|done]. rewrite sapp_nil_l, skip_ws_nonws by reflexivity.
    rewrite decide_False, decide_True by (done || (intros Heq; vm_compute in Heq; congruence)).
    done.
  - rewrite sapp_cons, skip_ws_nonws by reflexivity. rewrite decide_True by done.
    rewrite IH by (simpl in *; (done || lia)). by rewrite <- app_assoc.
Qed.

Lemma find_field_first tags key p i found :
  (∀ q, (q < p)%nat → tags !! q ≠ Some key) → tags !! p = Some key →
  find_field_from i tags key found = Some (i + p)%nat.
Proof.
  revert p i found. induction tags as [|t ts IH]; intros p i found Hbefore Hp; [done|].
  destruct p as [|p]; simpl in Hp.
  - injection Hp as ->. simpl. rewrite decide_True by done. f_equal. lia.
  - simpl. rewrite decide_False by (intros ->; by apply (Hbefore 0%nat); [lia|]).
    rewrite (IH p (S i)); [f_equal; lia| |done].
    intros q Hq. apply (Hbefore (S q)). lia.
Qed.

Lemma find_field_NoDup tags j key :
  NoDup tags → tags !! j = Some key → find_field tags key = Some j.
Proof.
  intros Hnd Hj. unfold find_field. rewrite (find_field_first _ _ j); [done| |done].
  intros q Hq Hqk. pose proof (NoDup_lookup _ _ _ _ Hnd Hqk Hj). lia.
Qed.

Lemma enc_members_lookup tags vals j t v :
  tags !! j = Some t → vals !! j = Some v →
  enc_members tags vals !! j = Some (encb t, VStr (encb v)).
Proof.
  intros Ht Hv. unfold enc_members. rewrite lookup_zip_with, !list_lookup_fmap, Ht, Hv. done.
Qed.

Section DecodeMembers.
Context (tags vals : list string).
Hypothesis Hnd : NoDup tags.
Hypothesis Hvalid : Forall (λ t, ValidString t = true) tags.
Hypothesis Hlen : length tags = length vals.

Lemma decode_fields_suffix k j cur :
  (j + k = length tags)%nat → length cur = length tags →
  decode_fields tags cur (drop j (enc_members tags vals)) None =
  Ok (take j cur ++ drop j (map ToValidUTF8 vals))%list.
Proof.
  revert j cur. induction k as [|k IH]; intros j cur Hjk Hcur.
  - assert (j = length tags) as -> by lia.
    rewrite drop_ge; last first.
    { unfold enc_members. rewrite length_zip_with, !length_map. lia. }
    rewrite (drop_ge (map _ _)) by (rewrite length_map; lia).
    rewrite take_ge by lia. by rewrite app_nil_r.
  - destruct (lookup_lt_is_Some_2 tags j) as [t Ht]; [lia|].
    destruct (lookup_lt_is_Some_2 vals j) as [v Hv]; [lia|].
    rewrite (drop_S _ _ _ (enc_members_lookup _ _ _ _ _ Ht Hv)). cbn [decode_fields].
    rewrite unquote_encb, ToValidUTF8_valid
      by (eapply Forall_lookup_1 in Hvalid; [exact Hvalid|exact Ht]).
    rewrite (find_field_NoDup _ j) by done. rewrite unquote_encb.
    rewrite IH by (rewrite ?length_insert; lia).
    rewrite (drop_S (map _ vals) (ToValidUTF8 v) j) by (by rewrite list_lookup_fmap, Hv).
    rewrite (take_S_r _ _ (ToValidUTF8 v)); last first.
    { rewrite list_lookup_insert_eq; [done|lia]. }
    rewrite take_insert_ge by lia. by rewrite <- app_assoc.
Qed.

Lemma decode_fields_members init :
  length init = length tags →
  decode_fields tags init (enc_members tags vals) None = Ok (map ToValidUTF8 vals).
Proof.
  intros Hinit. rewrite <- (drop_0 (enc_members tags vals)).
  rewrite (decode_fields_suffix (length tags) 0 init) by lia. done.
Qed.
End DecodeMembers.

Lemma length_encode_string s : (2 ≤ String.length (encode_string s))%nat.
Proof. unfold encode_string. simpl. rewrite length_sapp. simpl. lia. Qed.

Lemma length_marshal_fields tags vals :
  length tags = length vals → (2 * length tags ≤ String.length (marshal_fields tags vals))%nat.
Proof.
  revert vals. induction tags as [|t ts IH]; intros [|v vs] Hl; simpl in Hl |- *; try lia.
  specialize (IH vs ltac:(lia)). rewrite !length_sapp.
  pose proof (length_encode_string t). pose proof (length_encode_string v).
  destruct ts; cbn [length] in *; rewrite ?length_sapp; cbn [String.length str1]; lia.
Qed.

(** Decoding what [json.Marshal] wrote for a struct of strings gives back
    every field, with invalid UTF-8 replaced by U+FFFD. *)


Lemma parse_object_S f s :
  parse_object (S f) s =
  match skip_ws s with
  | String c r => if decide (c = chr 125) then Some (VObj [], r) else parse_members f s []
  | EmptyString => None
  end.
Proof. reflexivity. Qed.

Lemma marshal_fields_head tags vals :
  tags ≠ [] → length tags = length vals → ∃ r, marshal_fields tags vals = String dq r.
Proof.
  intros Hne Hl. destruct tags as [|t ts]; [done|]. destruct vals as [|v vs]; [simpl in Hl; lia|].
  cbn [marshal_fields]. unfold encode_string. rewrite sapp_cons. eauto.
Qed.

Lemma check_valid_marshal tags vals :
  tags ≠ [] → length tags = length vals →
  check_valid (marshal_struct tags vals) = Some (VObj (enc_members tags vals)).
Proof.
  intros Hne Hl. unfold check_valid, marshal_struct.
  pose proof (length_marshal_fields tags vals Hl) as Hlen.
  destruct (marshal_fields_head tags vals Hne Hl) as [r Hr].
  unfold str1. rewrite sapp_cons, sapp_nil_l.
  assert (HL : String.length (String (chr 123) (marshal_fields tags vals ++ String (chr 125) "")) =
               S (S (String.length (marshal_fields tags vals)))) by (simpl; rewrite length_sapp; simpl; lia).
  rewrite HL. clear HL.
  remember (String.length (marshal_fields tags vals)) as L eqn:HL.
  destruct tags as [|t ts]; [done|]. simpl length in Hlen.
  destruct L as [|L]; [lia|]. cbn [parse_value].
  rewrite skip_ws_nonws by reflexivity. rewrite decide_True by done.
  rewrite parse_object_S, Hr, sapp_cons, skip_ws_nonws by reflexivity.
  rewrite decide_False by (intros Heq; vm_compute in Heq; congruence).
  rewrite <- sapp_cons, <- Hr.
  rewrite parse_members_marshal by (done || (simpl; lia)). by rewrite decide_True.
Qed.

Theorem unmarshal_marshal tags vals init :
  tags ≠ [] → NoDup tags → Forall (λ t, ValidString t = true) tags →
  length tags = length vals → length init = length tags →
  unmarshal_struct tags init (marshal_struct tags vals) = Ok (map ToValidUTF8 vals).
Proof.
  intros Hne Hnd Hv Hl Hi. unfold unmarshal_struct.
  rewrite check_valid_marshal by done. by apply decode_fields_members.
Qed.

End Json.
