(* ===== verification/Wire.v ===== *)
(** * The wire contract of [worker tmpl]

    [type tmplPath struct { Path string `json:"path"`; Destination string
    `json:"destination"` }] (lines 49-52 of [src/engine/worker/cmd_tmpl.go]):
    the client marshals it (line 72) as the body of [POST /tmpl], the
    handler unmarshals it (lines 110-115).  Both directions are Go's
    [encoding/json] on a struct of two strings ([Json.marshal_struct]
    and [Json.unmarshal_struct]).  The round trip is exact on valid
    UTF-8 paths; the keys the handler takes for the two fields are
    characterised against ASCII lower-casing ([lower]). *)
From S2P Require Import Prelude Utf8 JsonString Json.

Module Wire.
Import Utf8 JsonString Json.
Local Open Scope string_scope.

Record tmplPath := { Path : string; Destination : string }.

Definition tmplPath_tags : list string := ["path"; "destination"].
Definition tmplPath_fields (a : tmplPath) : list string := [Path a; Destination a].

(** [json.Marshal(a)]: [{"path":...,"destination":...}]. *)
Definition marshal_tmplPath (a : tmplPath) : string :=
  marshal_struct tmplPath_tags (tmplPath_fields a).

(** [var a tmplPath; json.Unmarshal(data, &a)]: decoding starts from the
    zero value. *)
Definition unmarshal_tmplPath (data : string) : result json_error tmplPath :=
  match unmarshal_struct tmplPath_tags ["" ; ""] data with
  | Ok [p; d] => Ok {| Path := p; Destination := d |}
  | Ok _ => Err PhaseError
  | Err e => Err e
  end.

(** The handler decodes what the client encoded: each path comes back
    with every byte that does not start valid UTF-8 replaced by U+FFFD. *)
Theorem unmarshal_marshal_tmplPath a :
  unmarshal_tmplPath (marshal_tmplPath a) =
  Ok {| Path := ToValidUTF8 (Path a); Destination := ToValidUTF8 (Destination a) |}.
Proof.
  unfold unmarshal_tmplPath, marshal_tmplPath.
  rewrite unmarshal_marshal; [done|done| |repeat constructor|done|done].
  repeat constructor; set_solver.
Qed.

(** C28: the body [tmplCmd] sends is always valid JSON ([json.Valid]),
    an object with exactly the two string members ["path"] and
    ["destination"], in that order, whatever the two paths are. *)
Theorem marshal_tmplPath_object a :
  check_valid (marshal_tmplPath a) =
  Some (VObj [("path", VStr (encb (Path a))); ("destination", VStr (encb (Destination a)))]).
Proof. unfold marshal_tmplPath. by rewrite check_valid_marshal. Qed.

(** C12: the handler gets back exactly the [tmplPath] the client
    marshalled if and only if both paths are valid UTF-8; any other path
    reaches the handler rewritten. *)
Theorem tmplPath_roundtrip_iff a :
  unmarshal_tmplPath (marshal_tmplPath a) = Ok a ↔
  ValidString (Path a) = true ∧ ValidString (Destination a) = true.
Proof.
  rewrite unmarshal_marshal_tmplPath. destruct a as [p d]; cbn [Path Destination]. split.
  - intros [= Hp Hd]. by split; apply ToValidUTF8_fixed.
  - intros [Hp Hd]. by rewrite !ToValidUTF8_valid.
Qed.

(** ** Keys that [json.Unmarshal] takes for the two fields *)

(** ASCII lower-casing, the reference for case-insensitive keys. *)
Definition lower_ascii (c : ascii) : ascii :=
  let b := byte_val c in if ((65 <=? b) && (b <=? 90))%Z then byte_of (b + 32)%Z else c.

Fixpoint lower (s : string) : string :=
  match s with EmptyString => EmptyString | String c r => String (lower_ascii c) (lower r) end.

Definition is_lower (c : ascii) : bool := let b := byte_val c in ((97 <=? b) && (b <=? 122))%Z.

Fixpoint all_lower (s : string) : bool :=
  match s with EmptyString => true | String c r => is_lower c && all_lower r end.

(** A byte whose lower case is a lower-case letter is an ASCII letter
    that agrees with it under Go's [caseMask]. *)
Lemma lower_ascii_letter c :
  is_lower (lower_ascii c) = true →
  (byte_val c <? 128)%Z = true ∧ is_letter (byte_val (lower_ascii c)) = true ∧
  Z.land (byte_val (lower_ascii c)) caseMask = Z.land (byte_val c) caseMask.
Proof.
  destruct c as [[] [] [] [] [] [] [] []]; vm_compute;
    first [intros _; split_and!; reflexivity | intros [=]].
Qed.

Lemma lower_length s : String.length (lower s) = String.length s.
Proof. induction s; cbn; congruence. Qed.

Lemma simpleLetterEqualFold_length s t : simpleLetterEqualFold s t = true → String.length s = String.length t.
Proof.
  revert t. induction s as [|c s IH]; intros [|d t]; cbn; try done.
  intros [_ H]%andb_true_iff. by rewrite (IH t H).
Qed.

Section Fold.
Variables (k t : string).
Hypothesis Hk : lower k = t.
Hypothesis Ht : all_lower t = true.

Lemma lower_simpleLetterEqualFold : simpleLetterEqualFold t k = true.
Proof.
  subst t. induction k as [|c r IH]; [done|]. cbn in *. apply andb_true_iff in Ht as [Hc Hr].
  destruct (lower_ascii_letter c Hc) as (_ & _ & ->). rewrite Z.eqb_refl. by apply IH.
Qed.

Lemma lower_equalFoldRight : equalFoldRight t k = true.
Proof.
  subst t. induction k as [|c r IH]; [done|]. cbn in *. apply andb_true_iff in Ht as [Hc Hr].
  change RuneSelf with 128%Z. destruct (lower_ascii_letter c Hc) as (-> & -> & ->). rewrite Z.eqb_refl.
  case_decide; by apply IH.
Qed.

Lemma lower_coerce n : (String.length k ≤ n)%nat → coerce n k = k.
Proof.
  subst t. revert n. induction k as [|c r IH]; intros [|n] Hn; cbn in *; try done; [lia|].
  apply andb_true_iff in Ht as [Hc Hr]. change RuneSelf with 128%Z. destruct (lower_ascii_letter c Hc) as (-> & _ & _).
  rewrite IH by (done || lia). done.
Qed.
End Fold.

Lemma lower_ToValidUTF8 k : all_lower (lower k) = true → ToValidUTF8 k = k.
Proof. intros Hl. by apply (lower_coerce k (lower k)). Qed.

Lemma find_field_path k : lower k = "path" → find_field tmplPath_tags k = Some 0%nat.
Proof.
  intros Hk. assert (String.length k = 4%nat) as Hl by (by rewrite <- lower_length, Hk).
  unfold find_field, tmplPath_tags. cbn [find_field_from]. case_decide; [done|].
  unfold equalFold. replace (foldFunc "path") with FoldSimple by reflexivity.
  rewrite (lower_simpleLetterEqualFold k "path") by (done || reflexivity).
  rewrite decide_False; [done|]. intros <-. done.
Qed.

Lemma find_field_destination k : lower k = "destination" → find_field tmplPath_tags k = Some 1%nat.
Proof.
  intros Hk. assert (String.length k = 11%nat) as Hl by (by rewrite <- lower_length, Hk).
  unfold find_field, tmplPath_tags. cbn [find_field_from].
  rewrite decide_False by (intros <-; done).
  unfold equalFold. replace (foldFunc "path") with FoldSimple by reflexivity.
  destruct (simpleLetterEqualFold "path" k) eqn:E; [apply simpleLetterEqualFold_length in E; cbn in E; lia|].
  case_decide; [done|]. replace (foldFunc "destination") with FoldRight by reflexivity.
  by rewrite (lower_equalFoldRight k "destination").
Qed.

(** A file name is any byte string on Linux; one that is not UTF-8
    reaches the handler rewritten (byte 255 becomes the three bytes of
    U+FFFD), so the handler opens another file than the one named. *)
Example tmplPath_non_utf8_path :
  unmarshal_tmplPath (marshal_tmplPath {| Path := String (byte_of 255) ""; Destination := "out" |}) =
  Ok {| Path := String (byte_of 239) (String (byte_of 191) (String (byte_of 189) ""));
        Destination := "out" |}.
Proof. vm_compute. reflexivity. Qed.

(** C21: the handler's decoding matches the keys without regard to ASCII
    case: any two keys whose lower case is [path] and [destination]
    decode into the two fields. *)
Theorem tmplPath_keys_fold k1 k2 p d :
  lower k1 = "path" → lower k2 = "destination" →
  unmarshal_tmplPath (marshal_struct [k1; k2] [p; d]) =
  Ok {| Path := ToValidUTF8 p; Destination := ToValidUTF8 d |}.
Proof.
  intros H1 H2. unfold unmarshal_tmplPath, unmarshal_struct.
  rewrite check_valid_marshal by done. cbn [enc_members map zip decode_fields].
  rewrite !unquote_encb, (lower_ToValidUTF8 k1), (lower_ToValidUTF8 k2)
    by (rewrite ?H1, ?H2; reflexivity).
  rewrite find_field_path, find_field_destination by done. done.
Qed.

Lemma tmplPath_keys_fold_witness :
  lower "PATH" = "path" ∧ lower "DeStInAtIoN" = "destination" ∧
  unmarshal_tmplPath (marshal_struct ["PATH"; "DeStInAtIoN"] ["/w/in"; "/w/out"]) =
  Ok {| Path := ToValidUTF8 "/w/in"; Destination := ToValidUTF8 "/w/out" |}.
Proof. split_and!; [reflexivity|reflexivity|]. by apply tmplPath_keys_fold. Defined.

(** U+017F, the long s, in UTF-8. *)
Definition long_s : string := String (byte_of 197) (String (byte_of 191) "").

(** Beyond case, the matcher of [encoding/json] folds the long s
    onto [s] for a tag that contains an [s]: a body whose second key is
    [deſtination] sets [Destination], although the specification asks
    for field names that match exactly. *)
Example tmplPath_long_s_key :
  unmarshal_tmplPath (marshal_struct ["path"; "de" ++ long_s ++ "tination"] ["/w/in"; "/w/out"]) =
  Ok {| Path := "/w/in"; Destination := "/w/out" |} ∧
  unmarshal_tmplPath (marshal_struct ["path"; "de" ++ long_s ++ "tinatioN"] ["/w/in"; "/w/out"]) =
  Ok {| Path := "/w/in"; Destination := "/w/out" |}.
Proof. split; vm_compute; reflexivity. Qed.

End Wire.
