(* ===== verification/SdkError.v ===== *)
(** * Errors: Go error values, [sdk.Error], [writeError], [sdk.DecodeError]

    The handler turns each failure into an HTTP response with
    [writeError(w, r, err)] and the client turns a response of status
    [>= 300] back into an error with [sdk.DecodeError(body)].  Those
    helpers live in the CDS [sdk] package and the worker's HTTP code,
    outside [src/]: they are modelled here from the specification
    (section 3 "OperationOutcome", section 7): a structured error has a
    kind and a message, [sdk.NewError(kind, root)] keeps the root cause
    in the message, the wrong-request kind is sent with status 400, and
    an error that is not an [sdk.Error] is sent as an unknown error with
    status 500 and without its cause.  The body of an error response is
    the JSON object [{"kind":...,"message":...}]. *)
From S2P Require Import Prelude Utf8 JsonString Json FileSystem.

Module SdkError.
Import JsonString Json FileSystem.
Local Open Scope string_scope.

Inductive errKind := ErrWrongRequest | ErrUnknownError.

#[export] Instance errKind_eq_dec : EqDecision errKind.
Proof. solve_decision. Qed.

(** [sdk.Error]: a kind and a message. *)
Record Error := { kind : errKind; message : string }.

(** The Go [error] values of the handler, by origin. *)
Inductive goerror :=
  | EBody (msg : string)            (** [ioutil.ReadAll(r.Body)] failed *)
  | EJson (e : json_error)          (** [json.Unmarshal] failed *)
  | EPath (e : PathError)           (** [ioutil.ReadFile]/[WriteFile] failed *)
  | EInterp (msg : string)          (** [interpolate.Do] failed *)
  | ESdk (e : Error).

Definition errno_string (e : errno) : string :=
  match e with
  | ENOENT => "no such file or directory"
  | ENOTDIR => "not a directory"
  | EACCES => "permission denied"
  | EISDIR => "is a directory"
  | ENOSPC => "no space left on device"
  end.

Definition json_error_string (e : json_error) : string :=
  match e with
  | SyntaxError => "invalid character in JSON input"
  | UnmarshalTypeError k => "json: cannot unmarshal " ++ k ++ " into Go value of type main.tmplPath"
  | PhaseError => "JSON decoder out of sync - data changing underfoot?"
  end.

(** [err.Error()]; [*os.PathError] prints [op + " " + path + ": " + errno]. *)
Definition Error_string (e : goerror) : string :=
  match e with
  | EBody m => m
  | EJson j => json_error_string j
  | EPath pe => pe_Op pe ++ " " ++ pe_Path pe ++ ": " ++ errno_string (pe_Err pe)
  | EInterp m => m
  | ESdk s => message s
  end.

Definition kind_message (k : errKind) : string :=
  match k with ErrWrongRequest => "wrong request" | ErrUnknownError => "internal server error" end.

Definition kind_status (k : errKind) : Z :=
  match k with ErrWrongRequest => 400 | ErrUnknownError => 500 end.

Definition kind_name (k : errKind) : string :=
  match k with ErrWrongRequest => "wrong_request" | ErrUnknownError => "unknown" end.

Definition kind_of_name (s : string) : option errKind :=
  if decide (s = "wrong_request") then Some ErrWrongRequest
  else if decide (s = "unknown") then Some ErrUnknownError else None.

(** [sdk.NewError(target, root)]: the target's kind, the root's message. *)
Definition NewError (target : errKind) (root : goerror) : Error :=
  {| kind := target; message := kind_message target ++ ": " ++ Error_string root |}.

(** What [writeError] sends for an error: an [sdk.Error] as it is, any
    other error as an unknown error whose cause stays on the server. *)
Definition processed (e : goerror) : Error :=
  match e with
  | ESdk s => s
  | _ => {| kind := ErrUnknownError; message := kind_message ErrUnknownError |}
  end.

Record response := { status : Z; resp_body : string }.

Definition error_tags : list string := ["kind"; "message"].

Definition writeError (e : goerror) : response :=
  let s := processed e in
  {| status := kind_status (kind s);
     resp_body := marshal_struct error_tags [kind_name (kind s); message s] |}.

(** The response of a handler that returns without writing: status 200,
    empty body. *)
Definition response_ok : response := {| status := 200; resp_body := "" |}.

(** [sdk.DecodeError(body)]: the error the body carries, or nothing
    ([nil]) when the body does not decode into one. *)
Definition DecodeError (body : string) : option Error :=
  match unmarshal_struct error_tags [""; ""] body with
  | Ok [k; m] => match kind_of_name k with
                 | Some kd => Some {| kind := kd; message := m |}
                 | None => None
                 end
  | _ => None
  end.

Lemma writeError_status e : (400 ≤ status (writeError e))%Z.
Proof. unfold writeError. cbn. destruct (kind (processed e)); cbn; lia. Qed.

Lemma kind_of_name_name k : kind_of_name (kind_name k) = Some k.
Proof. by destruct k. Qed.

(** The client decodes the error the handler wrote: same kind, and the
    message up to the UTF-8 repair of [encoding/json]. *)
Theorem DecodeError_writeError e :
  DecodeError (resp_body (writeError e)) =
  Some {| kind := kind (processed e); message := ToValidUTF8 (message (processed e)) |}.
Proof.
  unfold DecodeError, writeError. cbn [resp_body].
  rewrite unmarshal_marshal; [|done|apply (bool_decide_unpack _); reflexivity|repeat constructor|done|done].
  cbn [map]. rewrite (ToValidUTF8_valid (kind_name _)) by (by destruct (kind (processed e))).
  by rewrite kind_of_name_name.
Qed.

End SdkError.
