(* ===== verification/Interpolate.v ===== *)
(** * The substitution engine [interpolate.Do]

    Line 132 of [src/engine/worker/cmd_tmpl.go] calls
    [interpolate.Do(string(btes), tmpvars)], from the CDS [sdk/interpolate]
    package, outside [src/].  The specification treats it as a black
    box (section 1, glossary): given a template and a mapping it returns
    the template with each recognized reference replaced by its value,
    leaves text without references unchanged, and fails when a reference
    cannot be resolved or the template is malformed.  [Interpolator]
    states exactly that contract; the handler's theorems are proved
    against it.  [spec_engine] is an engine built from the specification
    (references written [{{.name}}], optionally with spaces inside the
    braces) that satisfies the contract, used for concrete runs. *)
From S2P Require Import Prelude.

Module Interpolate.
Local Open Scope string_scope.

Definition lbrace : ascii := "{"%char.
Definition rbrace : ascii := "}"%char.

(** Text with no ['{'] at all: the engine can see no reference in it. *)
Fixpoint brace_free (s : string) : bool :=
  match s with
  | EmptyString => true
  | String c r => negb (bool_decide (c = lbrace)) && brace_free r
  end.

(** Variable names: ASCII letters, digits, ['_'], ['.'] and ['-']. *)
Definition name_char (c : ascii) : bool :=
  let b := Z.of_N (N_of_ascii c) in
  ((65 <=? b) && (b <=? 90))%Z || ((97 <=? b) && (b <=? 122))%Z || ((48 <=? b) && (b <=? 57))%Z ||
  (b =? 95)%Z || (b =? 46)%Z || (b =? 45)%Z.

Fixpoint all_name_chars (s : string) : bool :=
  match s with
  | EmptyString => true
  | String c r => name_char c && all_name_chars r
  end.

Definition valid_name (k : string) : bool :=
  match k with EmptyString => false | _ => all_name_chars k end.

Definition reference (k : string) : string := "{{." ++ k ++ "}}".

Class Interpolator := {
  interpolate_Do : string → gmap string string → result string string;
  (** text without braces is copied, the rest is processed after it *)
  Do_text t s m : brace_free t = true →
    interpolate_Do (t ++ s) m = (λ r, t ++ r) <$> interpolate_Do s m;
  (** a reference to a bound name is replaced by its value *)
  Do_ref k v s m : valid_name k = true → m !! k = Some v →
    interpolate_Do (reference k ++ s) m = (λ r, v ++ r) <$> interpolate_Do s m;
  (** a reference to an unbound name is an error *)
  Do_unbound k s m : valid_name k = true → m !! k = None →
    ∃ e, interpolate_Do (reference k ++ s) m = Err e;
  Do_empty m : interpolate_Do "" m = Ok ""
}.

Section Laws.
Context `{Interpolator}.

(** Text without braces comes out as it went in. *)
Lemma Do_brace_free t m : brace_free t = true → interpolate_Do t m = Ok t.
Proof.
  intros Ht. rewrite <- (sapp_nil_r t), Do_text, Do_empty by done. cbn. done.
Qed.

(** A lone reference to a bound name becomes its value. *)
Lemma Do_reference k v m :
  valid_name k = true → m !! k = Some v → interpolate_Do (reference k) m = Ok v.
Proof.
  intros Hk Hv. rewrite <- (sapp_nil_r (reference k)), (Do_ref k v), Do_empty by done.
  cbn. by rewrite sapp_nil_r.
Qed.
End Laws.

(** ** An engine built from the specification *)

Definition space : ascii := " "%char.
Definition dot : ascii := "."%char.

Fixpoint ltrim (s : string) : string :=
  match s with
  | String c r => if decide (c = space) then ltrim r else s
  | EmptyString => EmptyString
  end.

Fixpoint rtrim (s : string) : string :=
  match s with
  | String c r =>
      let r' := rtrim r in
      if decide (r' = EmptyString ∧ c = space) then EmptyString else String c r'
  | EmptyString => EmptyString
  end.

Definition trim (s : string) : string := rtrim (ltrim s).

(** The content between [{{] and [}}]: a dot and a name, spaces around. *)
Definition resolve (buf : string) (m : gmap string string) : result string string :=
  match trim buf with
  | String d name =>
      if bool_decide (d = dot) && valid_name name then
        match m !! name with
        | Some v => Ok v
        | None => Err ("unresolved reference: " ++ name)
        end
      else Err "malformed reference"
  | EmptyString => Err "malformed reference"
  end.

(** The scanner's states: in text, after one ['{'], inside a reference
    (what was read since [{{]), after one ['}'] closing a reference. *)
Inductive lex := LText | LBrace | LRef (buf : string) | LClose (buf : string).

Fixpoint run (m : gmap string string) (st : lex) (s : string) : result string string :=
  match s with
  | EmptyString =>
      match st with
      | LText => Ok EmptyString
      | LBrace => Ok (String lbrace EmptyString)
      | _ => Err "unterminated reference"
      end
  | String c r =>
      match st with
      | LText => if decide (c = lbrace) then run m LBrace r else String c <$> run m LText r
      | LBrace =>
          if decide (c = lbrace) then run m (LRef EmptyString) r
          else (λ t, String lbrace (String c t)) <$> run m LText r
      | LRef buf =>
          if decide (c = rbrace) then run m (LClose buf) r
          else run m (LRef (buf ++ String c EmptyString)) r
      | LClose buf =>
          if decide (c = rbrace) then
            match resolve buf m with
            | Ok v => (λ t, v ++ t) <$> run m LText r
            | Err e => Err e
            end
          else Err "malformed reference"
      end
  end.

Definition spec_Do (s : string) (m : gmap string string) : result string string :=
  run m LText s.

(** ** The engine meets the contract *)

Lemma fmap_result_id {E} (x : result E string) : (λ r, "" ++ r) <$> x = x.
Proof. by destruct x. Qed.

Lemma fmap_result_compose {E} (f g : string → string) (x : result E string) :
  f <$> (g <$> x) = (λ r, f (g r)) <$> x.
Proof. by destruct x. Qed.

Lemma name_char_not c : name_char c = true → c ≠ rbrace ∧ c ≠ space ∧ c ≠ lbrace.
Proof. intros H. split_and!; intros ->; vm_compute in H; discriminate. Qed.

Lemma run_text m t s :
  brace_free t = true → run m LText (t ++ s) = (λ r, t ++ r) <$> run m LText s.
Proof.
  induction t as [|c t IH]; intros Ht; [by rewrite fmap_result_id|].
  cbn [brace_free] in Ht. apply andb_prop in Ht as [Hc Ht].
  rewrite sapp_cons. cbn [run]. rewrite decide_False; last first.
  { intros ->. by rewrite bool_decide_true in Hc. }
  rewrite IH by done. by rewrite fmap_result_compose.
Qed.

Lemma run_ref_chars m buf k rest :
  all_name_chars k = true → run m (LRef buf) (k ++ rest) = run m (LRef (buf ++ k)) rest.
Proof.
  revert buf. induction k as [|c k IH]; intros buf Hk; [by rewrite sapp_nil_r|].
  cbn [all_name_chars] in Hk. apply andb_prop in Hk as [Hc Hk].
  destruct (name_char_not c Hc) as (Hr & _ & _).
  rewrite sapp_cons. cbn [run]. rewrite decide_False by done.
  rewrite IH by done. by rewrite <- sapp_assoc.
Qed.

Lemma rtrim_name k : all_name_chars k = true → rtrim k = k.
Proof.
  induction k as [|c k IH]; intros Hk; [done|].
  cbn [all_name_chars] in Hk. apply andb_prop in Hk as [Hc Hk].
  destruct (name_char_not c Hc) as (_ & Hs & _).
  cbn [rtrim]. rewrite IH by done. rewrite decide_False by naive_solver. done.
Qed.

Lemma resolve_name k m :
  valid_name k = true → resolve (String dot k) m =
    match m !! k with Some v => Ok v | None => Err ("unresolved reference: " ++ k) end.
Proof.
  intros Hk. unfold resolve, trim. cbn [ltrim].
  rewrite decide_False by (intros Heq; vm_compute in Heq; congruence).
  assert (Hc : all_name_chars k = true) by (destruct k; [done|exact Hk]).
  cbn [rtrim]. rewrite rtrim_name by done.
  rewrite decide_False by (intros [_ Heq]; vm_compute in Heq; congruence).
  rewrite bool_decide_true by done. by rewrite Hk.
Qed.

Lemma run_reference m k s :
  valid_name k = true →
  run m LText (reference k ++ s) =
    match resolve (String dot k) m with
    | Ok v => (λ t, v ++ t) <$> run m LText s
    | Err e => Err e
    end.
Proof.
  intros Hk. assert (Hc : all_name_chars k = true) by (destruct k; [done|exact Hk]).
  unfold reference. repeat (rewrite sapp_cons || rewrite <- sapp_assoc || rewrite sapp_nil_l).
  cbn [run]. rewrite !decide_True by done.
  rewrite decide_False by (intros Heq; vm_compute in Heq; congruence).
  rewrite run_ref_chars by done. cbn [run]. rewrite !decide_True by done.
  reflexivity.
Qed.

#[export] Instance spec_engine : Interpolator.
Proof.
  refine {| interpolate_Do := spec_Do |}; unfold spec_Do.
  - intros t s m Ht. by apply run_text.
  - intros k v s m Hk Hv. by rewrite run_reference, resolve_name, Hv.
  - intros k s m Hk Hv. rewrite run_reference, resolve_name, Hv by done. eauto.
  - done.
Defined.

End Interpolate.
