(* ===== verification/Handler.v ===== *)
(** * [tmplHandler]: the daemon side of [worker tmpl]

    Lines 101-144 of [src/engine/worker/cmd_tmpl.go].  The handler is a
    linear pipeline with an early return at each failure:
    read the body, decode it, read the source file, build [tmpvars],
    interpolate, write the destination.  It is modelled as a function in
    a small state monad [M] over a [world]: the file system of
    [FileSystem] and the trace of the effects the handler performs
    (file reads, file writes, log lines), so that the order of effects
    and the absence of an effect are statements about the trace.  The
    response is the value the monad returns. *)
From S2P Require Import Prelude Utf8 JsonString Json Wire FileSystem SdkError VarMap Interpolate.

Module Handler.
Import JsonString Json Wire FileSystem SdkError VarMap Interpolate.
Local Open Scope string_scope.

Inductive event :=
  | EvReadFile (p : string)
  | EvWriteFile (p : string)
  | EvLog (msg : string).

Record world := { w_fs : fs; w_trace : list event }.

Definition M (A : Type) : Type := world → A * world.

#[export] Instance M_ret : MRet M := λ A a w, (a, w).
#[export] Instance M_bind : MBind M := λ A B k m w, let '(a, w') := m w in k a w'.

Definition emit (e : event) (w : world) : world :=
  {| w_fs := w_fs w; w_trace := w_trace w ++ [e] |}.

(** [ioutil.ReadFile(p)]. *)
Definition readFile (p : string) : M (result PathError string) :=
  λ w, (ReadFile (w_fs w) p, emit (EvReadFile p) w).

(** [ioutil.WriteFile(p, data, perm)]. *)
Definition writeFile (p data : string) (perm : Z) : M (result PathError unit) :=
  λ w, let '(r, f') := WriteFile (w_fs w) p data perm in
       (r, {| w_fs := f'; w_trace := w_trace w ++ [EvWriteFile p] |}).

(** [log.Error(...)]. *)
Definition logError (msg : string) : M unit := λ w, (tt, emit (EvLog msg) w).

Definition perm_0644 : Z := 420.

Section WithEngine.
Context `{Interpolator}.

(** [wk.tmplHandler(w, r)]; [body] is what [ioutil.ReadAll(r.Body)]
    returned, [job] the current job whose variables the handler reads. *)
Definition tmplHandler (job : currentJob) (body : result string string) : M response :=
  match body with
  | Err e => mret (writeError (ESdk (NewError ErrWrongRequest (EBody e))))
  | Ok data =>
      match unmarshal_tmplPath data with
      | Err e => mret (writeError (ESdk (NewError ErrWrongRequest (EJson e))))
      | Ok a =>
          btes ← readFile (Path a);
          match btes with
          | Err e => mret (writeError (ESdk (NewError ErrWrongRequest (EPath e))))
          | Ok btes =>
              let vars := tmpvars job in
              match interpolate_Do btes vars with
              | Err e =>
                  logError ("Unable to interpolate: " ++ e);;
                  mret (writeError (ESdk (NewError ErrWrongRequest (EInterp e))))
              | Ok res =>
                  r ← writeFile (Destination a) res perm_0644;
                  match r with
                  | Err e => mret (writeError (EPath e))
                  | Ok _ => mret response_ok
                  end
              end
          end
      end
  end.

(** ** A concrete request, as in the help of [cmdTmpl] *)

Definition example_source : string :=
  "this a a line in the file, with a CDS variable {{.cds.version}}".

Definition example_fs (room : nat) : fs := {|
  nodes := <["/w/myFile" := File example_source 420]> (<["/w" := Dir]> ∅);
  umask := 18; free := room |}.

Definition example_world (room : nat) : world := {| w_fs := example_fs room; w_trace := [] |}.

Definition example_paths : tmplPath := {| Path := "/w/myFile"; Destination := "/w/outputFile" |}.

Definition example_request : string := marshal_tmplPath example_paths.

Ltac run_handler :=
  unfold tmplHandler, mbind, M_bind, mret, M_ret, readFile, writeFile, logError, emit;
  cbn [w_fs w_trace].

(** ** Each branch of the pipeline *)

(** A request whose source can be read and interpolated and whose
    destination can be written is answered 200, after reading the source
    and then writing the destination. *)
Theorem tmplHandler_success job data a src res w :
  unmarshal_tmplPath data = Ok a →
  ReadFile (w_fs w) (Path a) = Ok src →
  interpolate_Do src (tmpvars job) = Ok res →
  (WriteFile (w_fs w) (Destination a) res perm_0644).1 = Ok tt →
  tmplHandler job (Ok data) w =
    (response_ok,
     {| w_fs := (WriteFile (w_fs w) (Destination a) res perm_0644).2;
        w_trace := w_trace w ++ [EvReadFile (Path a); EvWriteFile (Destination a)] |}).
Proof.
  intros Hd Hr Hi Hw. run_handler. rewrite Hd, Hr. cbn. rewrite Hi.
  cbn. destruct (WriteFile (w_fs w) (Destination a) res perm_0644) as [r f'] eqn:E.
  cbn in Hw |- *. subst r. by rewrite <- app_assoc.
Qed.

(** C7: a body that does not decode into a [tmplPath] is answered as a
    wrong request without touching the world: no file is read or
    written. *)
Theorem tmplHandler_bad_json job data e w :
  unmarshal_tmplPath data = Err e →
  tmplHandler job (Ok data) w = (writeError (ESdk (NewError ErrWrongRequest (EJson e))), w).
Proof. intros Hd. run_handler. by rewrite Hd. Qed.

(** A source that cannot be read is a wrong request; only the read was
    attempted, the file system is unchanged. *)
Theorem tmplHandler_read_error job data a e w :
  unmarshal_tmplPath data = Ok a →
  ReadFile (w_fs w) (Path a) = Err e →
  tmplHandler job (Ok data) w =
    (writeError (ESdk (NewError ErrWrongRequest (EPath e))),
     {| w_fs := w_fs w; w_trace := w_trace w ++ [EvReadFile (Path a)] |}).
Proof. intros Hd Hr. run_handler. by rewrite Hd, Hr. Qed.

(** A template the engine rejects is a wrong request; the failure is
    logged and nothing is written. *)
Theorem tmplHandler_interpolate_error job data a src e w :
  unmarshal_tmplPath data = Ok a →
  ReadFile (w_fs w) (Path a) = Ok src →
  interpolate_Do src (tmpvars job) = Err e →
  tmplHandler job (Ok data) w =
    (writeError (ESdk (NewError ErrWrongRequest (EInterp e))),
     {| w_fs := w_fs w;
        w_trace := w_trace w ++ [EvReadFile (Path a); EvLog ("Unable to interpolate: " ++ e)] |}).
Proof.
  intros Hd Hr Hi. run_handler. rewrite Hd, Hr. cbn. rewrite Hi. cbn.
  by rewrite <- app_assoc.
Qed.

(** A destination that cannot be written is answered with the raw
    error: an unknown error, status 500, not a wrong request. *)
Theorem tmplHandler_write_error job data a src res e w :
  unmarshal_tmplPath data = Ok a →
  ReadFile (w_fs w) (Path a) = Ok src →
  interpolate_Do src (tmpvars job) = Ok res →
  (WriteFile (w_fs w) (Destination a) res perm_0644).1 = Err e →
  tmplHandler job (Ok data) w =
    (writeError (EPath e),
     {| w_fs := (WriteFile (w_fs w) (Destination a) res perm_0644).2;
        w_trace := w_trace w ++ [EvReadFile (Path a); EvWriteFile (Destination a)] |}) ∧
  status (writeError (EPath e)) = 500%Z.
Proof.
  intros Hd Hr Hi Hw. split; [|done]. run_handler. rewrite Hd, Hr. cbn. rewrite Hi.
  cbn. destruct (WriteFile (w_fs w) (Destination a) res perm_0644) as [r f'] eqn:E.
  cbn in Hw |- *. subst r. by rewrite <- app_assoc.
Qed.

(** ** The outcomes of the handler *)

Definition write_response (r : result PathError unit) : response :=
  match r with Ok _ => response_ok | Err e => writeError (EPath e) end.

Lemma tmplHandler_cases job body w :
  (∃ e, body = Err e ∧
     tmplHandler job body w = (writeError (ESdk (NewError ErrWrongRequest (EBody e))), w)) ∨
  (∃ data e, body = Ok data ∧ unmarshal_tmplPath data = Err e ∧
     tmplHandler job body w = (writeError (ESdk (NewError ErrWrongRequest (EJson e))), w)) ∨
  (∃ data a e, body = Ok data ∧ unmarshal_tmplPath data = Ok a ∧ ReadFile (w_fs w) (Path a) = Err e ∧
     tmplHandler job body w =
       (writeError (ESdk (NewError ErrWrongRequest (EPath e))),
        {| w_fs := w_fs w; w_trace := w_trace w ++ [EvReadFile (Path a)] |})) ∨
  (∃ data a src e, body = Ok data ∧ unmarshal_tmplPath data = Ok a ∧
     ReadFile (w_fs w) (Path a) = Ok src ∧ interpolate_Do src (tmpvars job) = Err e ∧
     tmplHandler job body w =
       (writeError (ESdk (NewError ErrWrongRequest (EInterp e))),
        {| w_fs := w_fs w;
           w_trace := w_trace w ++ [EvReadFile (Path a); EvLog ("Unable to interpolate: " ++ e)] |})) ∨
  (∃ data a src res, body = Ok data ∧ unmarshal_tmplPath data = Ok a ∧
     ReadFile (w_fs w) (Path a) = Ok src ∧ interpolate_Do src (tmpvars job) = Ok res ∧
     tmplHandler job body w =
       (write_response (WriteFile (w_fs w) (Destination a) res perm_0644).1,
        {| w_fs := (WriteFile (w_fs w) (Destination a) res perm_0644).2;
           w_trace := w_trace w ++ [EvReadFile (Path a); EvWriteFile (Destination a)] |})).
Proof.
  destruct body as [data|e]; [|left; eexists; split; [done|reflexivity]].
  destruct (unmarshal_tmplPath data) as [a|e] eqn:Hd.
  2:{ right; left. eexists _, _. split_and!; [done|done|]. run_handler. by rewrite Hd. }
  destruct (ReadFile (w_fs w) (Path a)) as [src|e] eqn:Hr.
  2:{ do 2 right; left. eexists _, _, _. split_and!; [done..|]. by apply tmplHandler_read_error. }
  destruct (interpolate_Do src (tmpvars job)) as [res|e] eqn:Hi.
  2:{ do 3 right; left. eexists _, _, _, _. split_and!; [done..|].
      by eapply tmplHandler_interpolate_error. }
  do 4 right. eexists _, _, _, _. split_and!; [done..|].
  destruct (WriteFile (w_fs w) (Destination a) res perm_0644) as [[[]|e] f'] eqn:E.
  - erewrite tmplHandler_success; [|done..|by rewrite E]. by rewrite E.
  - edestruct tmplHandler_write_error as [-> _]; [done..|by rewrite E|]. by rewrite E.
Qed.

(** Only a full success is answered with a status below 300. *)
Lemma tmplHandler_status_ok job body w :
  (status (tmplHandler job body w).1 < 300)%Z → (tmplHandler job body w).1 = response_ok.
Proof.
  destruct (tmplHandler_cases job body w)
    as [(? & _ & ->)|[(? & ? & _ & _ & ->)|[(? & ? & ? & _ & _ & _ & ->)|
        [(? & ? & ? & ? & _ & _ & _ & _ & ->)|(? & ? & ? & ? & _ & _ & _ & _ & ->)]]]];
    cbn [fst]; unfold write_response; repeat case_match; try done;
    match goal with |- context [writeError ?e] => pose proof (writeError_status e); lia end.
Qed.

(** The handler changes the file system at one path at most: the
    destination of the decoded request. *)
Theorem tmplHandler_frame job body w q :
  nodes (w_fs (tmplHandler job body w).2) !! q ≠ nodes (w_fs w) !! q →
  ∃ data a, body = Ok data ∧ unmarshal_tmplPath data = Ok a ∧ q = Destination a.
Proof.
  destruct (tmplHandler_cases job body w)
    as [(e & -> & ->)|[(d & e & -> & _ & ->)|[(d & a & e & -> & Hd & _ & ->)|
        [(d & a & src & e & -> & Hd & _ & _ & ->)|(d & a & src & res & -> & Hd & _ & _ & ->)]]]];
    cbn; try done.
  intros Hne. exists d, a. split_and!; [done|done|].
  destruct (decide (q = Destination a)) as [|Hq]; [done|].
  by rewrite WriteFile_frame in Hne.
Qed.

(** C17: the effects of one request, in order: nothing, or one read of
    the decoded source followed by nothing, by one log line, or by one
    write of the decoded destination. *)
Theorem tmplHandler_trace job body w :
  ∃ evs : list event, w_trace (tmplHandler job body w).2 = (w_trace w ++ evs)%list ∧
    (evs = [] ∨
     ∃ data a, body = Ok data ∧ unmarshal_tmplPath data = Ok a ∧
       (evs = [EvReadFile (Path a)] ∨
        (∃ m, evs = [EvReadFile (Path a); EvLog m]) ∨
        evs = [EvReadFile (Path a); EvWriteFile (Destination a)])).
Proof.
  destruct (tmplHandler_cases job body w)
    as [(e & -> & ->)|[(d & e & -> & _ & ->)|[(d & a & e & -> & Hd & _ & ->)|
        [(d & a & src & e & -> & Hd & _ & _ & ->)|(d & a & src & res & -> & Hd & _ & _ & ->)]]]];
    cbn.
  - exists []. rewrite app_nil_r. auto.
  - exists []. rewrite app_nil_r. auto.
  - eexists. split; [done|]. right. eauto 10.
  - eexists. split; [done|]. right. eauto 10.
  - eexists. split; [done|]. right. eauto 10.
Qed.

(** C18: a 200 answer leaves at the destination a file whose mode is
    the one the destination already had (the truncating open keeps it),
    or [0o644] with the umask's bits cleared for a file the handler
    created. *)
Theorem tmplHandler_mode job data a w :
  unmarshal_tmplPath data = Ok a → fst (tmplHandler job (Ok data) w) = response_ok →
  ∃ res, nodes (w_fs (tmplHandler job (Ok data) w).2) !! Destination a =
    Some (File res (match nodes (w_fs w) !! Destination a with
                    | Some (File _ m) => m
                    | _ => Z.land 420 (Z.lnot (umask (w_fs w)))
                    end)).
Proof.
  intros Hd. destruct (tmplHandler_cases job (Ok data) w)
    as [(e & [=] & _)|[(d & e & [= <-] & Hd' & ->)|[(d & a' & e & [= <-] & Hd' & _ & ->)|
        [(d & a' & src & e & [= <-] & Hd' & _ & _ & ->)|(d & a' & src & res & [= <-] & Hd' & _ & _ & ->)]]]];
    cbn; try (intros [=]; discriminate).
  rewrite Hd in Hd'. injection Hd' as <-.
  destruct (WriteFile (w_fs w) (Destination a) res perm_0644) as [r f'] eqn:E. cbn.
  destruct r as [[]|e]; [|intros [=]; discriminate]. intros _. exists res.
  pose proof (WriteFile_Ok_mode (w_fs w) (Destination a) res perm_0644) as Hm. rewrite E in Hm.
  by apply Hm.
Qed.
(** A 200 answer means the destination now holds exactly the
    interpolation of the source with the job's variables. *)
Theorem tmplHandler_ok_content job body w :
  fst (tmplHandler job body w) = response_ok →
  ∃ data a src res mode, body = Ok data ∧ unmarshal_tmplPath data = Ok a ∧
    ReadFile (w_fs w) (Path a) = Ok src ∧ interpolate_Do src (tmpvars job) = Ok res ∧
    nodes (w_fs (tmplHandler job body w).2) !! Destination a = Some (File res mode).
Proof.
  destruct (tmplHandler_cases job body w)
    as [(e & -> & ->)|[(d & e & -> & _ & ->)|[(d & a & e & -> & Hd & _ & ->)|
        [(d & a & src & e & -> & Hd & Hr & Hi & ->)|(d & a & src & res & -> & Hd & Hr & Hi & ->)]]]];
    cbn; try (intros [=]; discriminate).
  destruct (WriteFile (w_fs w) (Destination a) res perm_0644) as [[[]|e] f'] eqn:E;
    cbn; [|intros [=]; discriminate].
  intros _. destruct (WriteFile_Ok (w_fs w) (Destination a) res perm_0644) as [mode Hm];
    [by rewrite E|]. rewrite E in Hm. eauto 10.
Qed.

(** C19: when the device fills up during the write, the answer is an
    error (status 500) but the destination is neither absent nor left as
    it was: it holds the prefix of the interpolated text that fitted. *)
Theorem tmplHandler_ENOSPC job data a src res w f1 mode :
  unmarshal_tmplPath data = Ok a →
  ReadFile (w_fs w) (Path a) = Ok src →
  interpolate_Do src (tmpvars job) = Ok res →
  open_trunc (w_fs w) (Destination a) perm_0644 = Ok (f1, mode) →
  (free f1 < String.length res)%nat →
  status (fst (tmplHandler job (Ok data) w)) = 500%Z ∧
  nodes (w_fs (tmplHandler job (Ok data) w).2) !! Destination a =
    Some (File (String.substring 0 (free f1) res) mode).
Proof.
  intros Hd Hr Hi Ho Hfree.
  pose proof (WriteFile_ENOSPC_partial _ _ _ _ _ _ Ho Hfree) as HW.
  edestruct tmplHandler_write_error as [-> H500]; [done..|by rewrite HW|].
  split; [done|]. rewrite HW. cbn. by rewrite lookup_insert_eq.
Qed.

(** Running the same request again, with the source unchanged, writes the
    same bytes and leaves the file system as the first run left it,
    provided the source is not the destination and the umask lets the
    owner write the files it creates. *)
Theorem tmplHandler_idempotent job data w w1 :
  Z.testbit (umask (w_fs w)) 7 = false →
  (∀ a, unmarshal_tmplPath data = Ok a → Path a ≠ Destination a) →
  tmplHandler job (Ok data) w = (response_ok, w1) →
  ∃ w2, tmplHandler job (Ok data) w1 = (response_ok, w2) ∧ w_fs w2 = w_fs w1.
Proof.
  intros Hu Hneq Hrun.
  destruct (tmplHandler_ok_content job (Ok data) w) as (d & a & src & res & mode & [= <-] & Hd & Hr & Hi & _);
    [by rewrite Hrun|].
  destruct (WriteFile (w_fs w) (Destination a) res perm_0644) as [r f'] eqn:E.
  destruct r as [[]|e].
  2:{ edestruct tmplHandler_write_error as [Hw _]; [done..|by rewrite E|].
      rewrite Hrun, E in Hw. discriminate. }
  pose proof (tmplHandler_success job data a src res w Hd Hr Hi ltac:(by rewrite E)) as Hs.
  rewrite Hrun, E in Hs. injection Hs as Hw1. subst w1. cbn.
  eexists. rewrite (tmplHandler_success job data a src res); [split; [done|]|done| | |].
  - cbn. by rewrite (WriteFile_idem (w_fs w) (Destination a) res perm_0644 f' Hu eq_refl E).
  - cbn. replace f' with (WriteFile (w_fs w) (Destination a) res perm_0644).2 by (by rewrite E).
    apply ReadFile_WriteFile_other; [by apply Hneq|done].
  - done.
  - cbn. by rewrite (WriteFile_idem (w_fs w) (Destination a) res perm_0644 f' Hu eq_refl E).
Qed.

(** The response and the file system a run leaves depend on the file
    system only, not on the trace so far. *)
Lemma tmplHandler_fs job body w w' :
  w_fs w = w_fs w' →
  (tmplHandler job body w).1 = (tmplHandler job body w').1 ∧
  w_fs (tmplHandler job body w).2 = w_fs (tmplHandler job body w').2.
Proof.
  intros Hf. run_handler. destruct w as [f tr], w' as [f' tr']; cbn in Hf; subst f'.
  repeat (case_match; simplify_eq/=); auto.
Qed.

End WithEngine.

(** ** The claims at concrete requests, with the reference engine *)

Lemma tmplHandler_bad_json_witness :
  unmarshal_tmplPath "[1]" = Err (UnmarshalTypeError "array") ∧
  tmplHandler example_job (Ok "[1]") (example_world 4096) =
    (writeError (ESdk (NewError ErrWrongRequest (EJson (UnmarshalTypeError "array")))),
     example_world 4096).
Proof. split; [vm_compute; reflexivity|]. apply tmplHandler_bad_json. vm_compute. reflexivity. Defined.

Lemma tmplHandler_mode_witness :
  let w := {| w_fs := {| nodes := <["/w/outputFile" := File "old" 384]> (nodes (example_fs 4096));
                         umask := 18; free := 4096 |}; w_trace := [] |} in
  unmarshal_tmplPath example_request = Ok example_paths ∧
  fst (tmplHandler example_job (Ok example_request) w) = response_ok ∧
  ∃ res, nodes (w_fs (tmplHandler example_job (Ok example_request) w).2) !! Destination example_paths =
    Some (File res (match nodes (w_fs w) !! Destination example_paths with
                    | Some (File _ m) => m
                    | _ => Z.land 420 (Z.lnot (umask (w_fs w)))
                    end)).
Proof.
  cbv zeta. assert (unmarshal_tmplPath example_request = Ok example_paths) as Hd by (vm_compute; reflexivity).
  split_and!; [exact Hd|vm_compute; reflexivity|]. apply tmplHandler_mode; [exact Hd|vm_compute; reflexivity].
Defined.

Lemma tmplHandler_ENOSPC_witness :
  let w := example_world 10 in
  let res := "this a a line in the file, with a CDS variable 2" in
  let f1 := {| nodes := <["/w/outputFile" := File "" 420]> (nodes (example_fs 10));
               umask := 18; free := 10 |} in
  unmarshal_tmplPath example_request = Ok example_paths ∧
  ReadFile (w_fs w) (Path example_paths) = Ok example_source ∧
  interpolate_Do example_source (tmpvars example_job) = Ok res ∧
  open_trunc (w_fs w) (Destination example_paths) perm_0644 = Ok (f1, 420%Z) ∧
  (free f1 < String.length res)%nat ∧
  (status (fst (tmplHandler example_job (Ok example_request) w)) = 500%Z ∧
   nodes (w_fs (tmplHandler example_job (Ok example_request) w).2) !! Destination example_paths =
     Some (File (String.substring 0 (free f1) res) 420)).
Proof.
  cbv zeta.
  split; [vm_compute; reflexivity|]. split; [vm_compute; reflexivity|].
  split; [vm_compute; reflexivity|]. split; [vm_compute; reflexivity|].
  split; [vm_compute; lia|].
  apply (tmplHandler_ENOSPC example_job example_request example_paths example_source);
    vm_compute; (reflexivity || lia).
Defined.

End Handler.
