(* ===== verification/Strconv.v ===== *)
(** * [strconv.Atoi] and [%d] on 64-bit [int]

    The client reads the daemon's port with [strconv.Atoi(portS)]
    (line 61 of [src/engine/worker/cmd_tmpl.go]) and prints it back into
    the URL with [fmt.Sprintf("...:%d/tmpl", port)] (line 77).  [Atoi]
    is modelled as Go writes it for a 64-bit [int]: a fast path for
    strings of 1 to 18 bytes, and otherwise [ParseInt(s, 10, 0)] on top
    of [ParseUint], whose overflow checks work on [uint64] values
    (wrap-around written out as [mod 2^64]). *)
From S2P Require Import Prelude.

Module Strconv.
Local Open Scope Z_scope.

Inductive NumError := ErrSyntax | ErrRange.

Definition maxUint64 : Z := 2 ^ 64 - 1.
Definition u64 (z : Z) : Z := z mod 2 ^ 64.

Definition plus : ascii := "+"%char.
Definition minus : ascii := "-"%char.

(** The fast path's loop: [ch -= '0'] wraps as a byte, then [ch > 9]. *)
Fixpoint fast_digits (s : string) (n : Z) : result NumError Z :=
  match s with
  | EmptyString => Ok n
  | String c r =>
      let ch := (byte_val c - 48) mod 256 in
      if 9 <? ch then Err ErrSyntax else fast_digits r (n * 10 + ch)
  end.

(** [ParseUint(s, 10, 64)]'s loop, with its two overflow checks. *)
Fixpoint parse_uint_loop (s : string) (n : Z) : result NumError Z :=
  match s with
  | EmptyString => Ok n
  | String c r =>
      let b := byte_val c in
      let d := if (48 <=? b) && (b <=? 57) then Some (b - 48)
               else if (97 <=? b) && (b <=? 122) then Some (b - 97 + 10)
               else if (65 <=? b) && (b <=? 90) then Some (b - 65 + 10)
               else None in
      match d with
      | None => Err ErrSyntax
      | Some d =>
          if 10 <=? d then Err ErrSyntax
          else if maxUint64 / 10 + 1 <=? n then Err ErrRange
          else
            let n' := u64 (n * 10) in
            let n1 := u64 (n' + d) in
            if (n1 <? n') || (maxUint64 <? n1) then Err ErrRange else parse_uint_loop r n1
      end
  end.

Definition ParseUint (s : string) : result NumError Z :=
  match s with EmptyString => Err ErrSyntax | _ => parse_uint_loop s 0 end.

(** [ParseInt(s, 10, 64)]. *)
Definition ParseInt (s : string) : result NumError Z :=
  match s with
  | EmptyString => Err ErrSyntax
  | String c r =>
      let '(neg, s') := if decide (c = plus) then (false, r)
                        else if decide (c = minus) then (true, r) else (false, s) in
      match ParseUint s' with
      | Err e => Err e
      | Ok un =>
          let cutoff := 2 ^ 63 in
          if negb neg && (cutoff <=? un) then Err ErrRange
          else if neg && (cutoff <? un) then Err ErrRange
          else Ok (if neg then - un else un)
      end
  end.

(** [strconv.Atoi] for a 64-bit [int]. *)
Definition Atoi (s : string) : result NumError Z :=
  let sLen := String.length s in
  if (0 <? sLen)%nat && (sLen <? 19)%nat then
    match s with
    | String c r =>
        let '(signed, digits) :=
          if bool_decide (c = minus) || bool_decide (c = plus) then (true, r) else (false, s) in
        if signed && (String.length digits =? 0)%nat then Err ErrSyntax else
        match fast_digits digits 0 with
        | Err e => Err e
        | Ok n => Ok (if decide (c = minus) then - n else n)
        end
    | EmptyString => Err ErrSyntax
    end
  else ParseInt s.

(** ** [%d] *)

Definition digit_char (d : Z) : ascii := byte_of (48 + d).

Fixpoint digits_of_pos (fuel : nat) (n : Z) (acc : string) : string :=
  match fuel with
  | O => acc
  | S f => if n <? 10 then String (digit_char n) acc
           else digits_of_pos f (n / 10) (String (digit_char (n mod 10)) acc)
  end.

(** The decimal digits of [|n|], with a ['-'] when [n < 0]. *)
Definition FormatInt (n : Z) : string :=
  let ds := digits_of_pos 20 (Z.abs n) EmptyString in
  if n <? 0 then String minus ds else ds.

(** ** Reference semantics: an optional sign, one or more decimal digits,
    and a value in the range of [int64]. *)

Definition is_digit (c : ascii) : bool := (48 <=? byte_val c) && (byte_val c <=? 57).

Fixpoint decimal (s : string) (acc : Z) : option Z :=
  match s with
  | EmptyString => Some acc
  | String c r => if is_digit c then decimal r (acc * 10 + (byte_val c - 48)) else None
  end.

Definition sign_split (s : string) : bool * string :=
  match s with
  | String c r => if decide (c = minus) then (true, r)
                  else if decide (c = plus) then (false, r) else (false, s)
  | EmptyString => (false, s)
  end.

Definition in_int64 (n : Z) : bool := (- 2 ^ 63 <=? n) && (n <? 2 ^ 63).

Definition atoi_ref (s : string) : option Z :=
  let '(neg, ds) := sign_split s in
  match ds with
  | EmptyString => None
  | _ => match decimal ds 0 with
         | Some v => let n := if neg then - v else v in
                     if in_int64 n then Some n else None
         | None => None
         end
  end.

Lemma decimal_acc s n :
  decimal s n = (λ v, n * 10 ^ Z.of_nat (String.length s) + v) <$> decimal s 0.
Proof.
  revert n; induction s as [|c s IH]; intros n; simpl; [f_equal; lia|].
  destruct (is_digit c); [|done].
  rewrite (IH (n * 10 + _)), (IH (0 * 10 + _)).
  destruct (decimal s 0); simpl; [f_equal|done].
  rewrite Nat2Z.inj_succ, Z.pow_succ_r by lia. ring.
Qed.

Lemma decimal_bound s v :
  decimal s 0 = Some v → 0 ≤ v < 10 ^ Z.of_nat (String.length s).
Proof.
  revert v; induction s as [|c s IH]; intros v; simpl; [intros [= <-]; lia|].
  unfold is_digit; destruct (_ && _) eqn:Hd; [|done].
  rewrite decimal_acc. destruct (decimal s 0) as [w|] eqn:E; [|done].
  intros [= <-]. specialize (IH w eq_refl).
  rewrite Nat2Z.inj_succ, Z.pow_succ_r by lia. apply andb_true_iff in Hd as [? ?].
  apply Z.leb_le in H; apply Z.leb_le in H0; nia.
Qed.

Lemma fast_digits_decimal s n :
  fast_digits s n = match decimal s n with Some v => Ok v | None => Err ErrSyntax end.
Proof.
  revert n; induction s as [|c s IH]; intros n; simpl; [done|].
  pose proof (byte_val_bound c). unfold is_digit.
  destruct (9 <? _) eqn:E1, (_ && _) eqn:E2; try done;
    rewrite ?Z.ltb_lt, ?Z.ltb_ge, ?andb_true_iff, ?andb_false_iff, ?Z.leb_le, ?Z.leb_gt in *.
  - exfalso; zlia.
  - rewrite IH. replace ((byte_val c - 48) mod 256) with (byte_val c - 48) by zlia. done.
  - exfalso; destruct E2; zlia.
Qed.

Lemma parse_uint_loop_decimal s n v :
  0 ≤ n < 2 ^ 64 → decimal s n = Some v →
  parse_uint_loop s n = if v <? 2 ^ 64 then Ok v else Err ErrRange.
Proof.
  revert n; induction s as [|c s IH]; intros n Hn; simpl.
  { intros [= <-]. by rewrite (proj2 (Z.ltb_lt _ _)) by lia. }
  pose proof (byte_val_bound c). unfold is_digit.
  destruct (_ && _) eqn:Hd; [|done]. apply andb_true_iff in Hd as [Hd1 Hd2].
  apply Z.leb_le in Hd1; apply Z.leb_le in Hd2.
  rewrite (proj2 (Z.leb_gt 10 _)) by lia. unfold maxUint64, u64.
  intros Hv. pose proof Hv as Hv'. rewrite decimal_acc in Hv'.
  destruct (decimal s 0) as [w|] eqn:Ew; [|done]. injection Hv' as <-.
  pose proof (decimal_bound _ _ Ew).
  assert (0 < 10 ^ Z.of_nat (String.length s)) by (apply Z.pow_pos_nonneg; lia).
  destruct (_ <=? n) eqn:Hc.
  { apply Z.leb_le in Hc. assert (2 ^ 64 <= n * 10) by zlia.
    rewrite (proj2 (Z.ltb_ge _ _)) by nia. done. }
  apply Z.leb_gt in Hc. assert (n * 10 < 2 ^ 64) by zlia. rewrite (Z.mod_small (n * 10)) by lia.
  destruct (n * 10 + (byte_val c - 48) <? 2 ^ 64) eqn:Hs.
  - apply Z.ltb_lt in Hs. rewrite Z.mod_small by lia.
    rewrite (proj2 (Z.ltb_ge _ _)) by lia. rewrite (proj2 (Z.ltb_ge (2^64-1) _)) by lia.
    apply IH; [lia|done].
  - apply Z.ltb_ge in Hs.
    rewrite (proj2 (Z.ltb_ge ((n * 10 + (byte_val c - 48)) * 10 ^ Z.of_nat (String.length s) + w) (2 ^ 64))) by nia.
    rewrite (proj2 (Z.ltb_lt _ (n * 10))) by zlia. done.
Qed.

Lemma parse_uint_loop_nondecimal s n :
  0 ≤ n < 2 ^ 64 → decimal s n = None → ok_opt (parse_uint_loop s n) = None.
Proof.
  revert n; induction s as [|c s IH]; intros n Hn; simpl; [done|].
  pose proof (byte_val_bound c). unfold is_digit.
  destruct ((48 <=? byte_val c) && _) eqn:Hd.
  - unfold maxUint64, u64. intros Hv.
    destruct (10 <=? _); [done|]. destruct (_ <=? n) eqn:Hc; [done|].
    destruct (_ || _) eqn:Ho; [done|]. apply Z.leb_gt in Hc.
    apply orb_false_iff in Ho as [Ho1 Ho2]. apply Z.ltb_ge in Ho1, Ho2.
    assert (n * 10 < 2 ^ 64) by zlia. rewrite (Z.mod_small (n * 10)) in * by lia.
    assert (n * 10 + (byte_val c - 48) < 2 ^ 64) by zlia.
    rewrite Z.mod_small by lia. apply IH; [lia|done].
  - intros _. apply andb_false_iff in Hd as [Hd|Hd];
      repeat match goal with |- context [if ?b then _ else _] => destruct b eqn:? end;
      rewrite ?andb_true_iff, ?Z.leb_le, ?Z.leb_gt in *; try done; exfalso; zlia.
Qed.

Lemma ParseUint_ref s :
  ok_opt (ParseUint s) =
    match s with
    | EmptyString => None
    | _ => match decimal s 0 with Some v => if v <? 2 ^ 64 then Some v else None | None => None end
    end.
Proof.
  destruct s as [|c r]; [done|]. unfold ParseUint.
  destruct (decimal (String c r) 0) as [v|] eqn:E.
  - rewrite (parse_uint_loop_decimal _ 0 v) by (done || lia). by destruct (v <? 2 ^ 64).
  - apply parse_uint_loop_nondecimal; [lia|done].
Qed.

Lemma decimal_small ds v :
  decimal ds 0 = Some v → (String.length ds < 19)%nat → 0 ≤ v < 10 ^ 18.
Proof.
  intros Hv Hl. apply decimal_bound in Hv. split; [lia|].
  eapply Z.lt_le_trans; [apply Hv|]. apply Z.pow_le_mono_r; lia.
Qed.
Lemma ParseInt_range neg v :
  0 ≤ v →
  ok_opt (if negb neg && (2 ^ 63 <=? v) then Err ErrRange
          else if neg && (2 ^ 63 <? v) then Err ErrRange
          else Ok (if neg then - v else v)) =
    (let n := if neg then - v else v in if in_int64 n then Some n else None).
Proof.
  intros Hv. unfold in_int64.
  destruct neg; simpl; repeat case_match; simpl;
    rewrite ?andb_true_iff, ?andb_false_iff, ?Z.leb_le, ?Z.leb_gt, ?Z.ltb_lt, ?Z.ltb_ge in *;
    try done; exfalso; lia.
Qed.

(** The fast path's digits never leave [int64]. *)
Lemma fast_path_ref (neg : bool) ds :
  (String.length ds < 19)%nat →
  ok_opt (match fast_digits ds 0 with
          | Err e => Err e | Ok n => Ok (if neg then - n else n) end) =
    match decimal ds 0 with
    | Some v => let n := if neg then - v else v in if in_int64 n then Some n else None
    | None => None
    end.
Proof.
  intros Hl. rewrite fast_digits_decimal.
  destruct (decimal ds 0) as [v|] eqn:E; [|done]. apply decimal_small in E; [|done].
  unfold in_int64. destruct neg; simpl;
    rewrite (proj2 (Z.leb_le _ _)), (proj2 (Z.ltb_lt _ _)) by lia; done.
Qed.

Lemma slow_path_ref (neg : bool) ds :
  ok_opt (match ParseUint ds with
          | Err e => Err e
          | Ok un =>
              if negb neg && (2 ^ 63 <=? un) then Err ErrRange
              else if neg && (2 ^ 63 <? un) then Err ErrRange
              else Ok (if neg then - un else un)
          end) =
    match ds with
    | EmptyString => None
    | _ => match decimal ds 0 with
           | Some v => let n := if neg then - v else v in if in_int64 n then Some n else None
           | None => None
           end
    end.
Proof.
  pose proof (ParseUint_ref ds) as HU.
  destruct (ParseUint ds) as [un|]; simpl in HU; destruct ds as [|c r]; try done;
    destruct (decimal (String c r) 0) as [v|] eqn:E; try done.
  - destruct (v <? 2 ^ 64); simplify_eq. apply ParseInt_range.
    apply decimal_bound in E. lia.
  - destruct (v <? 2 ^ 64) eqn:Hv; [done|]. apply Z.ltb_ge in Hv. cbn zeta.
    replace (in_int64 _) with false; [done|]. symmetry. unfold in_int64.
    apply andb_false_iff. destruct neg; [left; apply Z.leb_gt|right; apply Z.ltb_ge]; lia.
Qed.

(** [Atoi] and the reference agree on every input. *)
Lemma Atoi_atoi_ref s : ok_opt (Atoi s) = atoi_ref s.
Proof.
  unfold Atoi, atoi_ref. destruct s as [|c r]; [done|].
  cbn [String.length]. destruct ((0 <? _)%nat && _) eqn:Hf.
  - apply andb_true_iff in Hf as [_ Hl]. apply Nat.ltb_lt in Hl. unfold sign_split.
    destruct (decide (c = minus)) as [->|Hm];
      [|destruct (decide (c = plus)) as [->|Hp]].
    + destruct r as [|a r]; [done|]. exact (fast_path_ref true (String a r) ltac:(simpl in *; lia)).
    + destruct r as [|a r]; [done|]. exact (fast_path_ref false (String a r) ltac:(simpl in *; lia)).
    + rewrite (bool_decide_eq_false_2 _ Hm), (bool_decide_eq_false_2 _ Hp).
      exact (fast_path_ref false (String c r) Hl).
  - unfold ParseInt, sign_split.
    destruct (decide (c = minus)) as [->|Hm];
      [|destruct (decide (c = plus)) as [->|Hp]].
    + destruct r as [|a r]; [done|]. exact (slow_path_ref true (String a r)).
    + destruct r as [|a r]; [done|]. exact (slow_path_ref false (String a r)).
    + exact (slow_path_ref false (String c r)).
Qed.
Lemma Atoi_Ok s n : atoi_ref s = Some n → Atoi s = Ok n.
Proof. rewrite <- Atoi_atoi_ref. destruct (Atoi s); simpl; congruence. Qed.

Lemma Atoi_Err s : atoi_ref s = None → ∃ e, Atoi s = Err e.
Proof. rewrite <- Atoi_atoi_ref. destruct (Atoi s); simpl; [done|eauto]. Qed.

Lemma atoi_ref_nonempty s n : atoi_ref s = Some n → s ≠ EmptyString.
Proof. by intros ? ->. Qed.

(** ** [%d] is read back by [Atoi] *)

Lemma decimal_app s t a :
  decimal (s ++ t) a = match decimal s a with Some v => decimal t v | None => None end.
Proof.
  revert a; induction s as [|c s IH]; intros a; simpl; [done|].
  destruct (is_digit c); [apply IH|done].
Qed.

Lemma digits_of_pos_app f n acc t :
  digits_of_pos f n (acc ++ t) = (digits_of_pos f n acc ++ t)%string.
Proof.
  revert n acc; induction f as [|f IH]; intros n acc; simpl; [done|].
  destruct (n <? 10); [done|]. by rewrite <- IH.
Qed.

Lemma decimal_digit_char d a :
  0 ≤ d < 10 → decimal (String (digit_char d) EmptyString) a = Some (a * 10 + d).
Proof.
  intros Hd. unfold digit_char. simpl. unfold is_digit.
  rewrite byte_val_of by lia.
  rewrite (proj2 (Z.leb_le 48 _)), (proj2 (Z.leb_le _ 57)) by lia. simpl. do 2 f_equal. lia.
Qed.

Lemma digits_of_pos_S f n acc :
  digits_of_pos (S f) n acc =
    if n <? 10 then String (digit_char n) acc
    else digits_of_pos f (n / 10) (String (digit_char (n mod 10)) acc).
Proof. done. Qed.

Lemma digits_of_pos_decimal f n :
  0 ≤ n < 10 ^ Z.of_nat (S f) →
  decimal (digits_of_pos (S f) n EmptyString) 0 = Some n ∧
  digits_of_pos (S f) n EmptyString ≠ EmptyString.
Proof.
  revert n; induction f as [|f IH]; intros n Hn.
  - change (10 ^ Z.of_nat 1) with 10 in Hn. simpl.
    rewrite (proj2 (Z.ltb_lt n 10)) by lia. by rewrite decimal_digit_char by lia.
  - rewrite digits_of_pos_S. destruct (n <? 10) eqn:Hs.
    + apply Z.ltb_lt in Hs. by rewrite decimal_digit_char by lia.
    + apply Z.ltb_ge in Hs. rewrite Nat2Z.inj_succ, Z.pow_succ_r in Hn by lia.
      destruct (IH (n / 10)) as [H1 H2]; [zlia|].
      change (String (digit_char (n mod 10)) EmptyString)
        with ("" ++ String (digit_char (n mod 10)) EmptyString)%string.
      rewrite digits_of_pos_app, decimal_app, H1, decimal_digit_char by zlia.
      split; [f_equal; zlia|]. by destruct (digits_of_pos (S f) (n / 10) "").
Qed.

Lemma decimal_head c r a v : decimal (String c r) a = Some v → c ≠ minus ∧ c ≠ plus.
Proof.
  simpl. destruct (is_digit c) eqn:Hd; [|done]. intros _.
  split; intros ->; vm_compute in Hd; discriminate.
Qed.

Lemma atoi_ref_FormatInt n : in_int64 n = true → atoi_ref (FormatInt n) = Some n.
Proof.
  intros Hn. unfold in_int64 in Hn. apply andb_true_iff in Hn as [H1 H2].
  apply Z.leb_le in H1. apply Z.ltb_lt in H2.
  destruct (digits_of_pos_decimal 19 (Z.abs n)) as [Hd Hne]; [norm_pow2; lia|].
  unfold FormatInt, atoi_ref.
  destruct (digits_of_pos 20 (Z.abs n) "") as [|c r] eqn:E; [done|].
  destruct (decimal_head _ _ _ _ Hd) as [Hm Hp].
  destruct (n <? 0) eqn:Hneg; simpl sign_split.
  - cbv beta iota. rewrite Hd. unfold in_int64. apply Z.ltb_lt in Hneg.
    rewrite (proj2 (Z.leb_le _ _)), (proj2 (Z.ltb_lt _ _)) by lia. simpl. f_equal. lia.
  - rewrite decide_False, decide_False by done. cbv beta iota. rewrite Hd. unfold in_int64.
    apply Z.ltb_ge in Hneg.
    rewrite (proj2 (Z.leb_le _ _)), (proj2 (Z.ltb_lt _ _)) by lia. simpl. f_equal. lia.
Qed.

(** C: [Atoi] accepts exactly an optional sign followed by one or more
    decimal digits whose value fits in [int64], and returns that value:
    Go's fast path for short strings and its [ParseInt] slow path, with
    the [uint64] overflow checks, agree with the reference. *)
Theorem Atoi_correct s n : Atoi s = Ok n ↔ atoi_ref s = Some n.
Proof.
  rewrite <- Atoi_atoi_ref. split; [by intros ->|].
  destruct (Atoi s); simpl; congruence.
Qed.

(** C: the port printed with [%d] is read back by [Atoi]: for every
    [int64] [n], [Atoi (FormatInt n) = Ok n]. *)
Theorem Atoi_FormatInt n : in_int64 n = true → Atoi (FormatInt n) = Ok n.
Proof. intros Hn. by apply Atoi_Ok, atoi_ref_FormatInt. Qed.
End Strconv.
