(* ===== verification/Client.v ===== *)
(** * The client: [tmplCmd] (lines 54-99 of [src/engine/worker/cmd_tmpl.go])

    [worker tmpl <src> <dst>] reads the daemon's port from the
    environment, marshals a [tmplPath], builds
    [POST http://127.0.0.1:<port>/tmpl] and sends it with
    [http.DefaultClient] under a five-minute timeout; a status [>= 300]
    is turned into a process exit with a diagnostic.  [sdk.Exit] prints
    its message and ends the process with a non-zero status, so every
    [sdk.Exit(...)] of the code is an [Err msg] here, and the end of the
    function is [Ok tt] (exit status 0, no output).

    The HTTP client is an interface: [Transport S] sends one request and
    may change a state [S] (the daemon's side of the world); the client's
    theorems hold for every transport.  [net/url] is modelled for the only
    check the URL of line 77 can fail, the port of the authority. *)
From S2P Require Import Prelude Utf8 JsonString Json Wire SdkError Strconv.

Module Client.
Import JsonString Json Wire SdkError Strconv.
Local Open Scope string_scope.

(** ** The environment *)

(** [os.Getenv]: the value, or [""] when the variable is unset. *)
Definition Getenv (env : gmap string string) (k : string) : string :=
  default "" (env !! k).

(** [WorkerServerPort], declared with the worker's other constants. *)
Definition WorkerServerPort : string := "CDS_EXPORT_PORT".

(** ** [net/url] and [http.NewRequest] *)

Definition colon : ascii := ":"%char.
Definition slash : ascii := "/"%char.

Fixpoint all_digits (s : string) : bool :=
  match s with EmptyString => true | String c r => is_digit c && all_digits r end.

(** [validOptionalPort]: empty, or [':'] followed by digits only. *)
Definition validOptionalPort (port : string) : bool :=
  match port with
  | EmptyString => true
  | String c r => bool_decide (c = colon) && all_digits r
  end.

(** [host[i:]] for [i := strings.LastIndex(host, ":")], or [None]. *)
Fixpoint last_colon (s : string) : option string :=
  match s with
  | EmptyString => None
  | String c r => match last_colon r with
                  | Some p => Some p
                  | None => if bool_decide (c = colon) then Some s else None
                  end
  end.

(** [strings.Index(s, "/")] split: the part before and from the slash. *)
Fixpoint split_slash (s : string) : string * string :=
  match s with
  | EmptyString => ("", "")
  | String c r => if bool_decide (c = slash) then ("", s)
                  else let '(a, b) := split_slash r in (String c a, b)
  end.

Record URL := { Scheme : string; Host : string; UPath : string }.

(** [url.Parse] on an absolute [scheme://authority/path] URL:
    the authority goes through [parseHost], which rejects a port that is
    not all digits with [invalid port ":..." after host]; the error is
    wrapped as [parse <url>: <err>]. *)
Definition url_Parse (scheme rest : string) : result string URL :=
  let raw := scheme ++ "://" ++ rest in
  let '(authority, path) := split_slash rest in
  match last_colon authority with
  | Some colonPort =>
      if validOptionalPort colonPort then Ok {| Scheme := scheme; Host := authority; UPath := path |}
      else Err ("parse " ++ raw ++ ": invalid port " ++ String dq (colonPort ++ String dq " after host"))
  | None => Ok {| Scheme := scheme; Host := authority; UPath := path |}
  end.

Record http_request := { req_method : string; req_url : URL; req_body : string }.

(** [http.NewRequest(method, url, body)]. *)
Definition NewRequest (method scheme rest body : string) : result string http_request :=
  u ← url_Parse scheme rest;
  mret {| req_method := method; req_url := u; req_body := body |}.

(** ** The HTTP client *)

(** A response: its status and what [ioutil.ReadAll(resp.Body)] yields. *)
Record http_response := { StatusCode : Z; resp_read : result string string }.

(** [client.Do(req)] with [client.Timeout] in nanoseconds: one exchange,
    which may change the state [S] of the other side. *)
Class Transport (S : Type) := {
  client_Do : Z → http_request → S → result string http_response * S
}.

(** [5 * time.Minute]. *)
Definition timeout_5min : Z := 5 * 60 * 1000000000.

(** [fmt.Sprintf("%v", cdsError)] for the [error] [sdk.DecodeError]
    returns: the message, or [<nil>]. *)
Definition show_error (e : option Error) : string :=
  match e with Some e => message e | None => "<nil>" end.

(** ** [tmplCmd] *)

Section Cmd.
Context {S : Type} `{Transport S}.

(** The result of the process (an exit message, or normal return), the
    requests it sent, in order, and the state of the other side. *)
Definition tmplCmd (env : gmap string string) (args : list string) (s : S)
    : result string unit * list http_request * S :=
  let portS := Getenv env WorkerServerPort in
  if bool_decide (portS = "") then
    (Err (WorkerServerPort ++ " not found, are you running inside a CDS worker job?" ++ String "010"%char ""), [], s)
  else match Atoi portS with
  | Err _ => (Err ("cannot parse '" ++ portS ++ "' as a port number"), [], s)
  | Ok port =>
    match args with
    | [src; dst] =>
        let a := {| Path := src; Destination := dst |} in
        let data := marshal_tmplPath a in
        match NewRequest "POST" "http" ("127.0.0.1:" ++ FormatInt port ++ "/tmpl") data with
        | Err e => (Err ("cannot post worker tmpl (Request): " ++ e ++ String "010"%char ""), [], s)
        | Ok req =>
            let '(r, s') := client_Do timeout_5min req s in
            match r with
            | Err e => (Err ("tmpl call failed: " ++ e), [req], s')
            | Ok resp =>
                if (300 <=? StatusCode resp)%Z then
                  match resp_read resp with
                  | Err e => (Err ("tmpl failed: unable to read body " ++ e ++ String "010"%char ""), [req], s')
                  | Ok body =>
                      (Err ("tmpl failed: " ++ show_error (DecodeError body) ++ String "010"%char ""), [req], s')
                  end
                else (Ok tt, [req], s')
            end
        end
    | _ => (Err "Wrong usage: Example : worker tmpl filea fileb", [], s)
    end
  end.
End Cmd.

(** ** [cmdTmpl]: the cobra command

    [cmdTmpl] (lines 20-47) fills a [cobra.Command] whose [Run] is
    [tmplCmd(w)]; cobra's dispatch (flag parsing, calling [Run] with the
    positional arguments) is a library the source only calls. *)
Record command (S : Type) := {
  Use : string; Short : string; Long : string;
  Run : list string → S → result string unit * list http_request * S }.
Arguments Use {_}. Arguments Short {_}. Arguments Long {_}. Arguments Run {_}.

(** The help text, with the concatenation of line 37 done. *)
Definition tmpl_long : string := "

Inside a step script (https://ovh.github.io/cds/workflows/pipelines/actions/builtin/script/), you can add a replace CDS variables with the real value into a file:

	# create a file
	cat << EOF > myFile
	this a a line in the file, with a CDS variable {{.cds.version}}
	EOF

	# worker tmpl <input file> <output file>
	worker tmpl {{.cds.workspace}}/myFile {{.cds.workspace}}/outputFile


The file `outputFile` will contain the string:

	this a a line in the file, with a CDS variable 2


if it's the RUN n°2 of the current workflow.
		".

Definition cmdTmpl {S : Type} `{Transport S} (env : gmap string string) : command S := {|
  Use := "tmpl"; Short := "worker tmpl inputFile outputFile"; Long := tmpl_long;
  Run := tmplCmd env |}.

(** ** The URL of line 77 *)

Lemma all_digits_app s t : all_digits (s ++ t) = all_digits s && all_digits t.
Proof.
  induction s as [|c s IH]; [by rewrite sapp_nil_l|].
  rewrite sapp_cons. simpl. by rewrite IH, andb_assoc.
Qed.

Lemma all_digits_digits_of_pos f n acc :
  (0 ≤ n)%Z → all_digits (digits_of_pos f n acc) = all_digits acc.
Proof.
  revert n acc; induction f as [|f IH]; intros n acc Hn; [done|]. rewrite digits_of_pos_S.
  assert (∀ d, (0 ≤ d < 10)%Z → is_digit (digit_char d) = true) as Hd.
  { intros d Hd. unfold is_digit, digit_char. rewrite byte_val_of by lia.
    apply andb_true_iff; split; apply Z.leb_le; lia. }
  destruct (n <? 10)%Z eqn:E; simpl.
  - apply Z.ltb_lt in E. rewrite Hd by lia. done.
  - rewrite IH by (apply Z.div_pos; lia). simpl. rewrite Hd by (apply Z.mod_pos_bound; lia). done.
Qed.

(** [%d]: a sign for negative numbers, then a non-empty run of digits. *)
Lemma FormatInt_shape n :
  ∃ ds, all_digits ds = true ∧ ds ≠ "" ∧
        FormatInt n = if (n <? 0)%Z then String minus ds else ds.
Proof.
  exists (digits_of_pos 20 (Z.abs n) ""). split_and!.
  - rewrite all_digits_digits_of_pos by lia. done.
  - rewrite digits_of_pos_S. case_match; [done|].
    change (String _ "") with ("" ++ String (digit_char (Z.abs n mod 10)) "")%string.
    rewrite digits_of_pos_app. by destruct (digits_of_pos _ _ _).
  - done.
Qed.

Fixpoint has_char (c : ascii) (s : string) : bool :=
  match s with EmptyString => false | String d r => bool_decide (d = c) || has_char c r end.

Lemma has_char_app c s t : has_char c (s ++ t) = has_char c s || has_char c t.
Proof.
  induction s as [|d s IH]; [by rewrite sapp_nil_l|].
  rewrite sapp_cons. simpl. by rewrite IH, orb_assoc.
Qed.

Lemma all_digits_has_char c s :
  is_digit c = false → all_digits s = true → has_char c s = false.
Proof.
  intros Hc. induction s as [|d s IH]; simpl; [done|]. intros [Hd Hs]%andb_true_iff.
  rewrite IH by done. rewrite bool_decide_eq_false_2; [done|]. by intros ->; rewrite Hd in Hc.
Qed.

Lemma split_slash_app s t :
  has_char slash s = false → split_slash (s ++ t) = (s ++ (split_slash t).1, (split_slash t).2).
Proof.
  induction s as [|c s IH]; [rewrite !sapp_nil_l; by destruct (split_slash t)|].
  rewrite !sapp_cons. simpl. intros [Hc Hs]%orb_false_iff.
  by rewrite Hc, IH.
Qed.

Lemma last_colon_app s t :
  last_colon (s ++ t) =
    match last_colon t with
    | Some p => Some p
    | None => match last_colon s with Some p => Some (p ++ t) | None => None end
    end.
Proof.
  induction s as [|c s IH]; [rewrite sapp_nil_l; by destruct (last_colon t)|].
  rewrite sapp_cons. simpl. rewrite IH.
  destruct (last_colon t), (last_colon s); try done. by case_bool_decide.
Qed.

Lemma last_colon_none s : has_char colon s = false → last_colon s = None.
Proof.
  induction s as [|c s IH]; simpl; [done|]. intros [Hc Hs]%orb_false_iff.
  rewrite IH by done. rewrite bool_decide_eq_false_2; [done|].
  intros ->. by rewrite bool_decide_eq_true_2 in Hc.
Qed.

Definition loopback_host (port : Z) : string := "127.0.0.1:" ++ FormatInt port.

(** The request line of [tmplCmd]: the URL parses exactly when the port
    is not negative, a ['-'] being no digit of [validOptionalPort]. *)
Lemma url_Parse_loopback port :
  url_Parse "http" ("127.0.0.1:" ++ FormatInt port ++ "/tmpl") =
    if (port <? 0)%Z
    then Err ("parse http://127.0.0.1:" ++ FormatInt port ++ "/tmpl: invalid port "
              ++ String dq (":" ++ FormatInt port ++ String dq " after host"))
    else Ok {| Scheme := "http"; Host := loopback_host port; UPath := "/tmpl" |}.
Proof.
  unfold url_Parse, loopback_host. destruct (FormatInt_shape port) as (ds & Hd & Hne & ->).
  assert (has_char slash ds = false) by (by apply all_digits_has_char).
  assert (has_char colon ds = false) by (by apply all_digits_has_char).
  rewrite (sapp_assoc "http"), split_slash_app by done.
  destruct (port <? 0)%Z; rewrite split_slash_app by (simpl; rewrite ?H; done);
    cbn [split_slash fst snd]; rewrite sapp_nil_r, last_colon_app, last_colon_none by (simpl; by rewrite ?H0);
    cbn [last_colon]; simpl.
  - by rewrite <- !sapp_assoc.
  - by rewrite sapp_nil_l, Hd.
Qed.

(** The one request [tmplCmd] can send. *)
Definition tmpl_request (port : Z) (src dst : string) : http_request :=
  {| req_method := "POST";
     req_url := {| Scheme := "http"; Host := loopback_host port; UPath := "/tmpl" |};
     req_body := marshal_tmplPath {| Path := src; Destination := dst |} |}.

Definition nl : string := String "010"%char "".

Section ClientProps.
Context {S : Type} `{Transport S}.
Implicit Types (env : gmap string string) (s : S).

(** Past the port checks, [tmplCmd] is the rest of its body. *)
Lemma tmplCmd_port env args s port :
  atoi_ref (Getenv env WorkerServerPort) = Some port →
  tmplCmd env args s =
    match args with
    | [src; dst] =>
        match NewRequest "POST" "http" ("127.0.0.1:" ++ FormatInt port ++ "/tmpl")
                (marshal_tmplPath {| Path := src; Destination := dst |}) with
        | Err e => (Err ("cannot post worker tmpl (Request): " ++ e ++ nl), [], s)
        | Ok req =>
            let '(r, s') := client_Do timeout_5min req s in
            match r with
            | Err e => (Err ("tmpl call failed: " ++ e), [req], s')
            | Ok resp =>
                if (300 <=? StatusCode resp)%Z then
                  match resp_read resp with
                  | Err e => (Err ("tmpl failed: unable to read body " ++ e ++ nl), [req], s')
                  | Ok body => (Err ("tmpl failed: " ++ show_error (DecodeError body) ++ nl), [req], s')
                  end
                else (Ok tt, [req], s')
            end
        end
    | _ => (Err "Wrong usage: Example : worker tmpl filea fileb", [], s)
    end.
Proof.
  intros Hp. unfold tmplCmd.
  rewrite bool_decide_eq_false_2 by (eapply atoi_ref_nonempty, Hp).
  by rewrite (Atoi_Ok _ _ Hp).
Qed.

Lemma tmplCmd_sends env src dst s port :
  atoi_ref (Getenv env WorkerServerPort) = Some port → (0 ≤ port)%Z →
  tmplCmd env [src; dst] s =
    let '(r, s') := client_Do timeout_5min (tmpl_request port src dst) s in
    match r with
    | Err e => (Err ("tmpl call failed: " ++ e), [tmpl_request port src dst], s')
    | Ok resp =>
        if (300 <=? StatusCode resp)%Z then
          match resp_read resp with
          | Err e => (Err ("tmpl failed: unable to read body " ++ e ++ nl), [tmpl_request port src dst], s')
          | Ok body => (Err ("tmpl failed: " ++ show_error (DecodeError body) ++ nl),
                         [tmpl_request port src dst], s')
          end
        else (Ok tt, [tmpl_request port src dst], s')
    end.
Proof.
  intros Hp Hn. rewrite (tmplCmd_port _ _ _ _ Hp). unfold NewRequest.
  rewrite url_Parse_loopback, (proj2 (Z.ltb_ge _ _)) by done. done.
Qed.

(** C6: without the port variable the client exits with its
    diagnostic before sending anything, whatever its arguments; the
    daemon's side is untouched. *)
Theorem tmplCmd_no_port env args s :
  Getenv env WorkerServerPort = "" →
  tmplCmd env args s =
    (Err (WorkerServerPort ++ " not found, are you running inside a CDS worker job?" ++ nl), [], s).
Proof. intros He. unfold tmplCmd. by rewrite He. Qed.

(** C15: a port variable that [Atoi] rejects ends the client before
    any request, with a diagnostic that, unlike the others, has no
    final newline. *)
Theorem tmplCmd_bad_port env args s :
  Getenv env WorkerServerPort ≠ "" → atoi_ref (Getenv env WorkerServerPort) = None →
  tmplCmd env args s =
    (Err ("cannot parse '" ++ Getenv env WorkerServerPort ++ "' as a port number"), [], s).
Proof.
  intros Hne Hr. destruct (Atoi_Err _ Hr) as [e He]. unfold tmplCmd.
  by rewrite bool_decide_eq_false_2, He by done.
Qed.

(** C16: the argument count is checked after the port: with a
    readable port, any number of arguments but two is a usage error,
    and no request is sent. *)
Theorem tmplCmd_wrong_usage env args s port :
  atoi_ref (Getenv env WorkerServerPort) = Some port → length args ≠ 2%nat →
  tmplCmd env args s = (Err "Wrong usage: Example : worker tmpl filea fileb", [], s).
Proof.
  intros Hp Hl. rewrite (tmplCmd_port _ _ _ _ Hp).
  destruct args as [|? [|? [|]]]; simpl in Hl; done.
Qed.

(** C14: a negative port passes [Atoi] but not [url.Parse]: the client
    exits with the request-construction diagnostic, sending nothing. *)
Theorem tmplCmd_negative_port env src dst s port :
  atoi_ref (Getenv env WorkerServerPort) = Some port → (port < 0)%Z →
  tmplCmd env [src; dst] s =
    (Err ("cannot post worker tmpl (Request): parse http://127.0.0.1:" ++ FormatInt port
          ++ "/tmpl: invalid port " ++ String dq (":" ++ FormatInt port ++ String dq " after host")
          ++ nl), [], s).
Proof.
  intros Hp Hn. rewrite (tmplCmd_port _ _ _ _ Hp). unfold NewRequest.
  rewrite url_Parse_loopback, (proj2 (Z.ltb_lt _ _)) by done. cbn.
  by rewrite <- !sapp_assoc.
Qed.

(** C13: with a usable port and two arguments, the client sends exactly
    [POST http://127.0.0.1:<port>/tmpl] with the marshalled paths and a
    five-minute timeout, and returns normally when the status is below
    300. *)
Theorem tmplCmd_success env src dst s port resp s' :
  atoi_ref (Getenv env WorkerServerPort) = Some port → (0 ≤ port)%Z →
  client_Do timeout_5min (tmpl_request port src dst) s = (Ok resp, s') →
  (StatusCode resp < 300)%Z →
  tmplCmd env [src; dst] s = (Ok tt, [tmpl_request port src dst], s').
Proof.
  intros Hp Hn Hd Hs. rewrite (tmplCmd_sends _ _ _ _ _ Hp Hn), Hd.
  by rewrite (proj2 (Z.leb_gt _ _)).
Qed.

(** C8: a failure status (300 or more) whose body decodes as an
    [sdk.Error] ends the client with that error's message in its
    diagnostic. *)
Theorem tmplCmd_error_response env src dst s port resp s' body e :
  atoi_ref (Getenv env WorkerServerPort) = Some port → (0 ≤ port)%Z →
  client_Do timeout_5min (tmpl_request port src dst) s = (Ok resp, s') →
  (300 ≤ StatusCode resp)%Z → resp_read resp = Ok body → DecodeError body = Some e →
  tmplCmd env [src; dst] s = (Err ("tmpl failed: " ++ message e ++ nl), [tmpl_request port src dst], s').
Proof.
  intros Hp Hn Hd Hs Hb He. rewrite (tmplCmd_sends _ _ _ _ _ Hp Hn), Hd.
  by rewrite (proj2 (Z.leb_le _ _)), Hb, He.
Qed.

(** C9: a failure status whose body does not decode ends the client
    with [tmpl failed: <nil>], not with a diagnostic of its own. *)
Theorem tmplCmd_undecodable_body env src dst s port resp s' body :
  atoi_ref (Getenv env WorkerServerPort) = Some port → (0 ≤ port)%Z →
  client_Do timeout_5min (tmpl_request port src dst) s = (Ok resp, s') →
  (300 ≤ StatusCode resp)%Z → resp_read resp = Ok body → DecodeError body = None →
  tmplCmd env [src; dst] s = (Err ("tmpl failed: <nil>" ++ nl), [tmpl_request port src dst], s').
Proof.
  intros Hp Hn Hd Hs Hb He. rewrite (tmplCmd_sends _ _ _ _ _ Hp Hn), Hd.
  by rewrite (proj2 (Z.leb_le _ _)), Hb, He.
Qed.

(** Every run sends at most one request (no retry); when it sends one,
    it is the loopback request for the two arguments and the port of
    the environment, and the other side changes only through it. *)
Lemma tmplCmd_single_request env args s :
  match tmplCmd env args s with
  | (_, reqs, s') =>
      (reqs = [] ∧ s' = s) ∨
      ∃ port src dst r,
        args = [src; dst] ∧ atoi_ref (Getenv env WorkerServerPort) = Some port ∧ (0 ≤ port)%Z ∧
        reqs = [tmpl_request port src dst] ∧
        client_Do timeout_5min (tmpl_request port src dst) s = (r, s')
  end.
Proof.
  destruct (atoi_ref (Getenv env WorkerServerPort)) as [port|] eqn:Hp.
  2:{ unfold tmplCmd. case_bool_decide; [by left|].
      destruct (Atoi_Err _ Hp) as [e ->]. by left. }
  rewrite (tmplCmd_port _ _ _ _ Hp).
  destruct args as [|src [|dst [|]]]; try by left.
  unfold NewRequest. rewrite url_Parse_loopback.
  destruct (port <? 0)%Z eqn:Hn; [by left|]. apply Z.ltb_ge in Hn. cbn [mbind result_bind mret result_ret].
  destruct (client_Do _ _ _) as [r s'] eqn:Hd.
  repeat case_match; simplify_eq; right; exists port, src, dst; eauto 10.
Qed.
End ClientProps.


(** ** The claims at concrete runs *)

(** A transport that answers every request with [r]. *)
Definition replying (r : result string http_response) : Transport unit :=
  {| client_Do _ _ s := (r, s) |}.

Definition port_env (v : string) : gmap string string := <[WorkerServerPort := v]> ∅.

Definition example_error_body : string :=
  resp_body (writeError (ESdk {| kind := ErrWrongRequest; message := "wrong request: boom" |})).

Lemma tmplCmd_no_port_witness :
  Getenv ∅ WorkerServerPort = "" ∧
  @tmplCmd unit (replying (Err "unused")) ∅ ["a"; "b"] tt =
    (Err (WorkerServerPort ++ " not found, are you running inside a CDS worker job?" ++ nl), [], tt).
Proof. split; [reflexivity|]. apply tmplCmd_no_port. reflexivity. Defined.

Lemma tmplCmd_bad_port_witness :
  Getenv (port_env "80a") WorkerServerPort ≠ "" ∧ atoi_ref (Getenv (port_env "80a") WorkerServerPort) = None ∧
  @tmplCmd unit (replying (Err "unused")) (port_env "80a") ["a"; "b"] tt =
    (Err ("cannot parse '" ++ Getenv (port_env "80a") WorkerServerPort ++ "' as a port number"), [], tt).
Proof.
  split; [vm_compute; discriminate|]. split; [vm_compute; reflexivity|].
  apply tmplCmd_bad_port; [vm_compute; discriminate|vm_compute; reflexivity].
Defined.

Lemma tmplCmd_wrong_usage_witness :
  atoi_ref (Getenv (port_env "8090") WorkerServerPort) = Some 8090%Z ∧ length ["a"] ≠ 2%nat ∧
  @tmplCmd unit (replying (Err "unused")) (port_env "8090") ["a"] tt =
    (Err "Wrong usage: Example : worker tmpl filea fileb", [], tt).
Proof.
  split; [vm_compute; reflexivity|]. split; [simpl; lia|].
  apply (tmplCmd_wrong_usage _ _ _ 8090%Z); [vm_compute; reflexivity|simpl; lia].
Defined.

Lemma tmplCmd_negative_port_witness :
  atoi_ref (Getenv (port_env "-1") WorkerServerPort) = Some (-1)%Z ∧ (-1 < 0)%Z ∧
  @tmplCmd unit (replying (Err "unused")) (port_env "-1") ["a"; "b"] tt =
    (Err ("cannot post worker tmpl (Request): parse http://127.0.0.1:" ++ FormatInt (-1)
          ++ "/tmpl: invalid port " ++ String dq (":" ++ FormatInt (-1) ++ String dq " after host")
          ++ nl), [], tt).
Proof.
  split; [vm_compute; reflexivity|]. split; [lia|].
  apply tmplCmd_negative_port; [vm_compute; reflexivity|lia].
Defined.

Lemma tmplCmd_success_witness :
  let resp := {| StatusCode := 200; resp_read := Ok "" |} in
  atoi_ref (Getenv (port_env "8090") WorkerServerPort) = Some 8090%Z ∧ (0 ≤ 8090)%Z ∧
  @client_Do unit (replying (Ok resp)) timeout_5min (tmpl_request 8090 "a" "b") tt = (Ok resp, tt) ∧
  (StatusCode resp < 300)%Z ∧
  @tmplCmd unit (replying (Ok resp)) (port_env "8090") ["a"; "b"] tt =
    (Ok tt, [tmpl_request 8090 "a" "b"], tt).
Proof.
  cbv zeta. split; [vm_compute; reflexivity|]. split; [lia|]. split; [reflexivity|].
  split; [simpl; lia|].
  apply (tmplCmd_success (port_env "8090") "a" "b" tt 8090%Z {| StatusCode := 200; resp_read := Ok "" |});
    [vm_compute; reflexivity|lia|reflexivity|simpl; lia].
Defined.

Lemma tmplCmd_error_response_witness :
  let resp := {| StatusCode := 400; resp_read := Ok example_error_body |} in
  let e := {| kind := ErrWrongRequest; message := "wrong request: boom" |} in
  atoi_ref (Getenv (port_env "8090") WorkerServerPort) = Some 8090%Z ∧ (0 ≤ 8090)%Z ∧
  @client_Do unit (replying (Ok resp)) timeout_5min (tmpl_request 8090 "a" "b") tt = (Ok resp, tt) ∧
  (300 ≤ StatusCode resp)%Z ∧ resp_read resp = Ok example_error_body ∧
  DecodeError example_error_body = Some e ∧
  @tmplCmd unit (replying (Ok resp)) (port_env "8090") ["a"; "b"] tt =
    (Err ("tmpl failed: " ++ message e ++ nl), [tmpl_request 8090 "a" "b"], tt).
Proof.
  cbv zeta. split; [vm_compute; reflexivity|]. split; [lia|]. split; [reflexivity|].
  split; [simpl; lia|]. split; [reflexivity|]. split; [vm_compute; reflexivity|].
  apply (tmplCmd_error_response (port_env "8090") "a" "b" tt 8090%Z
           {| StatusCode := 400; resp_read := Ok example_error_body |} tt example_error_body);
    [vm_compute; reflexivity|lia|reflexivity|simpl; lia|reflexivity|].
  vm_compute. reflexivity.
Defined.

Lemma tmplCmd_undecodable_body_witness :
  let resp := {| StatusCode := 502; resp_read := Ok "Bad Gateway" |} in
  atoi_ref (Getenv (port_env "8090") WorkerServerPort) = Some 8090%Z ∧ (0 ≤ 8090)%Z ∧
  @client_Do unit (replying (Ok resp)) timeout_5min (tmpl_request 8090 "a" "b") tt = (Ok resp, tt) ∧
  (300 ≤ StatusCode resp)%Z ∧ resp_read resp = Ok "Bad Gateway" ∧ DecodeError "Bad Gateway" = None ∧
  @tmplCmd unit (replying (Ok resp)) (port_env "8090") ["a"; "b"] tt =
    (Err ("tmpl failed: <nil>" ++ nl), [tmpl_request 8090 "a" "b"], tt).
Proof.
  cbv zeta. split; [vm_compute; reflexivity|]. split; [lia|]. split; [reflexivity|].
  split; [simpl; lia|]. split; [reflexivity|]. split; [vm_compute; reflexivity|].
  apply (tmplCmd_undecodable_body (port_env "8090") "a" "b" tt 8090%Z
           {| StatusCode := 502; resp_read := Ok "Bad Gateway" |} tt "Bad Gateway");
    [vm_compute; reflexivity|lia|reflexivity|simpl; lia|reflexivity|].
  vm_compute. reflexivity.
Defined.

End Client.
