(* ===== verification/System.v ===== *)
(** * The whole exchange: [worker tmpl] against the daemon, over loopback

    The client ([Client.tmplCmd]) and the handler ([Handler.tmplHandler])
    meet through the HTTP transport.  [loopback] is the [Transport] of a
    daemon that listens on [port] for the current job [job]: a request
    whose authority names that port reaches the daemon's router, which
    sends [POST /tmpl] to [tmplHandler] with the request's body and
    answers anything else with the router's 404; the handler's response
    travels back unchanged.  The router and the dialer are outside
    [src/] and are modelled from the specification.  In [run_tmpl] the
    handler runs to completion within the client's timeout; [Sessions]
    lets the timeout expire first. *)
From S2P Require Import Prelude Utf8 JsonString Json Wire FileSystem SdkError VarMap Interpolate Handler Strconv Client.

Module System.
Import JsonString Json Wire FileSystem SdkError VarMap Interpolate Handler Strconv Client.
Local Open Scope string_scope.

(** The port of an authority [host:port], as the dialer reads it. *)
Definition dial_port (host : string) : option string :=
  match last_colon host with Some (String _ ps) => Some ps | _ => None end.

Definition url_string (u : URL) : string := Scheme u ++ "://" ++ Host u ++ UPath u.

(** The error of [client.Do] when the exchange fails: [Post <url>: <err>]. *)
Definition post_error (req : http_request) (e : string) : string :=
  "Post " ++ url_string (req_url req) ++ ": " ++ e.

(** The response as the client sees it: its status and its whole body. *)
Definition http_of (r : response) : http_response :=
  {| StatusCode := status r; resp_read := Ok (resp_body r) |}.

Section Loopback.
Context `{Interpolator}.
Variables (port : Z) (job : currentJob).

(** The router's answer to any other route. *)
Definition not_found : response := {| status := 404; resp_body := "404 page not found" ++ nl |}.

(** The route of [tmplHandler]. *)
Definition tmpl_route (req : http_request) : bool :=
  bool_decide (req_method req = "POST" ∧ UPath (req_url req) = "/tmpl").

(** The daemon's router: [POST /tmpl] goes to [tmplHandler]. *)
Definition route (req : http_request) : M response :=
  if tmpl_route req
  then tmplHandler job (Ok (req_body req))
  else mret not_found.

(** [net.Dial] of the URL's authority on the worker's host: the port
    must parse and be at most 65535, and only the daemon listens, on
    [port]. *)
Definition dial (req : http_request) : result string unit :=
  match dial_port (Host (req_url req)) with
  | None => Err ("dial tcp " ++ Host (req_url req) ++ ": missing port in address")
  | Some ps =>
      match Atoi ps with
      | Ok p =>
          if (65535 <? p)%Z then Err ("dial tcp: address " ++ Host (req_url req) ++ ": invalid port")
          else if bool_decide (p = port) then Ok tt
          else Err ("dial tcp " ++ Host (req_url req) ++ ": connect: connection refused")
      | Err _ => Err ("dial tcp: address " ++ Host (req_url req) ++ ": invalid port")
      end
  end.

(** [client.Do] on the worker's host: dial the port of the URL, then the
    daemon's router answers. *)
Definition loopback_Do (timeout : Z) (req : http_request) (w : world)
    : result string http_response * world :=
  match dial req with
  | Err e => (Err (post_error req e), w)
  | Ok _ => let '(resp, w') := route req w in (Ok (http_of resp), w')
  end.

Definition loopback : Transport world := {| client_Do := loopback_Do |}.

(** The daemon's state changes only when the request reaches the handler. *)
Lemma loopback_Do_state t req w :
  (loopback_Do t req w).2 = w ∨ (loopback_Do t req w).2 = (tmplHandler job (Ok (req_body req)) w).2.
Proof.
  unfold loopback_Do, route, tmpl_route. destruct (dial req); [|by left].
  case_bool_decide; [|by left]. right. by destruct (tmplHandler job _ w).
Qed.

(** One run of [worker tmpl] on the worker's host. *)
Definition run_tmpl (env : gmap string string) (args : list string) (w : world)
    : result string unit * list http_request * world :=
  @tmplCmd world loopback env args w.

Lemma dial_port_loopback : (0 ≤ port)%Z → dial_port (loopback_host port) = Some (FormatInt port).
Proof.
  intros Hn. destruct (FormatInt_shape port) as (ds & Hd & _ & Hf).
  rewrite (proj2 (Z.ltb_ge _ _)) in Hf by done. unfold dial_port, loopback_host. rewrite Hf.
  rewrite last_colon_app, last_colon_none by (by apply all_digits_has_char). done.
Qed.

(** The client's request reaches [tmplHandler] with the marshalled paths. *)
Lemma loopback_tmpl src dst w :
  (0 ≤ port ≤ 65535)%Z →
  loopback_Do timeout_5min (tmpl_request port src dst) w =
    let '(resp, w') := tmplHandler job (Ok (marshal_tmplPath {| Path := src; Destination := dst |})) w in
    (Ok {| StatusCode := status resp; resp_read := Ok (resp_body resp) |}, w').
Proof.
  intros Hp. unfold loopback_Do, dial. cbn [tmpl_request req_url Host].
  rewrite dial_port_loopback by lia. rewrite Atoi_Ok with (n := port).
  2:{ apply atoi_ref_FormatInt. unfold in_int64. apply andb_true_iff.
      split; [apply Z.leb_le|apply Z.ltb_lt]; norm_pow2; lia. }
  rewrite (proj2 (Z.ltb_ge _ _)) by lia. rewrite bool_decide_eq_true_2 by done.
  unfold route, tmpl_route. by rewrite bool_decide_eq_true_2 by done.
Qed.

(** A run that sends its request gets the handler's answer back. *)
Lemma run_tmpl_sends env src dst w :
  atoi_ref (Getenv env WorkerServerPort) = Some port → (0 ≤ port ≤ 65535)%Z →
  run_tmpl env [src; dst] w =
    let '(resp, w') := tmplHandler job (Ok (marshal_tmplPath {| Path := src; Destination := dst |})) w in
    (if (300 <=? status resp)%Z
     then Err ("tmpl failed: " ++ show_error (DecodeError (resp_body resp)) ++ nl)
     else Ok tt, [tmpl_request port src dst], w').
Proof.
  intros He Hp. unfold run_tmpl. rewrite (tmplCmd_sends _ _ _ _ _ He) by lia.
  cbn [client_Do loopback]. rewrite loopback_tmpl by done.
  destruct (tmplHandler job _ w) as [resp w'] eqn:E. simpl. by destruct (300 <=? status resp)%Z.
Qed.
End Loopback.

(** The request the handler decodes from the client's body. *)
Definition received (src dst : string) : tmplPath :=
  {| Path := ToValidUTF8 src; Destination := ToValidUTF8 dst |}.

Section EndToEnd.
Context `{Interpolator}.
Variables (port : Z) (job : currentJob) (env : gmap string string).
Hypothesis Henv : atoi_ref (Getenv env WorkerServerPort) = Some port.
Hypothesis Hport : (0 ≤ port ≤ 65535)%Z.

Lemma decode_request src dst :
  unmarshal_tmplPath (marshal_tmplPath {| Path := src; Destination := dst |}) = Ok (received src dst).
Proof. apply unmarshal_marshal_tmplPath. Qed.

(** C1: [worker tmpl src dst] against the daemon: when the source can be
    read, interpolated with the job's variables and written, the client
    returns normally after one request, the daemon read the source and
    then wrote the destination, and the destination holds the
    interpolated text. *)
Theorem tmpl_end_to_end src dst w t res :
  ReadFile (w_fs w) (ToValidUTF8 src) = Ok t →
  interpolate_Do t (tmpvars job) = Ok res →
  (WriteFile (w_fs w) (ToValidUTF8 dst) res perm_0644).1 = Ok tt →
  run_tmpl port job env [src; dst] w =
    (Ok tt, [tmpl_request port src dst],
     {| w_fs := (WriteFile (w_fs w) (ToValidUTF8 dst) res perm_0644).2;
        w_trace := w_trace w ++ [EvReadFile (ToValidUTF8 src); EvWriteFile (ToValidUTF8 dst)] |}) ∧
  ∃ mode, nodes (WriteFile (w_fs w) (ToValidUTF8 dst) res perm_0644).2 !! ToValidUTF8 dst
          = Some (File res mode).
Proof.
  intros Hr Hi Hw. split; [|by apply WriteFile_Ok].
  rewrite run_tmpl_sends by done.
  by rewrite (tmplHandler_success job _ (received src dst) t res w (decode_request src dst)).
Qed.

(** C3: a source the daemon cannot read ends the client with the
    wrong-request message carrying the file error; the file system is
    unchanged, so the destination is neither created nor modified. *)
Theorem tmpl_end_to_end_read_error src dst w e :
  ReadFile (w_fs w) (ToValidUTF8 src) = Err e →
  run_tmpl port job env [src; dst] w =
    (Err ("tmpl failed: " ++ ToValidUTF8 (message (NewError ErrWrongRequest (EPath e))) ++ nl),
     [tmpl_request port src dst],
     {| w_fs := w_fs w; w_trace := w_trace w ++ [EvReadFile (ToValidUTF8 src)] |}).
Proof.
  intros Hr. rewrite run_tmpl_sends by done.
  rewrite (tmplHandler_read_error job _ (received src dst) e w (decode_request src dst) Hr).
  by rewrite DecodeError_writeError.
Qed.

(** C11: a template the engine rejects ends the client with the
    wrong-request message carrying the engine's error; the daemon
    logged it and wrote nothing. *)
Theorem tmpl_end_to_end_interpolate_error src dst w t e :
  ReadFile (w_fs w) (ToValidUTF8 src) = Ok t →
  interpolate_Do t (tmpvars job) = Err e →
  run_tmpl port job env [src; dst] w =
    (Err ("tmpl failed: " ++ ToValidUTF8 (message (NewError ErrWrongRequest (EInterp e))) ++ nl),
     [tmpl_request port src dst],
     {| w_fs := w_fs w;
        w_trace := w_trace w ++ [EvReadFile (ToValidUTF8 src); EvLog ("Unable to interpolate: " ++ e)] |}).
Proof.
  intros Hr Hi. rewrite run_tmpl_sends by done.
  rewrite (tmplHandler_interpolate_error job _ (received src dst) t e w (decode_request src dst) Hr Hi).
  by rewrite DecodeError_writeError.
Qed.

(** C10: a destination the daemon cannot write ends the client with
    [tmpl failed: internal server error]: the file error itself never
    reaches the operator. *)
Theorem tmpl_end_to_end_write_error src dst w t res e :
  ReadFile (w_fs w) (ToValidUTF8 src) = Ok t →
  interpolate_Do t (tmpvars job) = Ok res →
  (WriteFile (w_fs w) (ToValidUTF8 dst) res perm_0644).1 = Err e →
  run_tmpl port job env [src; dst] w =
    (Err ("tmpl failed: internal server error" ++ nl), [tmpl_request port src dst],
     {| w_fs := (WriteFile (w_fs w) (ToValidUTF8 dst) res perm_0644).2;
        w_trace := w_trace w ++ [EvReadFile (ToValidUTF8 src); EvWriteFile (ToValidUTF8 dst)] |}).
Proof.
  intros Hr Hi Hw. rewrite run_tmpl_sends by done.
  destruct (tmplHandler_write_error job _ (received src dst) t res e w (decode_request src dst) Hr Hi Hw)
    as [-> _].
  by rewrite DecodeError_writeError.
Qed.

(** C5: running the same command twice, with the source not being the
    destination and a umask that leaves the owner's write bit ([0o200])
    of the file the first run may create, writes the same bytes: the
    second run also succeeds and leaves the file system as the first
    left it.  Without that umask bit the created file is read-only for
    its owner and the second run fails to open it. *)
Theorem tmpl_end_to_end_idempotent src dst w w1 reqs :
  ToValidUTF8 src ≠ ToValidUTF8 dst → Z.testbit (umask (w_fs w)) 7 = false →
  run_tmpl port job env [src; dst] w = (Ok tt, reqs, w1) →
  ∃ w2, run_tmpl port job env [src; dst] w1 = (Ok tt, reqs, w2) ∧ w_fs w2 = w_fs w1.
Proof.
  intros Hne Hu. rewrite !run_tmpl_sends by done.
  set (data := marshal_tmplPath {| Path := src; Destination := dst |}).
  destruct (tmplHandler job (Ok data) w) as [resp w1'] eqn:E.
  destruct (300 <=? status resp)%Z eqn:Hs; intros [= <- <-].
  apply Z.leb_gt in Hs. pose proof (tmplHandler_status_ok job (Ok data) w) as Hok. rewrite E in Hok.
  cbn in Hok. specialize (Hok Hs). subst resp.
  destruct (tmplHandler_idempotent job data w w1' Hu) as (w2 & E2 & Hfs); [|done|].
  - intros a. unfold data. rewrite decode_request. by intros [= <-].
  - exists w2. by rewrite E2.
Qed.

(** C4: the only file a run can change is the destination named by its
    second argument: the client never touches the file system, and the
    daemon writes nothing else. *)
Theorem tmpl_end_to_end_frame args w q :
  nodes (w_fs (run_tmpl port job env args w).2) !! q ≠ nodes (w_fs w) !! q →
  ∃ src dst, args = [src; dst] ∧ q = ToValidUTF8 dst.
Proof.
  unfold run_tmpl. pose proof (tmplCmd_single_request (H := loopback port job) env args w) as Hs.
  destruct (tmplCmd env args w) as [[o reqs] w'].
  destruct Hs as [[_ ->]|(p & src & dst & r & -> & _ & _ & _ & Hd)]; [done|].
  cbn [snd]. intros Hne. exists src, dst. split; [done|].
  change (loopback_Do port job timeout_5min (tmpl_request p src dst) w = (r, w')) in Hd.
  destruct (loopback_Do_state port job timeout_5min (tmpl_request p src dst) w) as [Hw|Hw];
    rewrite Hd in Hw; cbn [snd] in Hw; subst w'; [done|].
  destruct (tmplHandler_frame job _ w q Hne) as (data & a & [= <-] & Ha & ->).
  cbn [req_body tmpl_request] in Ha. rewrite decode_request in Ha. by injection Ha as <-.
Qed.
(** C22: whatever the engine, a source without braces reaches the
    destination byte for byte. *)
Theorem tmpl_end_to_end_copy src dst w t :
  ReadFile (w_fs w) (ToValidUTF8 src) = Ok t → brace_free t = true →
  (WriteFile (w_fs w) (ToValidUTF8 dst) t perm_0644).1 = Ok tt →
  (run_tmpl port job env [src; dst] w).1.1 = Ok tt ∧
  ∃ mode, nodes (w_fs (run_tmpl port job env [src; dst] w).2) !! ToValidUTF8 dst = Some (File t mode).
Proof.
  intros Hr Hb Hw. rewrite run_tmpl_sends by done.
  rewrite (tmplHandler_success job _ (received src dst) t t w (decode_request src dst) Hr
             (Do_brace_free t _ Hb) Hw).
  split; [done|]. by apply WriteFile_Ok.
Qed.

(** C23: whatever the engine, a source that is one reference [{{.k}}]
    is replaced by the value the job gives [k]: the last parameter named
    [k], else the last build variable named [k]. *)
Theorem tmpl_end_to_end_reference src dst w k v :
  ReadFile (w_fs w) (ToValidUTF8 src) = Ok (reference k) → valid_name k = true →
  VarMap.resolve job k = Some v →
  (WriteFile (w_fs w) (ToValidUTF8 dst) v perm_0644).1 = Ok tt →
  (run_tmpl port job env [src; dst] w).1.1 = Ok tt ∧
  ∃ mode, nodes (w_fs (run_tmpl port job env [src; dst] w).2) !! ToValidUTF8 dst = Some (File v mode).
Proof.
  intros Hr Hk Hv Hw. assert (tmpvars job !! k = Some v) as Hl.
  { rewrite tmpvars_insert_all, !lookup_insert_all, lookup_empty, <- Hv. unfold VarMap.resolve.
    by destruct (last_binding k (param_pairs (params job))), (last_binding k (var_pairs (buildVariables job))). }
  rewrite run_tmpl_sends by done.
  rewrite (tmplHandler_success job _ (received src dst) (reference k) v w (decode_request src dst) Hr
             (Do_reference k v _ Hk Hl) Hw).
  split; [done|]. by apply WriteFile_Ok.
Qed.
End EndToEnd.

(** When the destination is the source, a second identical run does
    not write the same bytes: the first run replaced the template by its
    expansion, which the second run expands again. *)
Example tmpl_same_path_rewrites :
  let job := {| buildVariables := [];
                params := [{| p_Name := "a"; p_Value := "{{.b}}" |};
                           {| p_Name := "b"; p_Value := "B" |}] |} in
  let w0 := {| w_fs := {| nodes := <["/w/f" := File "{{.a}}" 420]> (<["/w" := Dir]> ∅);
                          umask := 18; free := 4096 |}; w_trace := [] |} in
  let r1 := run_tmpl (H := spec_engine) 8090 job (port_env "8090") ["/w/f"; "/w/f"] w0 in
  let r2 := run_tmpl (H := spec_engine) 8090 job (port_env "8090") ["/w/f"; "/w/f"] r1.2 in
  r1.1.1 = Ok tt ∧ r2.1.1 = Ok tt ∧
  nodes (w_fs r1.2) !! "/w/f" = Some (File "{{.b}}" 420) ∧
  nodes (w_fs r2.2) !! "/w/f" = Some (File "B" 420).
Proof. vm_compute. split_and!; reflexivity. Qed.

(** ** The claims at concrete runs: the example of [cmdTmpl]'s help *)

Definition example_env : gmap string string := port_env "8090".
Definition example_res : string := "this a a line in the file, with a CDS variable 2".

(** The run of the help of [cmdTmpl]: the output file gets the line with
    [{{.cds.version}}] replaced by the parameter's value [2]. *)
Lemma tmpl_doc_example :
  let w := example_world 4096 in
  (atoi_ref (Getenv example_env WorkerServerPort) = Some 8090%Z ∧ (0 ≤ 8090 ≤ 65535)%Z ∧
   ReadFile (w_fs w) (ToValidUTF8 "/w/myFile") = Ok example_source ∧
   interpolate_Do example_source (tmpvars example_job) = Ok example_res ∧
   (WriteFile (w_fs w) (ToValidUTF8 "/w/outputFile") example_res perm_0644).1 = Ok tt) ∧
  (run_tmpl 8090 example_job example_env ["/w/myFile"; "/w/outputFile"] w =
     (Ok tt, [tmpl_request 8090 "/w/myFile" "/w/outputFile"],
      {| w_fs := (WriteFile (w_fs w) (ToValidUTF8 "/w/outputFile") example_res perm_0644).2;
         w_trace := w_trace w ++ [EvReadFile (ToValidUTF8 "/w/myFile");
                                  EvWriteFile (ToValidUTF8 "/w/outputFile")] |}) ∧
   ∃ mode, nodes (WriteFile (w_fs w) (ToValidUTF8 "/w/outputFile") example_res perm_0644).2
             !! ToValidUTF8 "/w/outputFile" = Some (File example_res mode)).
Proof.
  cbv zeta. split; [split_and!; (vm_compute; reflexivity) || lia|].
  apply (tmpl_end_to_end 8090%Z example_job example_env) with (t := example_source);
    (vm_compute; reflexivity) || lia.
Defined.

Lemma tmpl_end_to_end_read_error_witness :
  let w := example_world 4096 in
  let e := {| pe_Op := "open"; pe_Path := "/w/missing"; pe_Err := ENOENT |} in
  (atoi_ref (Getenv example_env WorkerServerPort) = Some 8090%Z ∧ (0 ≤ 8090 ≤ 65535)%Z ∧
   ReadFile (w_fs w) (ToValidUTF8 "/w/missing") = Err e) ∧
  run_tmpl 8090 example_job example_env ["/w/missing"; "/w/out"] w =
    (Err ("tmpl failed: " ++ ToValidUTF8 (message (NewError ErrWrongRequest (EPath e))) ++ nl),
     [tmpl_request 8090 "/w/missing" "/w/out"],
     {| w_fs := w_fs w; w_trace := w_trace w ++ [EvReadFile (ToValidUTF8 "/w/missing")] |}).
Proof.
  cbv zeta. split; [split_and!; (vm_compute; reflexivity) || lia|].
  apply (tmpl_end_to_end_read_error 8090%Z example_job example_env); (vm_compute; reflexivity) || lia.
Defined.

Lemma tmpl_end_to_end_interpolate_error_witness :
  let w := {| w_fs := {| nodes := <["/w/bad" := File "x {{.cds.version" 420]> (<["/w" := Dir]> ∅);
                         umask := 18; free := 4096 |}; w_trace := [] |} in
  (atoi_ref (Getenv example_env WorkerServerPort) = Some 8090%Z ∧ (0 ≤ 8090 ≤ 65535)%Z ∧
   ReadFile (w_fs w) (ToValidUTF8 "/w/bad") = Ok "x {{.cds.version" ∧
   interpolate_Do "x {{.cds.version" (tmpvars example_job) = Err "unterminated reference") ∧
  run_tmpl 8090 example_job example_env ["/w/bad"; "/w/out"] w =
    (Err ("tmpl failed: " ++ ToValidUTF8 (message (NewError ErrWrongRequest (EInterp "unterminated reference"))) ++ nl),
     [tmpl_request 8090 "/w/bad" "/w/out"],
     {| w_fs := w_fs w;
        w_trace := w_trace w ++ [EvReadFile (ToValidUTF8 "/w/bad");
                                 EvLog ("Unable to interpolate: " ++ "unterminated reference")] |}).
Proof.
  cbv zeta. split; [split_and!; (vm_compute; reflexivity) || lia|].
  apply (tmpl_end_to_end_interpolate_error 8090%Z example_job example_env) with (t := "x {{.cds.version");
    (vm_compute; reflexivity) || lia.
Defined.

Lemma tmpl_end_to_end_write_error_witness :
  let w := example_world 4096 in
  let e := {| pe_Op := "open"; pe_Path := "/nodir/out"; pe_Err := ENOENT |} in
  (atoi_ref (Getenv example_env WorkerServerPort) = Some 8090%Z ∧ (0 ≤ 8090 ≤ 65535)%Z ∧
   ReadFile (w_fs w) (ToValidUTF8 "/w/myFile") = Ok example_source ∧
   interpolate_Do example_source (tmpvars example_job) = Ok example_res ∧
   (WriteFile (w_fs w) (ToValidUTF8 "/nodir/out") example_res perm_0644).1 = Err e) ∧
  run_tmpl 8090 example_job example_env ["/w/myFile"; "/nodir/out"] w =
    (Err ("tmpl failed: internal server error" ++ nl), [tmpl_request 8090 "/w/myFile" "/nodir/out"],
     {| w_fs := (WriteFile (w_fs w) (ToValidUTF8 "/nodir/out") example_res perm_0644).2;
        w_trace := w_trace w ++ [EvReadFile (ToValidUTF8 "/w/myFile"); EvWriteFile (ToValidUTF8 "/nodir/out")] |}).
Proof.
  cbv zeta. split; [split_and!; (vm_compute; reflexivity) || lia|].
  apply (tmpl_end_to_end_write_error 8090%Z example_job example_env) with (t := example_source) (e := {| pe_Op := "open"; pe_Path := "/nodir/out"; pe_Err := ENOENT |});
    (vm_compute; reflexivity) || lia.
Defined.

Lemma tmpl_end_to_end_idempotent_witness :
  let w := example_world 4096 in
  let args := ["/w/myFile"; "/w/outputFile"] in
  let w1 := (run_tmpl 8090 example_job example_env args w).2 in
  (atoi_ref (Getenv example_env WorkerServerPort) = Some 8090%Z ∧ (0 ≤ 8090 ≤ 65535)%Z ∧
   ToValidUTF8 "/w/myFile" ≠ ToValidUTF8 "/w/outputFile" ∧ Z.testbit (umask (w_fs w)) 7 = false ∧
   run_tmpl 8090 example_job example_env args w =
     (Ok tt, [tmpl_request 8090 "/w/myFile" "/w/outputFile"], w1)) ∧
  ∃ w2, run_tmpl 8090 example_job example_env args w1 =
          (Ok tt, [tmpl_request 8090 "/w/myFile" "/w/outputFile"], w2) ∧ w_fs w2 = w_fs w1.
Proof.
  cbv zeta. split; [split_and!; (vm_compute; reflexivity) || lia || (vm_compute; discriminate)|].
  apply (tmpl_end_to_end_idempotent 8090%Z example_job example_env) with (w := example_world 4096);
    (vm_compute; reflexivity) || lia || (vm_compute; discriminate).
Defined.

(** The umask hypothesis of [tmpl_end_to_end_idempotent] is needed: with
    a umask of [0o222] the destination the first run creates has mode
    [0o444], and the second run fails to open it for writing. *)
Example tmpl_read_only_rerun :
  let w := {| w_fs := {| nodes := nodes (example_fs 4096); umask := 146; free := 4096 |};
              w_trace := [] |} in
  let args := ["/w/myFile"; "/w/outputFile"] in
  let r1 := run_tmpl 8090 example_job example_env args w in
  r1.1.1 = Ok tt ∧
  nodes (w_fs r1.2) !! "/w/outputFile" = Some (File example_res 292) ∧
  (run_tmpl 8090 example_job example_env args r1.2).1.1 ≠ Ok tt.
Proof. vm_compute. split_and!; [reflexivity|reflexivity|discriminate]. Qed.

Lemma tmpl_end_to_end_frame_witness :
  let w := example_world 4096 in
  let args := ["/w/myFile"; "/w/outputFile"] in
  nodes (w_fs (run_tmpl 8090 example_job example_env args w).2) !! "/w/outputFile" ≠
    nodes (w_fs w) !! "/w/outputFile" ∧
  ∃ src dst, args = [src; dst] ∧ "/w/outputFile" = ToValidUTF8 dst.
Proof.
  cbv zeta. split; [vm_compute; discriminate|].
  apply (tmpl_end_to_end_frame 8090%Z example_job example_env _ (example_world 4096)).
  vm_compute. discriminate.
Defined.

Lemma tmpl_end_to_end_copy_witness :
  let w := {| w_fs := {| nodes := <["/w/plain" := File "hello world" 420]> (<["/w" := Dir]> ∅);
                         umask := 18; free := 4096 |}; w_trace := [] |} in
  (atoi_ref (Getenv example_env WorkerServerPort) = Some 8090%Z ∧ (0 ≤ 8090 ≤ 65535)%Z ∧
   ReadFile (w_fs w) (ToValidUTF8 "/w/plain") = Ok "hello world" ∧ brace_free "hello world" = true ∧
   (WriteFile (w_fs w) (ToValidUTF8 "/w/out") "hello world" perm_0644).1 = Ok tt) ∧
  ((run_tmpl 8090 example_job example_env ["/w/plain"; "/w/out"] w).1.1 = Ok tt ∧
   ∃ mode, nodes (w_fs (run_tmpl 8090 example_job example_env ["/w/plain"; "/w/out"] w).2)
             !! ToValidUTF8 "/w/out" = Some (File "hello world" mode)).
Proof.
  cbv zeta. split; [split_and!; (vm_compute; reflexivity) || lia|].
  apply (tmpl_end_to_end_copy 8090%Z example_job example_env); (vm_compute; reflexivity) || lia.
Defined.

Lemma tmpl_end_to_end_reference_witness :
  let w := {| w_fs := {| nodes := <["/w/ref" := File "{{.cds.version}}" 420]> (<["/w" := Dir]> ∅);
                         umask := 18; free := 4096 |}; w_trace := [] |} in
  (atoi_ref (Getenv example_env WorkerServerPort) = Some 8090%Z ∧ (0 ≤ 8090 ≤ 65535)%Z ∧
   ReadFile (w_fs w) (ToValidUTF8 "/w/ref") = Ok (reference "cds.version") ∧
   valid_name "cds.version" = true ∧ VarMap.resolve example_job "cds.version" = Some "2" ∧
   (WriteFile (w_fs w) (ToValidUTF8 "/w/out") "2" perm_0644).1 = Ok tt) ∧
  ((run_tmpl 8090 example_job example_env ["/w/ref"; "/w/out"] w).1.1 = Ok tt ∧
   ∃ mode, nodes (w_fs (run_tmpl 8090 example_job example_env ["/w/ref"; "/w/out"] w).2)
             !! ToValidUTF8 "/w/out" = Some (File "2" mode)).
Proof.
  cbv zeta. split; [split_and!; (vm_compute; reflexivity) || lia|].
  apply (tmpl_end_to_end_reference 8090%Z example_job example_env) with (k := "cds.version");
    (vm_compute; reflexivity) || lia.
Defined.

(** ** The help of [cmdTmpl] is right *)

(** [l] is a whole line of [s]. *)
Definition is_line (l s : string) : bool :=
  match String.index 0 (nl ++ l ++ nl) s with Some _ => true | None => false end.

Definition tab (l : string) : string := String "009"%char l.

(** The help's script: its template line, its command line (whose
    [{{.cds.workspace}}] the step script's interpolation turns into
    [/w]) and the line it promises are lines of [Long]; run by the
    command's [Run], the command line leaves that line in the output
    file. *)
Lemma cmdTmpl_help_example :
  let c := @cmdTmpl world (loopback 8090 example_job) example_env in
  let w := {| w_fs := example_fs 4096; w_trace := [] |} in
  Use c = "tmpl" ∧
  is_line (tab example_source) (Long c) = true ∧
  is_line (tab "worker tmpl {{.cds.workspace}}/myFile {{.cds.workspace}}/outputFile") (Long c) = true ∧
  is_line (tab example_res) (Long c) = true ∧
  interpolate_Do "{{.cds.workspace}}/myFile" (tmpvars example_job) = Ok "/w/myFile" ∧
  interpolate_Do "{{.cds.workspace}}/outputFile" (tmpvars example_job) = Ok "/w/outputFile" ∧
  (Run c ["/w/myFile"; "/w/outputFile"] w).1.1 = Ok tt ∧
  nodes (w_fs (Run c ["/w/myFile"; "/w/outputFile"] w).2) !! "/w/outputFile" = Some (File example_res 420).
Proof. cbv zeta. split_and!; vm_compute; reflexivity. Qed.

End System.
