(* ===== verification/Concurrency.v ===== *)
(** * Concurrent requests to [tmplHandler]

    The daemon serves each request on its own goroutine, so several runs
    of [tmplHandler] (lines 101-144 of [src/engine/worker/cmd_tmpl.go])
    can interleave on the one file system.  Here a run is a small-step
    machine whose steps are the handler's effects, in the order of the
    code: decoding the body, [ioutil.ReadFile] (with the interpolation
    that follows it), [log.Error], and [ioutil.WriteFile] split into its
    two system calls, the truncating [os.OpenFile] and [f.Write]
    ([FileSystem.write_data]); a thread is one request, and [sstep] lets
    any unfinished thread take its next step.  Each thread keeps its own
    trace.  The file read by [ReadFile] is read in one step. *)
From S2P Require Import Prelude Utf8 JsonString Json Wire FileSystem SdkError VarMap Interpolate Handler.

Module Concurrency.
Import JsonString Json Wire FileSystem SdkError VarMap Interpolate Handler.
Local Open Scope string_scope.

(** Where a request is in the pipeline of [tmplHandler]. *)
Inductive phase :=
  | Start                                        (** the body is not decoded yet *)
  | Reading (a : tmplPath)                       (** next: [ioutil.ReadFile(a.Path)] *)
  | Logging (e : string)                         (** next: [log.Error] of [interpolate.Do]'s error *)
  | Opening (a : tmplPath) (res : string)        (** next: the open of [ioutil.WriteFile] *)
  | Writing (a : tmplPath) (res : string) (mode : Z)  (** next: its [Write] *)
  | Done (r : response).

Record thread := { t_body : result string string; t_phase : phase; t_trace : list event }.

Record sys := { s_fs : fs; s_threads : list thread }.

Definition is_done (ph : phase) : bool := match ph with Done _ => true | _ => false end.

(** The number of steps a phase has left, at most. *)
Definition rank (ph : phase) : nat :=
  match ph with
  | Start => 4 | Reading _ => 3 | Opening _ _ => 2 | Logging _ => 1 | Writing _ _ _ => 1 | Done _ => 0
  end.

Definition measure (s : sys) : nat := sum_list_with (λ t, rank (t_phase t)) (s_threads s).

Definition init (f : fs) (bodies : list (result string string)) : sys :=
  {| s_fs := f; s_threads := map (λ b, {| t_body := b; t_phase := Start; t_trace := [] |}) bodies |}.

Section Machine.
Context `{Interpolator}.
Variable job : currentJob.

(** One step of one request, with the events it performs. *)
Definition tstep (t : thread) (f : fs) : option (thread * fs) :=
  let go ph evs f' := Some ({| t_body := t_body t; t_phase := ph; t_trace := t_trace t ++ evs |}, f') in
  match t_phase t with
  | Start =>
      match t_body t with
      | Err e => go (Done (writeError (ESdk (NewError ErrWrongRequest (EBody e))))) [] f
      | Ok data =>
          match unmarshal_tmplPath data with
          | Err e => go (Done (writeError (ESdk (NewError ErrWrongRequest (EJson e))))) [] f
          | Ok a => go (Reading a) [] f
          end
      end
  | Reading a =>
      match ReadFile f (Path a) with
      | Err e => go (Done (writeError (ESdk (NewError ErrWrongRequest (EPath e))))) [EvReadFile (Path a)] f
      | Ok btes =>
          match interpolate_Do btes (tmpvars job) with
          | Err e => go (Logging e) [EvReadFile (Path a)] f
          | Ok res => go (Opening a res) [EvReadFile (Path a)] f
          end
      end
  | Logging e =>
      go (Done (writeError (ESdk (NewError ErrWrongRequest (EInterp e)))))
         [EvLog ("Unable to interpolate: " ++ e)] f
  | Opening a res =>
      match open_trunc f (Destination a) perm_0644 with
      | Err e => go (Done (writeError (EPath e))) [EvWriteFile (Destination a)] f
      | Ok (f1, mode) => go (Writing a res mode) [] f1
      end
  | Writing a res mode =>
      let '(r, f2) := write_data f (Destination a) res mode in
      go (Done (write_response r)) [EvWriteFile (Destination a)] f2
  | Done _ => None
  end.

(** The daemon: any request that is not finished takes its next step. *)
Inductive sstep : sys → sys → Prop :=
  | sstep_thread s i t t' f' :
      s_threads s !! i = Some t → tstep t (s_fs s) = Some (t', f') →
      sstep s {| s_fs := f'; s_threads := <[i := t']> (s_threads s) |}.

(** A schedule, executable: the thread of each index takes a step. *)
Definition step_at (i : nat) (s : sys) : option sys :=
  match s_threads s !! i with
  | Some t => match tstep t (s_fs s) with
              | Some (t', f') => Some {| s_fs := f'; s_threads := <[i := t']> (s_threads s) |}
              | None => None
              end
  | None => None
  end.

Fixpoint run_schedule (sched : list nat) (s : sys) : sys :=
  match sched with
  | [] => s
  | i :: r => match step_at i s with Some s' => run_schedule r s' | None => run_schedule r s end
  end.

(** A schedule every entry of which is a step. *)
Fixpoint run_exact (sched : list nat) (s : sys) : option sys :=
  match sched with
  | [] => Some s
  | i :: r => step_at i s ≫= run_exact r
  end.
End Machine.

Lemma sum_list_with_insert {A} (g : A → nat) (l : list A) i x y :
  l !! i = Some x → (sum_list_with g (<[i := y]> l) + g x = sum_list_with g l + g y)%nat.
Proof.
  revert i; induction l as [|z l IH]; intros [|i]; simpl; try done.
  - intros [= ->]. lia.
  - intros Hi. specialize (IH i Hi). lia.
Qed.

Section Steps.
Context `{Interpolator}.
Variable job : currentJob.
Local Open Scope nat_scope.

Ltac tstep_cases :=
  unfold tstep; repeat (case_match || simplify_eq/=).

(** Each step of a request lowers its rank. *)
Lemma tstep_rank t f t' f' :
  tstep job t f = Some (t', f') → rank (t_phase t') < rank (t_phase t).
Proof. tstep_cases; intros; simplify_eq/=; lia. Qed.

(** A request that is not finished can always take a step. *)
Lemma tstep_progress t f : is_done (t_phase t) = false → ∃ t' f', tstep job t f = Some (t', f').
Proof. tstep_cases; intros; simplify_eq/=; eauto. Qed.

Lemma sstep_measure s s' : sstep job s s' → measure s' < measure s.
Proof.
  intros [s0 i t t' f' Hi Ht]. unfold measure. cbn.
  pose proof (sum_list_with_insert (λ t, rank (t_phase t)) _ i t t' Hi).
  pose proof (tstep_rank _ _ _ _ Ht). lia.
Qed.

Lemma run_schedule_rtc sched s : rtc (sstep job) s (run_schedule job sched s).
Proof.
  revert s; induction sched as [|i sched IH]; intros s; simpl; [done|].
  unfold step_at. destruct (s_threads s !! i) as [t|] eqn:Hi; [|apply IH].
  destruct (tstep job t (s_fs s)) as [[t' f']|] eqn:Ht; [|apply IH].
  eapply rtc_l; [by econstructor|apply IH].
Qed.

(** A state where no request can move has answered every request. *)
Lemma step_at_sstep i s s' : step_at job i s = Some s' → sstep job s s'.
Proof.
  unfold step_at. destruct (s_threads s !! i) as [t|] eqn:Hi; [|done].
  destruct (tstep job t (s_fs s)) as [[t' f']|] eqn:Ht; [|done]. intros [= <-].
  by eapply sstep_thread.
Qed.

Lemma run_exact_nsteps sched s s' :
  run_exact job sched s = Some s' → nsteps (sstep job) (length sched) s s'.
Proof.
  revert s. induction sched as [|i r IH]; intros s; cbn; [intros [= ->]; constructor|].
  destruct (step_at job i s) as [s1|] eqn:E; [|done]. intros Hr.
  eapply nsteps_l; [by apply (step_at_sstep i)|by apply IH].
Qed.

Lemma stuck_all_done s :
  (∀ s', ¬ sstep job s s') → Forall (λ t, is_done (t_phase t) = true) (s_threads s).
Proof.
  intros Hstuck. apply Forall_lookup_2. intros i t Hi.
  destruct (is_done (t_phase t)) eqn:Hd; [done|].
  destruct (tstep_progress t (s_fs s) Hd) as (t' & f' & Ht).
  exfalso. eapply Hstuck. by econstructor.
Qed.

Lemma nsteps_measure k s s' : nsteps (sstep job) k s s' → k + measure s' ≤ measure s.
Proof. induction 1 as [|k s1 s2 s3 Hs _ IH]; [lia|]. apply sstep_measure in Hs. lia. Qed.

Lemma measure_init f bodies : measure (init f bodies) = 4 * length bodies.
Proof. unfold measure, init. cbn. induction bodies; cbn in *; lia. Qed.

(** Every run of the daemon on any set of requests is finite: the
    step relation has no infinite chain. *)
Theorem sstep_terminates : well_founded (λ s' s, sstep job s s').
Proof. apply (well_founded_lt_compat _ measure). intros s' s. apply sstep_measure. Qed.

(** C24: the requests of [init f bodies] are all handled within
    [4 * length bodies] steps of the daemon, in any interleaving: each
    request takes at most four steps. *)
Theorem sstep_bound f bodies k s :
  nsteps (sstep job) k (init f bodies) s → k ≤ 4 * length bodies.
Proof. intros Hn. apply nsteps_measure in Hn. rewrite measure_init in Hn. lia. Qed.

(** From any state, the daemon reaches a state where every request
    has been answered. *)
Theorem eventually_answered s :
  ∃ s', rtc (sstep job) s s' ∧ Forall (λ t, is_done (t_phase t) = true) (s_threads s').
Proof.
  induction s as [s IH] using (well_founded_induction sstep_terminates).
  destruct (decide (Forall (λ t, is_done (t_phase t) = true) (s_threads s))) as [Hd|Hnd];
    [by exists s|].
  apply not_Forall_Exists in Hnd; [|apply _]. apply Exists_exists in Hnd as (t & Ht & Hnd).
  apply list_elem_of_lookup_1 in Ht as [i Hi].
  destruct (tstep_progress t (s_fs s)) as (t' & f' & Hs); [by apply not_true_is_false|].
  pose proof (sstep_thread job s i t t' f' Hi Hs) as Hstep.
  destruct (IH _ Hstep) as (s'' & Hr & Hd). exists s''. split; [by eapply rtc_l|done].
Qed.
End Steps.

(** ** One request alone is [tmplHandler] *)

Section Refinement.
Context `{Interpolator}.
Variable job : currentJob.

Definition tstep_rel (c c' : thread * fs) : Prop := tstep job c.1 c.2 = Some c'.

Definition start_thread (body : result string string) (w : world) : thread :=
  {| t_body := body; t_phase := Start; t_trace := w_trace w |}.

Definition done_thread (body : result string string) (r : response) (w : world) : thread :=
  {| t_body := body; t_phase := Done r; t_trace := w_trace w |}.

Ltac tstep_go := eapply rtc_l; [unfold tstep_rel, tstep, start_thread;
  cbn [fst snd t_phase t_body t_trace]; repeat
  match goal with H : _ = _ |- _ => rewrite H end; reflexivity|].

Ltac tstep_end := unfold done_thread; cbn; rewrite ?app_nil_r, <- ?app_assoc; done.

Lemma tstep_handler body w :
  rtc tstep_rel (start_thread body w, w_fs w)
      (done_thread body (tmplHandler job body w).1 (tmplHandler job body w).2,
       w_fs (tmplHandler job body w).2).
Proof.
  destruct (tmplHandler_cases job body w)
    as [(e & -> & ->)|[(d & e & -> & Hd & ->)|[(d & a & e & -> & Hd & Hr & ->)|
        [(d & a & src & e & -> & Hd & Hr & Hi & ->)|(d & a & src & res & -> & Hd & Hr & Hi & ->)]]]];
    cbn [fst snd].
  - eapply rtc_l; [reflexivity|]. tstep_end.
  - tstep_go. tstep_end.
  - tstep_go. tstep_go. tstep_end.
  - tstep_go. tstep_go. tstep_go. tstep_end.
  - tstep_go. rewrite WriteFile_split.
    destruct (open_trunc (w_fs w) (Destination a) perm_0644) as [[f1 mode]|e] eqn:Eo.
    + destruct (write_data f1 (Destination a) res mode) as [r f2] eqn:Ew.
      tstep_go. tstep_go. tstep_go. tstep_end.
    + tstep_go. tstep_go. tstep_end.
Qed.

(** A run of one thread alone is a run of the daemon, whatever the
    other threads. *)
Lemma rtc_thread s k t t' f' :
  s_threads s !! k = Some t → rtc tstep_rel (t, s_fs s) (t', f') →
  rtc (sstep job) s {| s_fs := f'; s_threads := <[k := t']> (s_threads s) |}.
Proof.
  remember (t, s_fs s) as c. remember (t', f') as c'. intros Hk Hr. revert s t Hk Heqc.
  induction Hr as [c|c [t1 f1] c2 Hs _ IH]; intros s t Hk ->.
  - simplify_eq. rewrite list_insert_id by done. by destruct s.
  - eapply rtc_l; [apply (sstep_thread job s k t t1 f1); [done|exact Hs]|].
    replace (<[k:=t']> (s_threads s)) with (<[k:=t']> (<[k:=t1]> (s_threads s))) by apply list_insert_insert_eq.
    apply (IH Heqc' {| s_fs := f1; s_threads := <[k:=t1]> (s_threads s) |} t1); [|done].
    cbn. apply list_lookup_insert_eq. by eapply lookup_lt_Some.
Qed.

Lemma rtc_single t f t' f' :
  rtc tstep_rel (t, f) (t', f') →
  rtc (sstep job) {| s_fs := f; s_threads := [t] |} {| s_fs := f'; s_threads := [t'] |}.
Proof. intros Hr. by apply (rtc_thread {| s_fs := f; s_threads := [t] |} 0 t). Qed.

Lemma done_stuck s s' : Forall (λ t, is_done (t_phase t) = true) (s_threads s) → ¬ sstep job s s'.
Proof.
  intros Hd Hs. destruct Hs as [s i t t' f' Hi Ht].
  pose proof (Forall_lookup_1 _ _ _ _ Hd Hi) as Ht'. cbn beta in Ht'. unfold tstep in Ht.
  destruct (t_phase t); cbn in Ht'; congruence.
Qed.

Lemma sstep_single_det s s1 s2 :
  length (s_threads s) = 1%nat → sstep job s s1 → sstep job s s2 → s1 = s2.
Proof.
  intros Hl Hs1 Hs2. destruct Hs1 as [s i t t' f' Hi Ht].
  destruct Hs2 as [s j u u' g' Hj Hu].
  destruct (s_threads s) as [|x [|]] eqn:E; simpl in Hl; try lia.
  destruct i, j; simpl in Hi, Hj; try done. injection Hi as <-. injection Hj as <-.
  rewrite Ht in Hu. by injection Hu as -> ->.
Qed.

Lemma sstep_length s s' : sstep job s s' → length (s_threads s') = length (s_threads s).
Proof. intros [? i t t' f' Hi _]. cbn. apply length_insert. Qed.

Lemma rtc_det_nf s y z :
  length (s_threads s) = 1%nat → rtc (sstep job) s y → rtc (sstep job) s z →
  (∀ w, ¬ sstep job y w) → (∀ w, ¬ sstep job z w) → y = z.
Proof.
  intros Hl Hy. revert z. induction Hy as [x|x x1 y Hx Hy IH]; intros z Hz Hny Hnz.
  - destruct Hz as [|x x2 z Hx2 _]; [done|]. by destruct (Hny _ Hx2).
  - destruct Hz as [|x x2 z Hx2 Hz]; [by destruct (Hnz _ Hx)|].
    rewrite (sstep_single_det _ _ _ Hl Hx2 Hx) in Hz.
    apply IH; [by rewrite (sstep_length _ _ Hx)|done|done|done].
Qed.

Definition single (body : result string string) (w : world) : sys :=
  {| s_fs := w_fs w; s_threads := [start_thread body w] |}.

(** One request alone: the small-step machine of the daemon runs
    the request to the answer and the world of the big-step
    [tmplHandler], with the same events. *)
Theorem handler_refinement body w :
  rtc (sstep job) (single body w)
      {| s_fs := w_fs (tmplHandler job body w).2;
         s_threads := [done_thread body (tmplHandler job body w).1 (tmplHandler job body w).2] |}.
Proof. apply rtc_single, tstep_handler. Qed.

(** And it can reach no other end: every run of one request that
    answers it ends in the state [tmplHandler] describes. *)
Theorem handler_refinement_unique body w s :
  rtc (sstep job) (single body w) s → Forall (λ t, is_done (t_phase t) = true) (s_threads s) →
  s = {| s_fs := w_fs (tmplHandler job body w).2;
         s_threads := [done_thread body (tmplHandler job body w).1 (tmplHandler job body w).2] |}.
Proof.
  intros Hr Hd. apply (rtc_det_nf (single body w)); [reflexivity|exact Hr|apply rtc_single, tstep_handler| |].
  - intros w' Hs. exact (done_stuck _ _ Hd Hs).
  - intros w' Hs. eapply done_stuck; [|exact Hs]. by repeat constructor.
Qed.
End Refinement.

(** ** Well-formedness of the file system under interleaving *)

Definition thread_wf (t : thread) : Prop :=
  match t_phase t with Writing _ _ mode => perm_bits mode | _ => True end.

Section Invariants.
Context `{Interpolator}.
Variable job : currentJob.

Lemma tstep_wf t f t' f' :
  tstep job t f = Some (t', f') → fs_wf f → thread_wf t → fs_wf f' ∧ thread_wf t'.
Proof.
  unfold tstep, thread_wf. destruct t as [b ph tr]; cbn.
  destruct ph; repeat case_match; intros; simplify_eq/=; try done.
  - eapply (open_trunc_wf _ _ perm_0644); [unfold perm_bits, perm_0644; lia|done|done].
  - split; [|done]. match goal with E : write_data _ _ _ _ = _ |- _ =>
      pose proof (write_data_wf f (Destination a) res mode) as W; rewrite E in W end. by apply W.
Qed.

Lemma sstep_wf s s' :
  sstep job s s' → fs_wf (s_fs s) ∧ Forall thread_wf (s_threads s) →
  fs_wf (s_fs s') ∧ Forall thread_wf (s_threads s').
Proof.
  intros [s0 i t t' f' Hi Ht] [Hf Hts]. cbn.
  destruct (tstep_wf _ _ _ _ Ht Hf) as [Hf' Ht']; [by eapply Forall_lookup_1|].
  split; [done|]. by apply Forall_insert.
Qed.

(** However the requests interleave, the file system stays well
    formed (every mode and the umask within [0o777]). *)
Theorem concurrent_wf f bodies s :
  fs_wf f → rtc (sstep job) (init f bodies) s → fs_wf (s_fs s).
Proof.
  intros Hf Hr. cut (fs_wf (s_fs s) ∧ Forall thread_wf (s_threads s)); [by intros []|].
  assert (fs_wf (s_fs (init f bodies)) ∧ Forall thread_wf (s_threads (init f bodies))) as H0.
  { split; [done|]. apply Forall_forall. intros t. cbn. intros (b & -> & _)%list_elem_of_fmap. done. }
  revert H0. induction Hr as [x|x y z Hxy _ IH]; [done|]. intros Hx. by apply IH, (sstep_wf x y).
Qed.
End Invariants.

(** ** Requests with independent paths do not see each other *)

(** The request a body decodes to. *)
Definition decoded (b : result string string) : option tmplPath :=
  match b with
  | Ok d => match unmarshal_tmplPath d with Ok a => Some a | Err _ => None end
  | Err _ => None
  end.

(** No request writes the source of a request, and no two requests
    write the same destination. *)
Definition independent (bodies : list (result string string)) : Prop :=
  ∀ i j bi bj a c, bodies !! i = Some bi → bodies !! j = Some bj →
    decoded bi = Some a → decoded bj = Some c →
    Destination a ≠ Path c ∧ (i ≠ j → Destination a ≠ Destination c).

(** [independent], decided over the indices of the list. *)
Definition pair_ok (bodies : list (result string string)) (i j : nat) : bool :=
  match bodies !! i ≫= decoded, bodies !! j ≫= decoded with
  | Some a, Some c =>
      bool_decide (Destination a ≠ Path c) && (bool_decide (i = j) || bool_decide (Destination a ≠ Destination c))
  | _, _ => true
  end.

Definition independent_b (bodies : list (result string string)) : bool :=
  let ix := seq 0 (length bodies) in forallb (λ i, forallb (pair_ok bodies i) ix) ix.

Lemma independent_b_sound bodies : independent_b bodies = true → independent bodies.
Proof.
  unfold independent_b, independent. intros Hb i j bi bj a c Hi Hj Ha Hc.
  assert (pair_ok bodies i j = true) as Hp.
  { rewrite forallb_forall in Hb. apply lookup_lt_Some in Hi, Hj.
    apply (proj1 (forallb_forall _ _) (Hb i (proj2 (in_seq _ _ _) (conj (Nat.le_0_l _) Hi)))).
    apply in_seq. lia. }
  unfold pair_ok in Hp. rewrite Hi, Hj in Hp. cbn in Hp. rewrite Ha, Hc in Hp.
  apply andb_true_iff in Hp as [H1 H2]. apply bool_decide_eq_true in H1.
  split; [done|]. intros Hne.
  apply orb_true_iff in H2 as [H2|H2]; apply bool_decide_eq_true in H2; done.
Qed.

Lemma writeError_not_ok e : writeError e ≠ response_ok.
Proof. intros He. pose proof (writeError_status e) as Hs. rewrite He in Hs. cbn in Hs. lia. Qed.

Lemma write_response_ok r : write_response r = response_ok → r = Ok tt.
Proof. destruct r as [[]|e]; [done|]. intros He. by destruct (writeError_not_ok (EPath e)). Qed.

Lemma ReadFile_node f g p d :
  nodes f !! p = nodes g !! p → ReadFile f p = Ok d → ReadFile g p = Ok d.
Proof. intros Hn. unfold ReadFile. rewrite Hn. by repeat case_match. Qed.

Section Isolation.
Context `{Interpolator}.
Variable job : currentJob.
Variables (f0 : fs) (bodies : list (result string string)).
Hypothesis Hind : independent bodies.

(** What the handler, alone on the initial file system, would write for
    the request [a]. *)
Definition expected (a : tmplPath) : option string :=
  match ReadFile f0 (Path a) with
  | Ok t => ok_opt (interpolate_Do t (tmpvars job))
  | Err _ => None
  end.

(** What each phase of a request knows about its request and the file
    system. *)
Definition phase_ok (f : fs) (t : thread) : Prop :=
  match t_phase t with
  | Start | Logging _ => True
  | Reading a => decoded (t_body t) = Some a
  | Opening a res => decoded (t_body t) = Some a ∧ expected a = Some res
  | Writing a res mode =>
      decoded (t_body t) = Some a ∧ expected a = Some res ∧
      nodes f !! Destination a = Some (File "" mode)
  | Done r =>
      r = response_ok → ∃ a res mode, decoded (t_body t) = Some a ∧ expected a = Some res ∧
        nodes f !! Destination a = Some (File res mode)
  end.

Definition not_written (q : string) : Prop :=
  ∀ i b a, bodies !! i = Some b → decoded b = Some a → q ≠ Destination a.

Record iso (s : sys) : Prop := {
  iso_bodies : t_body <$> s_threads s = bodies;
  iso_frame : ∀ q, not_written q → nodes (s_fs s) !! q = nodes f0 !! q;
  iso_phase : ∀ i t, s_threads s !! i = Some t → phase_ok (s_fs s) t
}.

Lemma tstep_body t f t' f' : tstep job t f = Some (t', f') → t_body t' = t_body t.
Proof. unfold tstep. repeat case_match; intros; by simplify_eq/=. Qed.

(** A step changes the file system at most at the destination of its
    own request. *)
Lemma tstep_frame t f t' f' q :
  tstep job t f = Some (t', f') → phase_ok f t →
  (∀ a, decoded (t_body t) = Some a → q ≠ Destination a) → nodes f' !! q = nodes f !! q.
Proof.
  unfold tstep, phase_ok. destruct t as [b ph tr]; cbn.
  destruct ph; repeat case_match; intros Hs Hok Hq; simplify_eq/=; try done.
  - destruct Hok as [Hd _]. eapply open_trunc_frame; [done|]. by apply Hq.
  - destruct Hok as [Hd _]. match goal with E : write_data _ _ _ _ = _ |- _ =>
      pose proof (write_data_frame f (Destination a) res mode q) as W; rewrite E in W end.
    apply W. by apply Hq.
Qed.

(** The phase of a request depends on the file system only at its own
    destination. *)
Lemma phase_ok_frame f g t :
  phase_ok f t →
  (∀ a, decoded (t_body t) = Some a → nodes g !! Destination a = nodes f !! Destination a) →
  phase_ok g t.
Proof.
  unfold phase_ok. destruct (t_phase t); try done.
  - intros (Hd & He & Hn) Hg. by rewrite Hg.
  - intros Hok Hg Hr. destruct (Hok Hr) as (a & res & mode & Hd & He & Hn).
    exists a, res, mode. by rewrite Hg.
Qed.

(** A request's own step keeps its phase right, given that its source
    still holds what it held at the start. *)
Lemma tstep_phase_ok t f t' f' :
  tstep job t f = Some (t', f') → phase_ok f t →
  (∀ a, t_phase t = Reading a → nodes f !! Path a = nodes f0 !! Path a) →
  phase_ok f' t'.
Proof.
  unfold tstep, phase_ok. destruct t as [b ph tr]; cbn.
  destruct ph; repeat case_match; intros Hs Hok Hsrc; simplify_eq/=; try done;
    try (intros Hr; by destruct (writeError_not_ok _ Hr)).
  - unfold decoded. match goal with E : unmarshal_tmplPath _ = _ |- _ => by rewrite E end.
  - split; [done|]. unfold expected.
    match goal with E : ReadFile _ _ = Ok _ |- _ =>
      rewrite (ReadFile_node _ f0 _ _ (Hsrc _ eq_refl) E) end.
    match goal with E : interpolate_Do _ _ = Ok _ |- _ => by rewrite E end.
  - destruct Hok as [Hd He].
    match goal with E : open_trunc _ _ _ = Ok _ |- _ => apply open_trunc_Ok in E as (Hn & _) end.
    split_and!; [done|done|]. by rewrite Hn, lookup_insert_eq.
  - destruct Hok as (Hd & He & Hn). intros Hr. apply write_response_ok in Hr. subst.
    destruct (write_data_empty f (Destination a) res mode Hn) as [_ Hw].
    match goal with E : write_data _ _ _ _ = _ |- _ => rewrite E in Hw end.
    exists a, res, mode. split_and!; [done|done|]. by apply Hw.
Qed.

Lemma iso_init : iso (init f0 bodies).
Proof.
  split; cbn.
  - rewrite <- list_fmap_compose. apply list_fmap_id.
  - done.
  - intros i t (b & -> & _)%list_lookup_fmap_Some. done.
Qed.

Lemma sstep_iso s s' : sstep job s s' → iso s → iso s'.
Proof.
  intros [s0 k t t' f' Hk Ht] [Hb Hf Hp]. cbn.
  assert (bodies !! k = Some (t_body t)) as Hbk by (by rewrite <- Hb, list_lookup_fmap, Hk).
  assert (∀ q, (∀ a, decoded (t_body t) = Some a → q ≠ Destination a) →
            nodes f' !! q = nodes (s_fs s0) !! q) as Hfr.
  { intros q Hq. eapply tstep_frame; [done|by apply (Hp k)|done]. }
  split; cbn.
  - by rewrite list_fmap_insert, (tstep_body _ _ _ _ Ht), <- list_fmap_insert, list_insert_id.
  - intros q Hq. rewrite Hfr; [by apply Hf|]. intros a Ha. by apply (Hq k (t_body t)).
  - intros i u Hi. destruct (decide (i = k)) as [->|Hne].
    + rewrite list_lookup_insert_eq in Hi; [|by eapply lookup_lt_Some]. injection Hi as <-.
      eapply tstep_phase_ok; [done|by apply (Hp k)|]. intros a Ha. apply Hf.
      intros j b c Hj Hc. pose proof (Hp k t Hk) as Hpk. unfold phase_ok in Hpk. rewrite Ha in Hpk.
      by destruct (Hind j k b (t_body t) c a Hj Hbk Hc Hpk) as [? _].
    + rewrite list_lookup_insert_ne in Hi by done. apply (phase_ok_frame (s_fs s0)); [by apply (Hp i)|].
      intros a Ha. apply Hfr. intros c Hc.
      assert (bodies !! i = Some (t_body u)) as Hbi by (by rewrite <- Hb, list_lookup_fmap, Hi).
      destruct (Hind i k _ _ a c Hbi Hbk Ha Hc) as [_ Hd]. by apply Hd.
Qed.

(** C25: requests whose paths are independent (no request's
    destination is the source of any request, its own included, and no
    two requests share a destination) do not see each other, however
    they interleave: every request answered 200 has left at its
    destination exactly the text the handler, alone on the initial file
    system, computes from its source. *)
Theorem concurrent_isolation s i t :
  rtc (sstep job) (init f0 bodies) s → s_threads s !! i = Some t → t_phase t = Done response_ok →
  ∃ a res mode, bodies !! i = Some (t_body t) ∧ decoded (t_body t) = Some a ∧
    expected a = Some res ∧ nodes (s_fs s) !! Destination a = Some (File res mode).
Proof.
  intros Hr Hi Hd.
  assert (iso s) as [Hb _ Hp].
  { pose proof iso_init as H0. revert H0. induction Hr as [x|x y z Hxy _ IH]; [done|].
    intros Hx. by apply IH, (sstep_iso x y). }
  pose proof (Hp i t Hi) as Hok. unfold phase_ok in Hok. rewrite Hd in Hok.
  destruct (Hok eq_refl) as (a & res & mode & ? & ? & ?). exists a, res, mode.
  split_and!; [by rewrite <- Hb, list_lookup_fmap, Hi|done..].
Qed.
End Isolation.

(** ** Requests that share a path: what the daemon does not isolate *)

Section Races.
Context `{Interpolator}.
Variable job : currentJob.

Lemma decoded_Some b a : decoded b = Some a → ∃ d, b = Ok d ∧ unmarshal_tmplPath d = Ok a.
Proof. unfold decoded. destruct b as [d|]; [|done]. destruct (unmarshal_tmplPath d) eqn:E; [|done]. intros [= <-]. eauto. Qed.

Lemma expected_Some f a res : expected job f a = Some res → ∃ t, ReadFile f (Path a) = Ok t ∧ interpolate_Do t (tmpvars job) = Ok res.
Proof. unfold expected. destruct (ReadFile f (Path a)) as [t|]; [|done]. destruct (interpolate_Do t _) eqn:E; [|done]. intros [= <-]. eauto. Qed.


(** C27: a request whose source is the destination of another can read
    it empty.  When the second request reads between the truncating open
    and the write of the first, both are answered 200, the second writes
    the interpolation of the empty text (which is empty) to its own
    destination whatever the source held before, and the first's result
    is at its destination. *)
Theorem tmpl_race_truncated_source f bA bB a c resA f1 mode f2 m2 :
  decoded bA = Some a → decoded bB = Some c → Path c = Destination a → Destination c ≠ Destination a →
  expected job f a = Some resA →
  open_trunc f (Destination a) perm_0644 = Ok (f1, mode) → owner_can_read mode = true →
  open_trunc f1 (Destination c) perm_0644 = Ok (f2, m2) →
  (String.length resA ≤ free f2)%nat →
  let s := run_schedule job [0; 0; 0; 1; 1; 1; 1; 0]%nat (init f [bA; bB]) in
  map t_phase (s_threads s) = [Done response_ok; Done response_ok] ∧
  nodes (s_fs s) !! Destination c = Some (File "" m2) ∧
  nodes (s_fs s) !! Destination a = Some (File resA mode).
Proof.
  intros (dA & -> & HdA)%decoded_Some (dB & -> & HdB)%decoded_Some Hsrc Hne
    (tA & HrA & HiA)%expected_Some Ho Hr Ho2 Hfree.
  pose proof (ReadFile_open_trunc _ _ _ _ _ Ho Hr) as HrB.
  pose proof (Do_empty (tmpvars job)) as HiB.
  pose proof (open_trunc_Ok _ _ _ _ _ Ho) as (Hn1 & _).
  pose proof (open_trunc_Ok _ _ _ _ _ Ho2) as (Hn2 & _).
  unfold init. cbn [map].
  unfold run_schedule, step_at, tstep.
  repeat (rewrite ?Hsrc, ?HdA, ?HdB, ?HrA, ?HrB, ?HiA, ?HiB, ?Ho, ?Ho2;
    cbn -[ReadFile open_trunc write_data unmarshal_tmplPath interpolate_Do tmpvars]).
  destruct (write_data_empty f2 (Destination c) "" m2) as [[_ HB1] HB2].
  { by rewrite Hn2, lookup_insert_eq. }
  specialize (HB1 ltac:(cbn; lia)). specialize (HB2 HB1).
  pose proof (write_data_frame f2 (Destination c) "" m2 (Destination a) ltac:(done)) as HBf.
  assert (free (write_data f2 (Destination c) "" m2).2 = free f2) as HBfree.
  { unfold write_data. rewrite Hn2, lookup_insert_eq. case_decide; cbn; rewrite sapp_nil_r; cbn; lia. }
  destruct (write_data f2 (Destination c) "" m2) as [r1 f3]. cbn in HB1, HB2, HBf, HBfree |- *. subst r1.
  destruct (write_data_empty f3 (Destination a) resA mode) as [[_ HA1] HA2].
  { by rewrite HBf, Hn2, lookup_insert_ne, Hn1, lookup_insert_eq. }
  specialize (HA1 ltac:(lia)). specialize (HA2 HA1).
  pose proof (write_data_frame f3 (Destination a) resA mode (Destination c) Hne) as HAf.
  destruct (write_data f3 (Destination a) resA mode) as [r2 f4]. cbn in HA1, HA2, HAf |- *. subst r2.
  by rewrite HAf, HB2.
Qed.
End Races.

(** ** The claims at concrete runs, with the reference engine *)

Definition copy_paths : tmplPath := {| Path := "/w/myFile"; Destination := "/w/copy" |}.

(** Two requests on the example file system: [cmdTmpl]'s help example
    and a second template of the same source to another destination. *)
Definition two_bodies : list (result string string) :=
  [Ok example_request; Ok (marshal_tmplPath copy_paths)].

Definition two_init : sys := init (example_fs 4096) two_bodies.

(** The two requests, one step each in turn. *)
Definition alternate : list nat := [0; 1; 0; 1; 0; 1; 0; 1]%nat.

Definition no_thread : thread := {| t_body := Err ""; t_phase := Start; t_trace := [] |}.

Lemma sstep_bound_witness :
  nsteps (sstep example_job) 8 two_init (default two_init (run_exact example_job alternate two_init)) ∧
  (8 ≤ 4 * length two_bodies)%nat.
Proof.
  assert (nsteps (sstep example_job) 8 two_init (default two_init (run_exact example_job alternate two_init)))
    as Hn by (apply (run_exact_nsteps example_job alternate); vm_compute; reflexivity).
  split; [exact Hn|exact (sstep_bound example_job (example_fs 4096) two_bodies 8 _ Hn)].
Defined.

Lemma concurrent_isolation_witness :
  let s := run_schedule example_job alternate two_init in
  let t := default no_thread (s_threads s !! 1%nat) in
  independent two_bodies ∧ s_threads s !! 1%nat = Some t ∧ t_phase t = Done response_ok ∧
  ∃ a res mode, two_bodies !! 1%nat = Some (t_body t) ∧ decoded (t_body t) = Some a ∧
    expected example_job (example_fs 4096) a = Some res ∧
    nodes (s_fs s) !! Destination a = Some (File res mode).
Proof.
  cbv zeta. assert (independent two_bodies) as Hind by (apply independent_b_sound; vm_compute; reflexivity).
  split_and!; [exact Hind|vm_compute; reflexivity|vm_compute; reflexivity|].
  apply (concurrent_isolation example_job (example_fs 4096) two_bodies Hind); [apply run_schedule_rtc|..];
    vm_compute; reflexivity.
Defined.

Definition long_res : string := "this a a line in the file, with a CDS variable 2".







(** The destination of the first request already exists; the second
    copies it elsewhere. *)
Definition trunc_fs : fs := {|
  nodes := <["/w/outputFile" := File "previous" 420]> (nodes (example_fs 4096)); umask := 18; free := 4096 |}.

Definition trunc_paths : tmplPath := {| Path := "/w/outputFile"; Destination := "/w/copy" |}.

Definition trunc_bodies : list (result string string) :=
  [Ok example_request; Ok (marshal_tmplPath trunc_paths)].

Definition trunc_copy (sched : list nat) : option node :=
  nodes (s_fs (run_schedule example_job sched (init trunc_fs trunc_bodies))) !! "/w/copy".

Lemma tmpl_race_truncated_source_witness :
  trunc_copy [1; 1; 1; 1; 0; 0; 0; 0]%nat = Some (File "previous" 420) ∧
  trunc_copy [0; 0; 0; 0; 1; 1; 1; 1]%nat = Some (File long_res 420) ∧
  let s := run_schedule example_job [0; 0; 0; 1; 1; 1; 1; 0]%nat (init trunc_fs trunc_bodies) in
  map t_phase (s_threads s) = [Done response_ok; Done response_ok] ∧
  nodes (s_fs s) !! Destination trunc_paths = Some (File "" 420) ∧
  nodes (s_fs s) !! Destination example_paths = Some (File long_res 420).
Proof.
  split; [vm_compute; reflexivity|]. split; [vm_compute; reflexivity|].
  apply (tmpl_race_truncated_source example_job trunc_fs _ _ example_paths trunc_paths long_res
           {| nodes := <["/w/outputFile" := File "" 420]> (nodes trunc_fs); umask := 18; free := 4104 |} 420
           {| nodes := <["/w/copy" := File "" 420]> (<["/w/outputFile" := File "" 420]> (nodes trunc_fs));
              umask := 18; free := 4104 |} 420);
    vm_compute; first [reflexivity|lia|discriminate].
Defined.

End Concurrency.
