(* ===== verification/Sessions.v ===== *)
(** * Several [worker tmpl] processes against one daemon

    Steps of a job may run [worker tmpl] at the same time; each is a
    process of its own ([tmplCmd], lines 54-99) that sends one request and
    blocks in [client.Do] until the answer or its five-minute timeout,
    while the daemon serves every request on a goroutine of its own
    ([Concurrency]).  A [net] is the daemon ([Concurrency.sys]), the
    connection each handler goroutine serves, and the processes; [nstep]
    takes one step of one of them, named by its [label]:
    - [LDaemon k]: goroutine [k] performs its next effect;
    - [LSend i]: process [i] runs [tmplCmd] up to [client.Do]: it exits if
      it sends nothing, its dial fails, or the route is not [/tmpl];
      otherwise the daemon starts a goroutine on the request's body;
    - [LReply i]: the goroutine of process [i] has answered; the process
      finishes [tmplCmd] with that response;
    - [LTimeout i]: [client.Timeout] expires first; the process finishes
      with [client.Do]'s error while its goroutine goes on.
    The split of [tmplCmd] around [client.Do] is [tmplCmd_split]: the
    command is a function of the response it gets. *)
From S2P Require Import Prelude Utf8 JsonString Json Wire FileSystem SdkError VarMap Interpolate Handler Strconv Client System Concurrency.

Module Sessions.
Import JsonString Json Wire FileSystem SdkError VarMap Interpolate Handler Strconv Client System Concurrency.
Local Open Scope string_scope.

(** ** [tmplCmd] around [client.Do] *)

(** The request [tmplCmd] sends, if it sends one. *)
Definition request_of (env : gmap string string) (args : list string) : option http_request :=
  match (@tmplCmd unit (replying (Err "")) env args tt).1.2 with [req] => Some req | _ => None end.

(** How [tmplCmd] ends when [client.Do] returns [r]. *)
Definition outcome (env : gmap string string) (args : list string) (r : result string http_response)
    : result string unit :=
  (@tmplCmd unit (replying r) env args tt).1.1.

Section Split.
Context {S : Type} `{Transport S}.

Lemma tmplCmd_split env args s :
  tmplCmd env args s =
    match request_of env args with
    | None => (outcome env args (Err ""), [], s)
    | Some req => let '(r, s') := client_Do timeout_5min req s in (outcome env args r, [req], s')
    end.
Proof.
  unfold request_of, outcome.
  destruct (atoi_ref (Getenv env WorkerServerPort)) as [port|] eqn:Hp.
  2:{ unfold tmplCmd. case_bool_decide; [done|]. by destruct (Atoi_Err _ Hp) as [e ->]. }
  rewrite !(tmplCmd_port _ _ _ _ Hp).
  destruct args as [|src [|dst [|]]]; try done.
  unfold NewRequest. rewrite url_Parse_loopback.
  destruct (port <? 0)%Z eqn:Hn; [done|]. cbn [mbind result_bind mret result_ret client_Do replying fst snd].
  destruct (client_Do _ _ s) as [r s']. rewrite (tmplCmd_port _ _ _ _ Hp).
  unfold NewRequest. rewrite url_Parse_loopback, Hn. cbn [mbind result_bind mret result_ret client_Do replying].
  destruct r as [resp|e]; [|done]. cbn. destruct (300 <=? _)%Z; [|done]. by destruct (resp_read resp).
Qed.
End Split.

(** [tmplCmd] returns normally only on a response below 300. *)
Lemma outcome_ok env args r :
  outcome env args r = Ok tt → ∃ resp, r = Ok resp ∧ (StatusCode resp < 300)%Z.
Proof.
  unfold outcome. destruct (atoi_ref (Getenv env WorkerServerPort)) as [port|] eqn:Hp.
  2:{ unfold tmplCmd. case_bool_decide; [done|]. by destruct (Atoi_Err _ Hp) as [e ->]. }
  rewrite (tmplCmd_port _ _ _ _ Hp). destruct args as [|src [|dst [|]]]; try done.
  unfold NewRequest. rewrite url_Parse_loopback. destruct (port <? 0)%Z; [done|].
  cbn. destruct r as [resp|e]; [|done].
  destruct (300 <=? StatusCode resp)%Z eqn:E; [by destruct (resp_read resp)|].
  intros _. exists resp. split; [done|]. by apply Z.leb_gt.
Qed.

(** ** Processes and the daemon *)

(** Where a process is: before [client.Do], blocked in it on the
    goroutine [k] that serves its request [req], or exited. *)
Inductive pstate :=
  | PRun
  | PWait (k : nat) (req : http_request)
  | PExit (r : result string unit).

Record proc := { p_env : gmap string string; p_args : list string; p_state : pstate }.

(** The daemon, the process each goroutine serves (its connection),
    and the processes. *)
Record net := { n_sys : sys; n_conn : list nat; n_procs : list proc }.

Inductive label := LDaemon (k : nat) | LSend (i : nat) | LReply (i : nat) | LTimeout (i : nat).

(** The text of [client.Do]'s error when [client.Timeout] expires. *)
Definition timeout_error : string :=
  "context deadline exceeded (Client.Timeout exceeded while awaiting headers)".

Definition net_init (f : fs) (cmds : list (gmap string string * list string)) : net :=
  {| n_sys := {| s_fs := f; s_threads := [] |}; n_conn := [];
     n_procs := (λ c, {| p_env := c.1; p_args := c.2; p_state := PRun |}) <$> cmds |}.

Definition with_state (p : proc) (st : pstate) : proc :=
  {| p_env := p_env p; p_args := p_args p; p_state := st |}.

(** Process [i], which is [p], moves to [st]. *)
Definition set_state (i : nat) (p : proc) (st : pstate) (n : net) : net :=
  {| n_sys := n_sys n; n_conn := n_conn n; n_procs := <[i := with_state p st]> (n_procs n) |}.

(** A goroutine for a request that has just arrived. *)
Definition spawn (body : string) : thread := {| t_body := Ok body; t_phase := Start; t_trace := [] |}.

(** The daemon once the request [req] of process [i] has reached it. *)
Definition spawned (n : net) (i : nat) (req : http_request) : net :=
  {| n_sys := {| s_fs := s_fs (n_sys n); s_threads := s_threads (n_sys n) ++ [spawn (req_body req)] |};
     n_conn := n_conn n ++ [i]; n_procs := n_procs n |}.

(** The body process [p] sends, if it sends one. *)
Definition cmd_body (env : gmap string string) (args : list string) : result string string :=
  match request_of env args with Some req => Ok (req_body req) | None => Err "" end.

Definition pbody (p : proc) : result string string := cmd_body (p_env p) (p_args p).

(** Steps a process has left, at most: its send (and the four steps of
    its goroutine), then its reply. *)
Definition prank (st : pstate) : nat := match st with PRun => 6 | PWait _ _ => 1 | PExit _ => 0 end.

Definition is_exited (st : pstate) : bool := match st with PExit _ => true | _ => false end.

Definition net_measure (n : net) : nat :=
  measure (n_sys n) + sum_list_with (λ p, prank (p_state p)) (n_procs n).

(** Every process blocked in [client.Do] waits on a goroutine that exists. *)
Definition waits_ok (n : net) : Prop :=
  ∀ i p k req, n_procs n !! i = Some p → p_state p = PWait k req → k < length (s_threads (n_sys n)).

Section Net.
Context `{Interpolator}.
Variables (port : Z) (job : currentJob).

(** Process [i] runs [tmplCmd] up to [client.Do]. *)
Definition send (i : nat) (p : proc) (n : net) : net :=
  let fin r := set_state i p (PExit (outcome (p_env p) (p_args p) r)) n in
  match request_of (p_env p) (p_args p) with
  | None => fin (Err "")
  | Some req =>
      match dial port req with
      | Err e => fin (Err (post_error req e))
      | Ok _ =>
          if tmpl_route req then set_state i p (PWait (length (s_threads (n_sys n))) req) (spawned n i req)
          else fin (Ok (http_of not_found))
      end
  end.

Definition nstep (l : label) (n : net) : option net :=
  match l with
  | LDaemon k =>
      s' ← step_at job k (n_sys n); Some {| n_sys := s'; n_conn := n_conn n; n_procs := n_procs n |}
  | LSend i =>
      p ← n_procs n !! i;
      match p_state p with PRun => Some (send i p n) | _ => None end
  | LReply i =>
      p ← n_procs n !! i;
      match p_state p with
      | PWait k _ =>
          t ← s_threads (n_sys n) !! k;
          match t_phase t with
          | Done r => Some (set_state i p (PExit (outcome (p_env p) (p_args p) (Ok (http_of r)))) n)
          | _ => None
          end
      | _ => None
      end
  | LTimeout i =>
      p ← n_procs n !! i;
      match p_state p with
      | PWait _ req => Some (set_state i p (PExit (outcome (p_env p) (p_args p) (Err (post_error req timeout_error)))) n)
      | _ => None
      end
  end.

Definition net_step (n n' : net) : Prop := ∃ l, nstep l n = Some n'.

(** The steps without timeouts. *)
Definition net_step_nt (n n' : net) : Prop := ∃ l, nstep l n = Some n' ∧ ∀ i, l ≠ LTimeout i.

Fixpoint run_labels (ls : list label) (n : net) : net :=
  match ls with
  | [] => n
  | l :: r => match nstep l n with Some n' => run_labels r n' | None => run_labels r n end
  end.
End Net.

(** ** Every run is finite, and without timeouts every process exits *)

Section Progress.
Context `{Interpolator}.
Variables (port : Z) (job : currentJob).
Local Open Scope nat_scope.

Lemma measure_spawned n i req : measure (n_sys (spawned n i req)) = measure (n_sys n) + 4.
Proof. unfold measure. cbn. rewrite sum_list_with_app. cbn. lia. Qed.

Lemma set_state_measure n i p st :
  n_procs n !! i = Some p → net_measure (set_state i p st n) + prank (p_state p) = net_measure n + prank st.
Proof.
  intros Hi. unfold net_measure, set_state. cbn.
  pose proof (sum_list_with_insert (λ p, prank (p_state p)) _ i p (with_state p st) Hi). cbn in *. lia.
Qed.

Lemma send_measure i p n :
  n_procs n !! i = Some p → p_state p = PRun → net_measure (send port i p n) < net_measure n.
Proof.
  intros Hi Hs. unfold send.
  assert (∀ r, net_measure (set_state i p (PExit r) n) < net_measure n) as Hfin.
  { intros r. pose proof (set_state_measure n i p (PExit r) Hi). rewrite Hs in *. cbn in *. lia. }
  repeat case_match; try apply Hfin.
  match goal with |- context [set_state i p ?st ?n1] =>
    pose proof (set_state_measure n1 i p st Hi) as Hm end.
  unfold net_measure in *. rewrite measure_spawned in Hm. cbn [n_procs spawned] in Hm.
  rewrite Hs in Hm. cbn [prank] in Hm. lia.
Qed.

Lemma nstep_measure l n n' : nstep port job l n = Some n' → net_measure n' < net_measure n.
Proof.
  destruct l as [k|i|i|i]; cbn.
  - destruct (step_at job k (n_sys n)) as [s'|] eqn:E; [|done]. intros [= <-].
    unfold net_measure. cbn. apply step_at_sstep, sstep_measure in E. lia.
  - destruct (n_procs n !! i) as [p|] eqn:Hi; [|done]. cbn.
    destruct (p_state p) eqn:Hs; [|done|done]. intros [= <-]. by apply send_measure.
  - destruct (n_procs n !! i) as [p|] eqn:Hi; [|done]. cbn.
    destruct (p_state p) eqn:Hs; [done| |done]. destruct (s_threads (n_sys n) !! k) as [t|]; [|done]. cbn.
    destruct (t_phase t); try done. intros [= <-].
    pose proof (set_state_measure n i p (PExit (outcome (p_env p) (p_args p) (Ok (http_of r)))) Hi).
    rewrite Hs in *. cbn in *. lia.
  - destruct (n_procs n !! i) as [p|] eqn:Hi; [|done]. cbn.
    destruct (p_state p) eqn:Hs; [done| |done]. intros [= <-].
    pose proof (set_state_measure n i p (PExit (outcome (p_env p) (p_args p) (Err (post_error req timeout_error)))) Hi).
    rewrite Hs in *. cbn in *. lia.
Qed.
Lemma set_state_lookup n i p st j q :
  n_procs (set_state i p st n) !! j = Some q →
  (j = i ∧ q = with_state p st) ∨ (j ≠ i ∧ n_procs n !! j = Some q).
Proof. unfold set_state. cbn. rewrite list_lookup_insert_Some. naive_solver. Qed.

(** What a step of the net is: a step of a goroutine, a request that
    reaches the daemon, or the exit of a process, which is normal only
    on an answer below 300 from its goroutine. *)
Lemma nstep_inv l n n' :
  nstep port job l n = Some n' →
  (∃ k s', step_at job k (n_sys n) = Some s' ∧ n' = {| n_sys := s'; n_conn := n_conn n; n_procs := n_procs n |}) ∨
  (∃ i p req, n_procs n !! i = Some p ∧ p_state p = PRun ∧ request_of (p_env p) (p_args p) = Some req ∧
     n' = set_state i p (PWait (length (s_threads (n_sys n))) req) (spawned n i req)) ∨
  (∃ i p r, n_procs n !! i = Some p ∧ is_exited (p_state p) = false ∧ n' = set_state i p (PExit r) n ∧
     (r = Ok tt → ∃ k req t rr, p_state p = PWait k req ∧ s_threads (n_sys n) !! k = Some t ∧
        t_phase t = Done rr ∧ (status rr < 300)%Z)).
Proof.
  destruct l as [k|i|i|i]; cbn.
  - destruct (step_at job k (n_sys n)) as [s'|] eqn:E; [|done]. intros [= <-]. left. eauto.
  - destruct (n_procs n !! i) as [p|] eqn:Hi; [|done]. cbn.
    destruct (p_state p) eqn:Hs; [|done|done]. intros [= <-]. unfold send.
    destruct (request_of (p_env p) (p_args p)) as [req|] eqn:Hr.
    2:{ do 2 right. eexists _, _, _. split_and!; [done|by rewrite Hs|done|].
        by intros (? & [=] & _)%outcome_ok. }
    destruct (dial port req) as [[]|e].
    2:{ do 2 right. eexists _, _, _. split_and!; [done|by rewrite Hs|done|].
        by intros (? & [=] & _)%outcome_ok. }
    destruct (tmpl_route req); [right; left; eauto 10|].
    do 2 right. eexists _, _, _. split_and!; [done|by rewrite Hs|done|].
    intros (? & [= <-] & Hst)%outcome_ok. cbn in Hst. lia.
  - destruct (n_procs n !! i) as [p|] eqn:Hi; [|done]. cbn.
    destruct (p_state p) eqn:Hs; [done| |done].
    destruct (s_threads (n_sys n) !! k) as [t|] eqn:Ht; [|done]. cbn.
    destruct (t_phase t) eqn:Hph; try done. intros [= <-].
    do 2 right. eexists _, _, _. split_and!; [done|by rewrite Hs|done|].
    intros (? & [= <-] & Hst)%outcome_ok. eauto 10.
  - destruct (n_procs n !! i) as [p|] eqn:Hi; [|done]. cbn.
    destruct (p_state p) eqn:Hs; [done| |done]. intros [= <-].
    do 2 right. eexists _, _, _. split_and!; [done|by rewrite Hs|done|].
    by intros (? & [=] & _)%outcome_ok.
Qed.

Lemma step_at_length k s s' : step_at job k s = Some s' → length (s_threads s') = length (s_threads s).
Proof. intros E. by eapply sstep_length, step_at_sstep. Qed.

Lemma nstep_waits l n n' : nstep port job l n = Some n' → waits_ok n → waits_ok n'.
Proof.
  intros Hst Hw j q k req Hj Hq.
  destruct (nstep_inv l n n' Hst) as [(k' & s' & E & ->)|[(i & p & r & Hi & Hs & Hr & ->)|(i & p & r & Hi & Hs & -> & _)]].
  - cbn in *. rewrite (step_at_length _ _ _ E). by eapply Hw.
  - destruct (set_state_lookup _ _ _ _ _ _ Hj) as [(-> & ->)|(Hne & Hj')]; cbn in *; rewrite length_app; cbn.
    + simplify_eq. lia.
    + specialize (Hw _ _ _ _ Hj' Hq). lia.
  - destruct (set_state_lookup _ _ _ _ _ _ Hj) as [(-> & ->)|(Hne & Hj')]; [done|]. by eapply Hw.
Qed.

(** A state where some process has not exited can take a step that is
    not a timeout. *)
Lemma net_progress n :
  waits_ok n → Exists (λ p, is_exited (p_state p) = false) (n_procs n) →
  ∃ l n', nstep port job l n = Some n' ∧ ∀ i, l ≠ LTimeout i.
Proof.
  intros Hw (p & Hp & Hx)%Exists_exists. apply list_elem_of_lookup_1 in Hp as [i Hi].
  destruct (p_state p) as [|k req|r] eqn:Hs; [| |done].
  - exists (LSend i). cbn. rewrite Hi. cbn. rewrite Hs. eexists; split; [done|by intros ? [=]].
  - destruct (lookup_lt_is_Some_2 (s_threads (n_sys n)) k (Hw _ _ _ _ Hi Hs)) as [t Ht].
    destruct (is_done (t_phase t)) eqn:Hd.
    + exists (LReply i). cbn. rewrite Hi. cbn. rewrite Hs, Ht. cbn.
      destruct (t_phase t); try done. eexists; split; [done|by intros ? [=]].
    + destruct (tstep_progress job t (s_fs (n_sys n)) Hd) as (t' & f' & Ht').
      exists (LDaemon k). cbn. unfold step_at. rewrite Ht, Ht'. cbn. eexists; split; [done|by intros ? [=]].
Qed.
Lemma run_labels_rtc ls n : rtc (net_step port job) n (run_labels port job ls n).
Proof.
  revert n. induction ls as [|l ls IH]; intros n; cbn; [done|].
  destruct (nstep port job l n) as [n1|] eqn:E; [|apply IH].
  eapply rtc_l; [by exists l|apply IH].
Qed.

Lemma rtc_waits f cmds n : rtc (net_step port job) (net_init f cmds) n → waits_ok n.
Proof.
  assert (waits_ok (net_init f cmds)) as H0.
  { intros i p k req Hi Hs. cbn in Hi. apply list_lookup_fmap_Some in Hi as (c & -> & _). done. }
  intros Hr. revert H0. induction Hr as [x|x y z [l Hl] _ IH]; [done|].
  intros Hx. by apply IH, (nstep_waits l x y).
Qed.

(** Every run of the processes and the daemon is finite, timeouts
    included: the step relation of the net is well founded. *)
Theorem net_terminates : well_founded (λ n' n, net_step port job n n').
Proof. apply (well_founded_lt_compat _ net_measure). intros n' n [l Hl]. by eapply nstep_measure. Qed.

(** Whatever has happened since the processes started, if no
    further timeout expires, every process exits: the steps that remain
    (goroutine steps, sends and replies) reach a state where all
    processes have exited. *)
Theorem sessions_finish f cmds n :
  rtc (net_step port job) (net_init f cmds) n →
  ∃ n', rtc (net_step_nt port job) n n' ∧ Forall (λ p, is_exited (p_state p) = true) (n_procs n').
Proof.
  intros Hr. pose proof (rtc_waits _ _ _ Hr) as Hw. clear Hr.
  remember (net_measure n) as m eqn:Hm. revert n Hw Hm.
  induction m as [m IH] using lt_wf_ind. intros n Hw ->.
  destruct (decide (Forall (λ p, is_exited (p_state p) = true) (n_procs n))) as [Hd|Hnd]; [by exists n|].
  apply not_Forall_Exists in Hnd; [|apply _].
  destruct (net_progress n Hw) as (l & n1 & Hl & Hnt).
  { eapply Exists_impl; [exact Hnd|]. intros p. apply not_true_is_false. }
  destruct (IH (net_measure n1) (nstep_measure _ _ _ Hl) n1 (nstep_waits _ _ _ Hl Hw) eq_refl) as (n' & Hr & Hd).
  exists n'. split; [|done]. eapply rtc_l; [|exact Hr]. by exists l.
Qed.
End Progress.

(** ** One process alone is [System.run_tmpl] *)

Section Refinement.
Context `{Interpolator}.
Variables (port : Z) (job : currentJob).

Lemma sstep_step_at s s' : sstep job s s' → ∃ k, step_at job k s = Some s'.
Proof. intros [s0 i t t' f' Hi Ht]. exists i. unfold step_at. by rewrite Hi, Ht. Qed.

Lemma rtc_daemon s s' conn procs :
  rtc (sstep job) s s' →
  rtc (net_step_nt port job) {| n_sys := s; n_conn := conn; n_procs := procs |}
                             {| n_sys := s'; n_conn := conn; n_procs := procs |}.
Proof.
  induction 1 as [|x y z Hxy _ IH]; [done|]. eapply rtc_l; [|exact IH].
  destruct (sstep_step_at _ _ Hxy) as [k Hk]. exists (LDaemon k). cbn. rewrite Hk. split; [done|by intros ? [=]].
Qed.

(** One [worker tmpl] process alone against the concurrent daemon,
    without a timeout, exits as [run_tmpl] (the sequential composition
    of [tmplCmd], [client.Do] over loopback and [tmplHandler]) returns,
    and leaves the file system [run_tmpl] leaves. *)
Theorem session_refines_run_tmpl env args w :
  ∃ n', rtc (net_step_nt port job) (net_init (w_fs w) [(env, args)]) n' ∧
    p_state <$> n_procs n' = [PExit (run_tmpl port job env args w).1.1] ∧
    s_fs (n_sys n') = w_fs (run_tmpl port job env args w).2.
Proof.
  set (p0 := {| p_env := env; p_args := args; p_state := PRun |}).
  assert (net_step_nt port job (net_init (w_fs w) [(env, args)]) (send port 0 p0 (net_init (w_fs w) [(env, args)])))
    as Hsend by (exists (LSend 0); split; [reflexivity|by intros ? [=]]).
  unfold run_tmpl. rewrite tmplCmd_split. unfold send in Hsend |- *. cbn [p_env p_args p0] in Hsend |- *.
  destruct (request_of env args) as [req|]; [|eexists; split; [apply rtc_once, Hsend|done]].
  cbn [client_Do loopback]. unfold loopback_Do in *. destruct (dial port req) as [[]|e];
    [|eexists; split; [apply rtc_once, Hsend|done]].
  unfold route in *. destruct (tmpl_route req); [|eexists; split; [apply rtc_once, Hsend|done]].
  set (w0 := {| w_fs := w_fs w; w_trace := [] |}).
  destruct (tmplHandler_fs job (Ok (req_body req)) w w0 eq_refl) as [Hr Hf].
  destruct (tmplHandler job (Ok (req_body req)) w) as [resp w'] eqn:Eh. cbn in Hr, Hf |- *.
  pose proof (tstep_handler job (Ok (req_body req)) w0) as Ht.
  eapply (rtc_thread job (n_sys (set_state 0 p0 (PWait 0 req) (spawned (net_init (w_fs w) [(env, args)]) 0 req))) 0)
    in Ht; [|reflexivity].
  eexists. split.
  - eapply rtc_l; [exact Hsend|]. eapply rtc_r; [apply rtc_daemon, Ht|].
    exists (LReply 0). split; [reflexivity|by intros ? [=]].
  - cbn. by rewrite Hr, Hf.
Qed.
End Refinement.

(** ** Processes with independent paths do not see each other *)

Section Isolation.
Context `{Interpolator}.
Variables (port : Z) (job : currentJob) (f0 : fs) (cmds : list (gmap string string * list string)).

(** The bodies the processes send. *)
Definition bodies0 : list (result string string) := (λ c, cmd_body c.1 c.2) <$> cmds.

Hypothesis Hind : independent bodies0.

Record net_iso (n : net) : Prop := {
  ni_bodies : pbody <$> n_procs n = bodies0;
  ni_len : length (n_conn n) = length (s_threads (n_sys n));
  ni_nodup : NoDup (n_conn n);
  ni_conn : ∀ k i, n_conn n !! k = Some i → ∃ p, n_procs n !! i = Some p ∧ p_state p ≠ PRun;
  ni_body : ∀ k t i, s_threads (n_sys n) !! k = Some t → n_conn n !! k = Some i → bodies0 !! i = Some (t_body t);
  ni_wait : ∀ i p k req, n_procs n !! i = Some p → p_state p = PWait k req → n_conn n !! k = Some i;
  ni_ok : ∀ i p, n_procs n !! i = Some p → p_state p = PExit (Ok tt) →
    ∃ k t, n_conn n !! k = Some i ∧ s_threads (n_sys n) !! k = Some t ∧ t_phase t = Done response_ok;
  ni_done : ∀ k t r, s_threads (n_sys n) !! k = Some t → t_phase t = Done r → (status r < 300)%Z → r = response_ok;
  ni_frame : ∀ q, not_written bodies0 q → nodes (s_fs (n_sys n)) !! q = nodes f0 !! q;
  ni_phase : ∀ k t, s_threads (n_sys n) !! k = Some t → phase_ok job f0 (s_fs (n_sys n)) t
}.

Lemma net_iso_init : net_iso (net_init f0 cmds).
Proof.
  split; cbn; try by intros ?? [=].
  - unfold bodies0. rewrite <- list_fmap_compose. done.
  - done.
  - by constructor.
  - by intros ??? [=].
  - intros i p k req (c & -> & _)%list_lookup_fmap_Some. done.
  - intros i p (c & -> & _)%list_lookup_fmap_Some. done.
  - by intros ??? [=].
  - done.
Qed.

(** A goroutine that answers below 300 answers 200 with an empty body. *)
Lemma tstep_done t f t' f' r :
  tstep job t f = Some (t', f') → t_phase t' = Done r → (status r < 300)%Z → r = response_ok.
Proof.
  unfold tstep. destruct t as [b ph tr]; cbn.
  destruct ph; repeat case_match; intros Hs Hd Hst; simplify_eq/=; try done;
    try (pose proof (writeError_status _); lia).
  lazymatch goal with |- write_response ?r = _ => destruct r as [[]|e] end; [done|].
  pose proof (writeError_status (EPath e)). cbn in *. lia.
Qed.

Lemma iso_thread_body n k t :
  net_iso n → s_threads (n_sys n) !! k = Some t →
  ∃ i, n_conn n !! k = Some i ∧ bodies0 !! i = Some (t_body t).
Proof.
  intros Hn Ht. destruct (lookup_lt_is_Some_2 (n_conn n) k) as [i Hi].
  { rewrite (ni_len _ Hn). by eapply lookup_lt_Some. }
  exists i. split; [done|]. by eapply ni_body.
Qed.

(** Two goroutines serve two processes, so their destinations differ. *)
Lemma iso_distinct n k k' t t' a c :
  net_iso n → k ≠ k' → s_threads (n_sys n) !! k = Some t → s_threads (n_sys n) !! k' = Some t' →
  decoded (t_body t) = Some a → decoded (t_body t') = Some c → Destination a ≠ Destination c.
Proof.
  intros Hn Hne Ht Ht' Ha Hc.
  destruct (iso_thread_body n k t Hn Ht) as (i & Hi & Hbi).
  destruct (iso_thread_body n k' t' Hn Ht') as (i' & Hi' & Hbi').
  destruct (Hind i i' _ _ a c Hbi Hbi' Ha Hc) as [_ Hd]. apply Hd. intros <-.
  apply Hne. by eapply NoDup_lookup; [apply (ni_nodup _ Hn)|..].
Qed.

(** No goroutine writes the source of another, nor its own. *)
Lemma iso_source n k t a :
  net_iso n → s_threads (n_sys n) !! k = Some t → decoded (t_body t) = Some a → not_written bodies0 (Path a).
Proof.
  intros Hn Ht Ha j b c Hj Hc. destruct (iso_thread_body n k t Hn Ht) as (i & _ & Hbi).
  destruct (Hind j i _ _ c a Hj Hbi Hc Ha) as [Hd _]. by apply not_eq_sym.
Qed.

Lemma step_at_inv k s s' :
  step_at job k s = Some s' →
  ∃ t t' f', s_threads s !! k = Some t ∧ tstep job t (s_fs s) = Some (t', f') ∧
    s' = {| s_fs := f'; s_threads := <[k := t']> (s_threads s) |}.
Proof.
  unfold step_at. destruct (s_threads s !! k) as [t|] eqn:Hk; [|done].
  destruct (tstep job t (s_fs s)) as [[t' f']|] eqn:Ht; [|done]. intros [= <-]. eauto 10.
Qed.

Lemma iso_daemon n k s' :
  step_at job k (n_sys n) = Some s' → net_iso n →
  net_iso {| n_sys := s'; n_conn := n_conn n; n_procs := n_procs n |}.
Proof.
  intros E Hn. destruct (step_at_inv _ _ _ E) as (t & t' & f' & Hk & Ht & ->).
  assert (k < length (s_threads (n_sys n))) as Hlt by (by eapply lookup_lt_Some).
  assert (∀ a, decoded (t_body t) = Some a → ∀ q, not_written bodies0 q → q ≠ Destination a) as Hnw.
  { intros a Ha q Hq. destruct (iso_thread_body n k t Hn Hk) as (i & _ & Hbi). by apply (Hq i (t_body t) a). }
  pose proof (ni_phase _ Hn k t Hk) as Hpk.
  pose proof Hn as [Hb Hl Hnd Hc Hbd Hw Hok Hdn Hf Hp]. split; cbn; try done.
  - by rewrite length_insert.
  - intros j u i Hj Hi. destruct (decide (j = k)) as [->|Hne].
    + rewrite list_lookup_insert_eq in Hj by done. injection Hj as <-.
      rewrite (tstep_body _ _ _ _ _ Ht). by eapply Hbd.
    + rewrite list_lookup_insert_ne in Hj by done. by eapply Hbd.
  - intros i p Hi Hs. destruct (Hok i p Hi Hs) as (k' & u & Hk' & Hu & Hd). exists k', u.
    split_and!; [done| |done]. rewrite list_lookup_insert_ne; [done|]. intros ->.
    rewrite Hk in Hu. injection Hu as <-. unfold tstep in Ht. by rewrite Hd in Ht.
  - intros j u r Hj Hd Hs. destruct (decide (j = k)) as [->|Hne].
    + rewrite list_lookup_insert_eq in Hj by done. injection Hj as <-. by eapply tstep_done.
    + rewrite list_lookup_insert_ne in Hj by done. by eapply Hdn.
  - intros q Hq. rewrite <- (Hf q Hq). eapply tstep_frame; [done|done|]. intros a Ha. by apply (Hnw a Ha).
  - intros j u Hj. destruct (decide (j = k)) as [->|Hne].
    + rewrite list_lookup_insert_eq in Hj by done. injection Hj as <-.
      eapply tstep_phase_ok; [done|done|]. intros a Ha. apply Hf.
      unfold phase_ok in Hpk. rewrite Ha in Hpk. by eapply (iso_source n k t).
    + rewrite list_lookup_insert_ne in Hj by done.
      apply (phase_ok_frame job f0 (s_fs (n_sys n))); [by apply (Hp j)|].
      intros c Hcd. eapply tstep_frame; [done|done|]. intros a Ha.
      by apply not_eq_sym, (iso_distinct n k j t u a c); [..|done].
Qed.
Lemma pbody_set n i p st :
  n_procs n !! i = Some p → pbody <$> n_procs (set_state i p st n) = pbody <$> n_procs n.
Proof. intros Hi. cbn. rewrite list_fmap_insert. apply list_insert_id. by rewrite list_lookup_fmap, Hi. Qed.

Lemma set_state_lookup_eq n i p st :
  n_procs n !! i = Some p → n_procs (set_state i p st n) !! i = Some (with_state p st).
Proof. intros Hi. cbn. apply list_lookup_insert_eq. by eapply lookup_lt_Some. Qed.

(** The request of process [i] reaches the daemon. *)
Lemma iso_spawn n i p req :
  n_procs n !! i = Some p → p_state p = PRun → request_of (p_env p) (p_args p) = Some req → net_iso n →
  net_iso (set_state i p (PWait (length (s_threads (n_sys n))) req) (spawned n i req)).
Proof.
  intros Hi Hs Hr Hn. pose proof Hn as [Hb Hl Hnd Hc Hbd Hw Hok Hdn Hf Hp].
  assert (i ∉ n_conn n) as Hni.
  { intros (k & Hk)%list_elem_of_lookup. destruct (Hc k i Hk) as (q & Hq & Hq'). congruence. }
  assert (bodies0 !! i = Some (Ok (req_body req))) as Hbi.
  { rewrite <- Hb, list_lookup_fmap, Hi. cbn. unfold pbody, cmd_body. by rewrite Hr. }
  split; cbn [n_sys n_conn n_procs set_state spawned s_fs s_threads].
  - exact (eq_trans (pbody_set (spawned n i req) i p _ Hi) Hb).
  - rewrite !length_app. cbn. lia.
  - apply NoDup_app. split_and!; [done| |apply NoDup_singleton]. intros x Hx ->%list_elem_of_singleton. done.
  - intros k j [[_ Hk]|[-> [= <-]]]%lookup_snoc_Some.
    + destruct (Hc k j Hk) as (q & Hq & Hq'). exists q. split; [|done].
      rewrite list_lookup_insert_ne; [done|]. intros ->. congruence.
    + eexists. split; [apply (set_state_lookup_eq (spawned n i req)); exact Hi|done].
  - intros k t j [[Hlt Hk]|[Ek <-]]%lookup_snoc_Some [[Hlt' Hj]|[Ej <-]]%lookup_snoc_Some.
    + by eapply Hbd.
    + rewrite Hl in Ej. lia.
    + rewrite Hl in Hlt'. lia.
    + done.
  - intros j q k r Hj Hq. destruct (set_state_lookup (spawned n i req) _ _ _ _ _ Hj) as [(-> & ->)|(Hne & Hj')].
    + cbn in Hq. injection Hq as <- <-. apply lookup_snoc_Some. right. by rewrite Hl.
    + apply lookup_app_l_Some. by eapply Hw.
  - intros j q Hj Hq. destruct (set_state_lookup (spawned n i req) _ _ _ _ _ Hj) as [(-> & ->)|(Hne & Hj')];
      [done|].
    destruct (Hok j q Hj' Hq) as (k & t & Hk & Ht & Hd). exists k, t.
    split_and!; [by apply lookup_app_l_Some|by apply lookup_app_l_Some|done].
  - intros k t r [[_ Hk]|[-> <-]]%lookup_snoc_Some; [by eapply Hdn|done].
  - done.
  - intros k t [[_ Hk]|[-> <-]]%lookup_snoc_Some; [by eapply Hp|done].
Qed.

(** Process [i] exits; normally only when its goroutine answered below 300. *)
Lemma iso_exit n i p r :
  n_procs n !! i = Some p → is_exited (p_state p) = false →
  (r = Ok tt → ∃ k req t rr, p_state p = PWait k req ∧ s_threads (n_sys n) !! k = Some t ∧
     t_phase t = Done rr ∧ (status rr < 300)%Z) →
  net_iso n → net_iso (set_state i p (PExit r) n).
Proof.
  intros Hi Hx Hr Hn. pose proof Hn as [Hb Hl Hnd Hc Hbd Hw Hok Hdn Hf Hp].
  split; cbn [n_sys n_conn set_state]; try done.
  - exact (eq_trans (pbody_set n i p _ Hi) Hb).
  - intros k j Hk. destruct (Hc k j Hk) as (q & Hq & Hq'). destruct (decide (j = i)) as [->|Hne].
    + eexists. split; [by apply set_state_lookup_eq|done].
    + exists q. split; [|done]. cbn. by rewrite list_lookup_insert_ne by done.
  - intros j q k req Hj Hq. destruct (set_state_lookup _ _ _ _ _ _ Hj) as [(-> & ->)|(Hne & Hj')]; [done|].
    by eapply Hw.
  - intros j q Hj Hq. destruct (set_state_lookup _ _ _ _ _ _ Hj) as [(-> & ->)|(Hne & Hj')];
      [|by eapply Hok].
    cbn in Hq. injection Hq as ->. destruct (Hr eq_refl) as (k & req & t & rr & Hs & Ht & Hd & Hst).
    exists k, t. split_and!; [by eapply Hw|done|]. rewrite Hd. f_equal. by eapply Hdn.
Qed.

Lemma iso_step n n' : net_step port job n n' → net_iso n → net_iso n'.
Proof.
  intros [l Hl] Hn.
  destruct (nstep_inv port job l n n' Hl)
    as [(k & s' & E & ->)|[(i & p & req & Hi & Hs & Hr & ->)|(i & p & r & Hi & Hx & -> & Hr)]].
  - by apply (iso_daemon n k).
  - by apply iso_spawn.
  - by apply iso_exit.
Qed.

(** C20: processes whose paths are independent (no destination is the
    source of a process, no two processes share a destination) do not
    see each other, however their steps, the goroutines' steps and the
    timeouts interleave: a process that has exited normally finds at its
    destination exactly the text [tmplHandler], alone on the initial file
    system, computes from its source. *)
Theorem sessions_isolation n i p :
  rtc (net_step port job) (net_init f0 cmds) n → n_procs n !! i = Some p → p_state p = PExit (Ok tt) →
  ∃ a res mode, decoded (pbody p) = Some a ∧ expected job f0 a = Some res ∧
    nodes (s_fs (n_sys n)) !! Destination a = Some (File res mode).
Proof.
  intros Hr Hi Hs.
  assert (net_iso n) as Hn.
  { pose proof net_iso_init as H0. revert H0. induction Hr as [x|x y z Hxy _ IH]; [done|].
    intros Hx. by apply IH, (iso_step x y). }
  destruct (ni_ok _ Hn i p Hi Hs) as (k & t & Hk & Ht & Hd).
  pose proof (ni_phase _ Hn k t Ht) as Hok. unfold phase_ok in Hok. rewrite Hd in Hok.
  destruct (Hok eq_refl) as (a & res & mode & Ha & He & Hf). exists a, res, mode.
  split_and!; [|done|done].
  pose proof (ni_body _ Hn k t i Ht Hk) as Hb. rewrite <- (ni_bodies _ Hn), list_lookup_fmap, Hi in Hb.
  injection Hb as ->. done.
Qed.
End Isolation.

(** ** The claims at concrete runs, with the reference engine *)

(** Two steps run [worker tmpl] at once: the example of [cmdTmpl]'s
    help, and a copy of the same template elsewhere. *)
Definition two_cmds : list (gmap string string * list string) :=
  [(example_env, ["/w/myFile"; "/w/outputFile"]); (example_env, ["/w/myFile"; "/w/copy"])].

Definition two_net : net := net_init (example_fs 4096) two_cmds.

(** Both send; the first is answered; the second times out while its
    goroutine has only read its source. *)
Definition timeout_run : list label :=
  [LSend 0; LSend 1; LDaemon 0; LDaemon 1; LDaemon 0; LDaemon 0; LDaemon 0; LTimeout 1; LReply 0]%nat.

Definition no_proc : proc := {| p_env := ∅; p_args := []; p_state := PRun |}.

Lemma sessions_isolation_witness :
  let n := run_labels 8090 example_job timeout_run two_net in
  let p := default no_proc (n_procs n !! 0%nat) in
  independent (bodies0 two_cmds) ∧ rtc (net_step 8090 example_job) two_net n ∧
  n_procs n !! 0%nat = Some p ∧ p_state p = PExit (Ok tt) ∧
  ∃ a res mode, decoded (pbody p) = Some a ∧ expected example_job (example_fs 4096) a = Some res ∧
    nodes (s_fs (n_sys n)) !! Destination a = Some (File res mode).
Proof.
  cbv zeta. assert (independent (bodies0 two_cmds)) as Hind by (apply independent_b_sound; vm_compute; reflexivity).
  split_and!; [exact Hind|apply run_labels_rtc|vm_compute; reflexivity|vm_compute; reflexivity|].
  apply (sessions_isolation 8090 example_job (example_fs 4096) two_cmds Hind _ 0%nat); [apply run_labels_rtc|..];
    vm_compute; reflexivity.
Defined.

(** A process that times out has exited with [client.Do]'s error, but
    its goroutine goes on: the copy is written after the process is
    gone, as the specification says ("a client process terminating early
    does not retract a write already in flight"). *)
Example timeout_keeps_write :
  let n := run_labels 8090 example_job timeout_run two_net in
  p_state <$> n_procs n =
    [PExit (Ok tt);
     PExit (Err ("tmpl call failed: Post http://127.0.0.1:8090/tmpl: " ++ timeout_error))] ∧
  nodes (s_fs (n_sys n)) !! "/w/copy" = None ∧
  nodes (s_fs (n_sys (run_labels 8090 example_job [LDaemon 1; LDaemon 1; LDaemon 1]%nat n))) !! "/w/copy" =
    Some (File long_res 420).
Proof. cbv zeta. split_and!; vm_compute; reflexivity. Qed.

End Sessions.
